(** * Cube Builder: merge, quality statistics, nodata reconciliation and blend

    A shallow embedding of [cube_builder/utils/processing.py] and the
    properties of its raster merge and temporal compositing engine.

    Conventions of the embedding.

    - A raster (a numpy array) is a [list Z] in row-major order; index
      tuples returned by [numpy.where] are therefore plain positions and
      [ravel_multi_index] / [unravel_index] are the identity.
    - A raster that is processed window by window is a [list (list Z)]:
      element [w] is the slice of block window [w].  [block_windows()]
      tiles the raster, so the slices are disjoint and cover it.
    - A Python float (efficacy, cloud ratio, resolution, score) is an IEEE 754
      binary64 number: a finite value is the rational it denotes, and every
      operation returns the double nearest to the exact result, ties to the
      even significand, or an infinity on overflow.  The sign of zero is left
      out: no operation here tells the two zeros apart.  The integers that
      are converted to floats are array sizes, far below the 2^1024 at which
      Python raises [OverflowError].
    - Casts to [profile['dtype']] are the identity (the profile data type is
      an integer type wide enough for the values at hand); the casts to the
      fixed types [int16] (the masked date stack) and [uint8] (the total
      observation counter) are written out.
    - Exceptions are values of [error]; fallible code lives in [result].
    - A path is its root and its components, as [pathlib] parses it; a
      directory is the list of its entries. *)

From Stdlib Require Import ZArith QArith Qabs Qpower Lqa String Ascii List Lia Permutation Sorted
  OrderedTypeEx.
From stdpp Require Import base tactics option list gmap strings.

Local Open Scope Z_scope.

(** ** Errors *)

Inductive error : Type :=
| KeyError (k : string)
| IndexError
| TypeError
| ValueError
| ZeroDivisionError
| RuntimeError (msg : string)
| RasterioIOError (path : string).

Inductive result (A : Type) : Type :=
| Ok (a : A)
| Err (e : error).
Arguments Ok {A} a.
Arguments Err {A} e.

Definition rbind {A B} (m : result A) (f : A -> result B) : result B :=
  match m with
  | Ok a => f a
  | Err e => Err e
  end.

Notation "'let*' x ':=' m 'in' k" := (rbind m (fun x => k))
  (at level 10, x name, m at level 100, k at level 200).

Definition require {A} (e : error) (o : option A) : result A :=
  match o with
  | Some a => Ok a
  | None => Err e
  end.

Fixpoint mapM {A B} (f : A -> result B) (l : list A) : result (list B) :=
  match l with
  | [] => Ok []
  | a :: l' => let* b := f a in let* bs := mapM f l' in Ok (b :: bs)
  end.

(** ** The numpy operations the module relies on *)

Module numpy.

(** [a == v] and [a != v] against a scalar. *)
Definition eq_scalar (a : list Z) (v : Z) : list bool := (fun x => x =? v) <$> a.
Definition ne_scalar (a : list Z) (v : Z) : list bool := (fun x => negb (x =? v)) <$> a.

(** [numpy.isin(a, values)]. *)
Definition isin (a values : list Z) : list bool :=
  (fun x => existsb (Z.eqb x) values) <$> a.

Definition invert (m : list bool) : list bool := negb <$> m.
Definition logical_and (a b : list bool) : list bool := zip_with andb a b.

(** [numpy.where(cond)]: the positions at which [cond] holds, ascending. *)
Fixpoint where_from (k : nat) (cond : list bool) : list nat :=
  match cond with
  | [] => []
  | b :: cond' => if b then k :: where_from (S k) cond' else where_from (S k) cond'
  end.
Definition where_ (cond : list bool) : list nat := where_from 0 cond.

(** [numpy.intersect1d] and [numpy.union1d] on position arrays.  Both
    numpy functions return their result sorted and without repetition; the
    results here hold the same positions, which is all an indexed store
    depends on. *)
Definition intersect1d (a b : list nat) : list nat := list_intersection a b.
Definition union1d (a b : list nat) : list nat := list_union a b.

(** [a[idx]]. *)
Definition take_at {A} (a : list A) (idx : list nat) : list A :=
  omap (fun i => a !! i) idx.

(** [dst[idx] = src[idx]]. *)
Definition put_from {A} (dst src : list A) (idx : list nat) : list A :=
  foldl (fun d i => match src !! i with Some v => <[i:=v]> d | None => d end) dst idx.

(** [dst[idx] = v]. *)
Definition put_const {A} (dst : list A) (idx : list nat) (v : A) : list A :=
  foldl (fun d i => <[i:=v]> d) dst idx.

Definition full (n : nat) (v : Z) : list Z := replicate n v.
Definition zeros (n : nat) : list Z := replicate n 0.

End numpy.


(** ** Casts to the fixed numpy types *)

(** [astype(numpy.int16)]: two's complement wrap-around on 16 bits. *)
Definition astype_int16 (z : Z) : Z := (z + 32768) mod 65536 - 32768.

(** [astype(numpy.uint8)]: wrap-around on 8 bits. *)
Definition astype_uint8 (z : Z) : Z := z mod 256.

(** ** Python numbers *)

(** Rounding of a rational to the nearest integer, ties to even. *)
Definition round_half_even (q : Q) : Z :=
  let n := Qnum q in
  let d := Zpos (Qden q) in
  let f := n / d in
  match (2 * (n mod d)) ?= d with
  | Lt => f
  | Gt => f + 1
  | Eq => if Z.even f then f else f + 1
  end.

(** A [float]: a finite number, an infinity with its sign, or not a number. *)
Inductive float : Type :=
| Finite (q : Q)
| Infinity (negative : bool)
| NaN.

(** IEEE 754 binary64: 53 significant bits, steps of at least [2 ^ -1074],
    finite values below [2 ^ 1024]. *)
Module binary64.

(** The binade of [q > 0]: the [e] with [2 ^ e <= q < 2 ^ (e + 1)]. *)
Definition binade (q : Q) : Z :=
  let e := Z.log2 (Qnum q) - Z.log2 (Zpos (Qden q)) in
  if Qle_bool (2 ^ e) q then e else e - 1.

(** The exponent of the unit in the last place at [q]. *)
Definition quantum (q : Q) : Z := Z.max (binade (Qabs q) - 52) (-1074).

(** The multiple of the unit in the last place that is nearest to [q], ties
    to the even multiple, in lowest terms. *)
Definition nearest (q : Q) : Q :=
  Qred (inject_Z (round_half_even (q / 2 ^ quantum q)) * 2 ^ quantum q).

(** Rounding of an exact result to a double. *)
Definition round (q : Q) : float :=
  let r := nearest q in
  if Qle_bool (2 ^ 1024) (Qabs r) then Infinity (negb (Qle_bool 0 q)) else Finite r.

Definition is_zero (x : float) : bool :=
  match x with
  | Finite q => Qeq_bool q 0
  | _ => false
  end.

Definition negative (x : float) : bool :=
  match x with
  | Finite q => negb (Qle_bool 0 q)
  | Infinity s => s
  | NaN => false
  end.

Definition mul (x y : float) : float :=
  match x, y with
  | NaN, _ | _, NaN => NaN
  | Finite a, Finite b => round (a * b)
  | _, _ => if is_zero x || is_zero y then NaN else Infinity (xorb (negative x) (negative y))
  end.

(** Division by a number other than zero. *)
Definition div (x y : float) : float :=
  match x, y with
  | NaN, _ | _, NaN => NaN
  | Finite a, Finite b => round (a / b)
  | Finite _, Infinity _ => Finite 0
  | Infinity s, Finite _ => Infinity (xorb s (negative y))
  | Infinity _, Infinity _ => NaN
  end.

(** The order of the numbers; [NaN] compares with nothing. *)
Definition compare (x y : float) : option comparison :=
  match x, y with
  | NaN, _ | _, NaN => None
  | Finite a, Finite b => Some (a ?= b)%Q
  | Finite _, Infinity s => Some (if s then Gt else Lt)
  | Infinity s, Finite _ => Some (if s then Lt else Gt)
  | Infinity s, Infinity s' =>
      Some (if s then (if s' then Eq else Lt) else (if s' then Gt else Eq))
  end.

Definition eqb (x y : float) : bool :=
  match compare x y with Some Eq => true | _ => false end.

Definition ltb (x y : float) : bool :=
  match compare x y with Some Lt => true | _ => false end.


End binary64.


(** An [int] as an operand of float arithmetic. *)
Definition float_of_int (z : Z) : float := binary64.round (inject_Z z).

(** [x / y]. *)
Definition float_truediv (x y : float) : result float :=
  if binary64.is_zero y then Err ZeroDivisionError else Ok (binary64.div x y).

(** [round(x, 2)]: the double nearest to the two-decimal number that is
    nearest to [x], ties to the even last digit. *)
Definition round2 (x : float) : float :=
  match x with
  | Finite q => binary64.round (round_half_even (q * 100) # 100)
  | _ => x
  end.

(** [100. * a / b] for integers [a] and [b]. *)
Definition percent (a b : Z) : result float :=
  float_truediv (binary64.mul (Finite 100) (float_of_int a)) (float_of_int b).

Arguments float_truediv : simpl never.
Arguments round2 : simpl never.
Arguments percent : simpl never.

(** [str.lower()] on ASCII letters. *)
Definition lower_ascii (c : ascii) : ascii :=
  let n := nat_of_ascii c in
  if ((65 <=? n) && (n <=? 90))%nat then ascii_of_nat (n + 32) else c.

Fixpoint lower (s : string) : string :=
  match s with
  | EmptyString => EmptyString
  | String c s' => String (lower_ascii c) (lower s')
  end.

(** [str.startswith(p)]. *)
Definition startswith (s p : string) : bool := String.prefix p s.

(** [list.index(x)], which raises [ValueError] when [x] is not in the list. *)
Fixpoint index_from (k : Z) (x : string) (l : list string) : result Z :=
  match l with
  | [] => Err ValueError
  | y :: l' => if String.eqb y x then Ok k else index_from (k + 1) x l'
  end.
Definition index (l : list string) (x : string) : result Z := index_from 0 x l.

(** ** Quality mask specifications *)

(** The mask dictionary.  [None] stands for a key that is absent (for
    [mask_nodata] also for a key bound to [None]); [mask_confidence] tells
    whether a non-empty ['confidence'] entry is present, its contents being
    read by [get_qa_mask] only. *)
Record mask : Type := {
  mask_clear_data : option (list Z);
  mask_not_clear_data : option (list Z);
  mask_saturated_data : option (list Z);
  mask_nodata : option Z;
  mask_bits : option bool;
  mask_saturated_band : option string;
  mask_confidence : bool
}.

(** The value of [confidence.oli]: the default [True], or the per-pixel array
    derived from a data-source raster. *)
Inductive oli_flag : Type :=
| OliDefault
| OliArray (a : list bool).

(** What [get_qa_mask] receives as [confidence]: the raw ['confidence'] entry
    of the mask, or a [QAConfidence] object. *)
Inductive confidence : Type :=
| ConfidenceEntry
| QAConfidence (oli : oli_flag).

(** An opened raster file: its content per block window, and the validity
    mask a masked read returns for each window ([true] = masked). *)
Record dataset : Type := {
  ds_blocks : list (list Z);
  ds_mask : list (list bool)
}.

(** [src.read(1, window=w)] and the mask of [src.read(1, window=w, masked=True)]. *)
Definition read (ds : dataset) (w : nat) : list Z := default [] (ds_blocks ds !! w).
Definition read_mask (ds : dataset) (w : nat) : list bool := default [] (ds_mask ds !! w).

(** Modelled from the spec: [radsat_extract_bits] of [utils/image.py], the
    bit-range extraction "given a value, a starting bit offset, and a bit
    count, return the unsigned integer formed by that bit slice" (so that
    1026 and 1037 at offset 1, count 7 give 1 and 6, as the test of the
    function expects). *)
Definition radsat_extract_bits (value bit_start bit_count : Z) : Z :=
  Z.land (Z.shiftr value bit_start) (2 ^ bit_count - 1).

(** ** Paths *)

(** The operations of [pathlib] on POSIX paths that the module relies on.  A
    path is its root (none, [/], or the [//] that POSIX sets apart) and its
    components. *)
Module pathlib.

Inductive anchor : Type :=
| Relative
| Root
| DoubleRoot.

#[global] Instance anchor_eq_dec : EqDecision anchor.
Proof. solve_decision. Defined.

Record Path : Type := {
  root : anchor;
  parts : list string
}.

(** [s.split('/')]. *)
Fixpoint split (s : string) : list string :=
  match s with
  | EmptyString => [EmptyString]
  | String c s' =>
      if Ascii.eqb c "/" then EmptyString :: split s'
      else match split s' with
           | [] => [String c EmptyString]
           | x :: l => String c x :: l
           end
  end.

(** The components of a path string: what lies between the slashes, the
    empty strings and the dots left out. *)
Definition components (s : string) : list string :=
  filter (fun x => negb (String.eqb x EmptyString) && negb (String.eqb x ".") = true) (split s).

Fixpoint leading_slashes (s : string) : nat :=
  match s with
  | EmptyString => 0
  | String c s' => if Ascii.eqb c "/" then S (leading_slashes s') else 0
  end.

(** The root of a path string: two leading slashes are kept as they are,
    any other number of them is one slash. *)
Definition splitroot (s : string) : anchor :=
  match leading_slashes s with
  | 0 => Relative
  | 2 => DoubleRoot
  | _ => Root
  end%nat.

(** [Path(s)]. *)
Definition parse (s : string) : Path := {| root := splitroot s; parts := components s |}.

(** [p / q]: a rooted right operand replaces the left one. *)
Definition truediv (p q : Path) : Path :=
  match root q with
  | Relative => {| root := root p; parts := parts p ++ parts q |}
  | _ => q
  end.

(** [Path] of several segments. *)
Definition join (segments : list string) : Path :=
  foldl (fun p s => truediv p (parse s)) {| root := Relative; parts := [] |} segments.

Definition anchor_str (a : anchor) : string :=
  match a with
  | Relative => EmptyString
  | Root => "/"
  | DoubleRoot => "//"
  end.

(** [str(p)]. *)
Definition str (p : Path) : string :=
  match root p, parts p with
  | Relative, [] => "."
  | a, l => anchor_str a ++ String.concat "/" l
  end.

(** [p.relative_to] of the segments [other]: [TypeError] without a segment,
    [ValueError] when their path is not a leading part of [p]. *)
Definition relative_to (p : Path) (other : list string) : result Path :=
  match other with
  | [] => Err TypeError
  | _ =>
      let to := join other in
      let n := length (parts to) in
      if bool_decide (root p = root to) && bool_decide (take n (parts p) = parts to)
      then Ok {| root := Relative; parts := drop n (parts p) |}
      else Err ValueError
  end.

(** The part of a name from its last dot on, if it has a dot. *)
Fixpoint from_last_dot (name : string) : option string :=
  match name with
  | EmptyString => None
  | String c name' =>
      match from_last_dot name' with
      | Some ext => Some ext
      | None => if Ascii.eqb c "." then Some name else None
      end
  end.

(** [p.suffix] for a path whose last component is [name]: the name from its
    last dot on, unless that dot opens or closes the name. *)
Definition suffix (name : string) : string :=
  match from_last_dot name with
  | Some ext =>
      let i := (String.length name - String.length ext)%nat in
      if (0 <? i)%nat && (i <? String.length name - 1)%nat then ext else EmptyString
  | None => EmptyString
  end.

End pathlib.

Section Paths.
Import pathlib.

(** [Config.WORK_DIR], [Config.DATA_DIR] and [Config.ITEM_PREFIX]. *)
Variables WORK_DIR DATA_DIR ITEM_PREFIX : string.

(** What [concat_path] is given: strings or paths. *)
Inductive path_like : Type :=
| Str (s : string)
| PathObj (p : Path).

Definition str_of (entry : path_like) : string :=
  match entry with
  | Str s => s
  | PathObj p => str p
  end.

(** [s[1:]]. *)
Definition drop_first (s : string) : string :=
  match s with
  | EmptyString => EmptyString
  | String _ s' => s'
  end.

(** The body of [for entry in entries]. *)
Definition concat_entry (base : Path) (entry : path_like) : Path :=
  if startswith (str_of entry) "/"
  then truediv base (parse (drop_first (str_of entry)))
  else match entry with
       | Str s => truediv base (parse s)
       | PathObj p => truediv base p
       end.

Definition concat_path (entries : list path_like) : Path :=
  foldl concat_entry (parse "/") entries.

Definition is_relative_to (absolute_path : Path) (other : list string) : result bool :=
  match relative_to absolute_path other with
  | Ok _ => Ok true
  | Err ValueError => Ok false
  | Err e => Err e
  end.

(** [data_dir or Config.DATA_DIR]. *)
Definition data_dir_or_default (data_dir : option string) : string :=
  match data_dir with
  | Some d => if String.eqb d EmptyString then DATA_DIR else d
  | None => DATA_DIR
  end.

Definition _item_prefix (absolute_path : Path) (data_dir : option string) : result Path :=
  let data_dir := data_dir_or_default data_dir in
  let* under_work_dir := is_relative_to absolute_path [WORK_DIR] in
  let* relative_prefix :=
    (if under_work_dir then Ok WORK_DIR
     else
       let* under_data_dir := is_relative_to absolute_path [data_dir] in
       if under_data_dir then Ok data_dir else Err ValueError) in
  let* relative_path := relative_to absolute_path [relative_prefix] in
  Ok (concat_path [Str ITEM_PREFIX; PathObj relative_path]).

End Paths.

(** *** cleanup *)

(** An entry of a directory: its name, and whether it is a file. *)
Record dir_entry : Type := {
  entry_name : string;
  entry_is_file : bool
}.

(** The entries [cleanup] unlinks. *)
Definition is_temporary (entry : dir_entry) : bool :=
  entry_is_file entry
  && startswith (entry_name entry) "tmp"
  && String.eqb (lower (pathlib.suffix (entry_name entry))) ".tif".

(** [cleanup], on the entries of the directory: the entries that are left,
    or [None] when the directory, left empty, is removed. *)
Definition cleanup (directory : list dir_entry) : option (list dir_entry) :=
  match filter (fun entry => is_temporary entry = false) directory with
  | [] => None
  | remaining => Some remaining
  end.

(** A component of a path: not empty and without a leading slash. *)
Definition component (x : string) : Prop := x <> EmptyString /\ startswith x "/" = false.

Section Processing.


(** [get_qa_mask] of [utils/image.py] is not part of the sources at hand: the
    mask of the array it returns is a parameter, applied to the quality
    values, the mask they come with (if any), the clear and not-clear bit
    lists, the mask nodata and the confidence. *)
Variable get_qa_mask :
  list Z -> option (list bool) -> list Z -> list Z -> Z -> option confidence -> list bool.

(** [datetime.strptime(key, '%Y-%m-%d').timetuple().tm_yday]. *)
Variable day_of_year : string -> result Z.

(** The reading of a platform name in [merge] (is it a Landsat platform of
    version above 7) and in [blend] (of version 8 or more), which may fail on
    a name that does not parse; [false] for any other platform. *)
Variable merge_platform_is_oli : string -> result bool.
Variable blend_platform_is_oli : string -> result bool.

(** Constants of [cube_builder/constants.py]. *)
Variable DATASOURCE_NAME : string.
Variable TOTAL_OBSERVATION_NAME : string.
Variable CLEAR_OBSERVATION_NAME : string.
Variable PROVENANCE_NAME : string.
Variable DATASOURCE_NODATA : Z.
(** [astype(CLEAR_OBSERVATION_ATTRIBUTES['data_type'])]. *)
Variable astype_clear_observation : Z -> Z.

(** *** parse_mask *)

Definition parse_mask (m : mask) : result mask :=
  let* clear_data := require (KeyError "clear_data") (mask_clear_data m) in
  let not_clear_data := default [] (mask_not_clear_data m) in
  let saturated_data := default [] (mask_saturated_data m) in
  match mask_nodata m with
  | None => Err (RuntimeError "Expected nodata value set to compute data set statistics.")
  | Some nodata =>
      Ok {| mask_clear_data := Some clear_data;
            mask_not_clear_data := Some not_clear_data;
            mask_saturated_data := Some saturated_data;
            mask_nodata := Some nodata;
            mask_bits := Some (default false (mask_bits m));
            mask_saturated_band :=
              match mask_saturated_band m with
              | Some b => if String.eqb b EmptyString then None else Some b
              | None => None
              end;
            mask_confidence := false |}
  end.

(** *** _qa_statistics *)

Definition _qa_statistics (raster : list Z) (m : mask) (compute : bool)
    (conf : option confidence) : result (float * float) :=
  let* m := (if compute then parse_mask m else Ok m) in
  let conf :=
    match conf with
    | Some c => Some c
    | None => if mask_confidence m then Some ConfidenceEntry else None
    end in
  let total_pixels := Z.of_nat (length raster) in
  let* bits := require (KeyError "bits") (mask_bits m) in
  let* pixels :=
    (if bits then
       let* nodata := require (KeyError "nodata") (mask_nodata m) in
       let nodata_pixels :=
         Z.of_nat (length (numpy.take_at raster (numpy.where_ (numpy.eq_scalar raster nodata)))) in
       let* clear_data := require (KeyError "clear_data") (mask_clear_data m) in
       let* not_clear_data := require (KeyError "not_clear_data") (mask_not_clear_data m) in
       let qa_mask := get_qa_mask raster None clear_data not_clear_data nodata conf in
       let clear_pixels := Z.of_nat (length (numpy.where_ (numpy.invert qa_mask))) in
       let not_clear_pixels := Z.of_nat (length (numpy.where_ qa_mask)) - nodata_pixels in
       Ok (clear_pixels, not_clear_pixels)
     else
       let* clear_data := require (KeyError "clear_data") (mask_clear_data m) in
       let clear_pixels :=
         Z.of_nat (length (numpy.take_at raster (numpy.where_ (numpy.isin raster clear_data)))) in
       let* not_clear_data := require (KeyError "not_clear_data") (mask_not_clear_data m) in
       let not_clear_pixels :=
         Z.of_nat (length (numpy.take_at raster (numpy.where_ (numpy.isin raster not_clear_data)))) in
       Ok (clear_pixels, not_clear_pixels)) in
  let clear_pixels := fst pixels in
  let not_clear_pixels := snd pixels in
  let image_area := clear_pixels + not_clear_pixels in
  let* not_clear_ratio :=
    (if image_area =? 0 then Ok (Finite 100)
     else let* ratio := percent not_clear_pixels image_area in Ok (round2 ratio)) in
  let* efficacy := percent clear_pixels total_pixels in
  Ok (round2 efficacy, not_clear_ratio).

(** [compute_data_set_stats]: the statistics of a stored raster. *)
Definition compute_data_set_stats (data_set : dataset) (m : mask) (compute : bool)
    : result (float * float) :=
  _qa_statistics (concat (ds_blocks data_set)) m compute None.

(** *** merge *)

(** A source asset.  [asset_platform] is [asset.get('platform', '')].
    [asset_raster] is the array [raster] as it stands when the asset is merged
    into the buffer: the asset read (or reprojected into the target grid) and,
    when a scale applies, rescaled. *)
Record asset : Type := {
  asset_dataset : string;
  asset_platform : string;
  asset_raster : list Z
}.

(** The buffers the loop over the assets updates. *)
Record merge_buffers : Type := {
  raster_merge : list Z;
  raster_provenance : list Z;
  index_landsat_oli : list Z;
  platforms_used : list string
}.

(** The part of the returned options the properties are about, with the
    merged raster that is persisted. *)
Record merge_result : Type := {
  merge_raster : list Z;
  merge_provenance : option (list Z);
  merge_efficacy : float;
  merge_cloudratio : float;
  merge_nodata : Z;
  merge_platforms_used : list string
}.

Definition is_combined_collection (datasets platforms : list string) (combined : bool) : bool :=
  (1 <? length datasets)%nat || ((1 <? length platforms)%nat && combined).

(** The body of [for asset in assets]. *)
Definition merge_asset (nodata : Z) (datasets platforms : list string)
    (combined build_provenance : bool) (buf : merge_buffers) (a : asset) : result merge_buffers :=
  let dataset := asset_dataset a in
  let platform := asset_platform a in
  let* index_oli :=
    (if negb (String.eqb platform EmptyString) && combined then
       let* is_oli := merge_platform_is_oli platform in
       if is_oli then
         let* k := index platforms platform in Ok (index_landsat_oli buf ++ [k])
       else Ok (index_landsat_oli buf)
     else Ok (index_landsat_oli buf)) in
  let used :=
    if String.eqb platform EmptyString then platforms_used buf else platforms_used buf ++ [platform] in
  let raster := asset_raster a in
  let* merged :=
    (if is_combined_collection datasets platforms combined then
       let positions_todo := numpy.where_ (numpy.eq_scalar (raster_merge buf) nodata) in
       let valid_positions := numpy.where_ (numpy.ne_scalar raster nodata) in
       let intersect_ravel := numpy.intersect1d positions_todo valid_positions in
       if (0 <? length intersect_ravel)%nat then
         let merged := numpy.put_from (raster_merge buf) raster intersect_ravel in
         if build_provenance then
           let* k := index datasets dataset in
           Ok (merged, numpy.put_const (raster_provenance buf) intersect_ravel k)
         else Ok (merged, raster_provenance buf)
       else Ok (raster_merge buf, raster_provenance buf)
     else
       Ok (numpy.put_from (raster_merge buf) raster (numpy.where_ (numpy.ne_scalar raster nodata)),
           raster_provenance buf)) in
  let* provenance :=
    (if build_provenance then
       let where_valid := numpy.invert (numpy.eq_scalar raster nodata) in
       let* k := index platforms platform in
       Ok (numpy.put_const (snd merged) (numpy.where_ where_valid) k)
     else Ok (snd merged)) in
  Ok {| raster_merge := fst merged;
        raster_provenance := provenance;
        index_landsat_oli := index_oli;
        platforms_used := used |}.

(** The loop over the assets, in iteration order. *)
Fixpoint merge_assets (nodata : Z) (datasets platforms : list string)
    (combined build_provenance : bool) (buf : merge_buffers) (assets : list asset)
    : result merge_buffers :=
  match assets with
  | [] => Ok buf
  | a :: assets' =>
      let* buf' := merge_asset nodata datasets platforms combined build_provenance buf a in
      merge_assets nodata datasets platforms combined build_provenance buf' assets'
  end.

(** [merge], for a target grid of [size] pixels.  [band_nodata] is
    [band_map[band]['nodata']]. *)
Definition merge (m : mask) (assets : list asset) (band : string) (band_nodata : Z)
    (quality_band : option string) (datasets platforms : list string)
    (combined build_provenance compute : bool) (size : nat) : result merge_result :=
  let is_quality := bool_decide (quality_band = Some band) in
  let* nodata :=
    (if is_quality then require TypeError (mask_nodata m) else Ok band_nodata) in
  let buf0 := {| raster_merge := numpy.full size nodata;
                 raster_provenance := numpy.full size DATASOURCE_NODATA;
                 index_landsat_oli := [];
                 platforms_used := [] |} in
  let* buf := merge_assets nodata datasets platforms combined build_provenance buf0 assets in
  (* template is still None when no asset was read *)
  let* _ := (if bool_decide (assets = []) then Err TypeError else Ok tt) in
  let with_confidence :=
    build_provenance && default false (mask_bits m) && mask_confidence m in
  let conf :=
    if with_confidence then
      Some (QAConfidence (OliArray
        ((fun v => existsb (Z.eqb v) (index_landsat_oli buf)) <$> raster_provenance buf)))
    else None in
  let* stats :=
    (if is_quality then _qa_statistics (raster_merge buf) m compute conf
     else Ok (Finite 0, Finite 100)) in
  Ok {| merge_raster := raster_merge buf;
        merge_provenance :=
          if is_quality && build_provenance then Some (raster_provenance buf) else None;
        merge_efficacy := fst stats;
        merge_cloudratio := snd stats;
        merge_nodata := nodata;
        merge_platforms_used := platforms_used buf |}.

(** *** post_processing_quality *)

(** A merged band of the date: its name, its nodata in the band map, its file. *)
Record band_file : Type := {
  bf_name : string;
  bf_nodata : Z;
  bf_data : dataset
}.

Definition _default_bands : list string :=
  [DATASOURCE_NAME; "ndvi"; "evi"; "cnc"; TOTAL_OBSERVATION_NAME; CLEAR_OBSERVATION_NAME;
   PROVENANCE_NAME]%string.

Definition in_strings (x : string) (l : list string) : bool := existsb (String.eqb x) l.

Definition bands_without_quality (bands : list band_file) (quality_band : string)
    : list band_file :=
  filter (fun b => negb (String.eqb (bf_name b) quality_band)
                   && negb (in_strings (lower (bf_name b)) _default_bands) = true) bands.

Definition is_sentinel (d : option string) : bool :=
  match d with
  | Some name => startswith (lower name) "s2" || startswith (lower name) "sentinel"
  | None => false
  end.

(** The value written over the positions found nodata in some band. *)
Definition saturated_value (nodata : Z) (datasets : list (option string)) : Z :=
  foldl (fun saturated d => if is_sentinel d then 1 else saturated) nodata datasets.

(** The body of [for _, block in blocks], on the slice [quality_block] of the
    quality raster that belongs to window [w]. *)
Definition post_processing_block (nodata saturated : Z) (bands : list band_file)
    (w : nat) (quality_block : list Z) : list Z :=
  let nodata_scl := numpy.eq_scalar quality_block nodata in
  let nodata_positions :=
    foldl (fun positions b =>
             let raster := read (bf_data b) w in
             let raster_nodata_pos := numpy.where_ (numpy.eq_scalar raster (bf_nodata b)) in
             numpy.union1d positions raster_nodata_pos) [] bands in
  if (0 <? length nodata_positions)%nat then
    let patched := numpy.put_const quality_block nodata_positions saturated in
    numpy.put_const patched (numpy.where_ nodata_scl) nodata
  else quality_block.

(** [post_processing_quality]: the quality raster that is saved back, block
    by block.  [nodata] is the nodata of the quality file. *)
Definition post_processing_quality (quality_file : dataset) (nodata : Z)
    (bands : list band_file) (quality_band : string) (datasets : list (option string))
    : list (list Z) :=
  let selected := bands_without_quality bands quality_band in
  let saturated := saturated_value nodata datasets in
  imap (post_processing_block nodata saturated selected) (ds_blocks quality_file).

(** *** blend *)

(** One entry of [activity['scenes']]: the merge of one date. *)
Record scene : Type := {
  scene_efficacy : float;
  scene_resx : option float;
  scene_resy : option float;
  scene_resolution : option float;
  scene_ARDfiles : gmap string string
}.

(** The blend activity.  [act_scenes] is the dictionary of scenes in its
    iteration order, keyed by date; [act_nodata] is [activity.get('nodata')]. *)
Record activity : Type := {
  act_scenes : list (string * scene);
  act_band : string;
  act_mask : mask;
  act_nodata : option Z;
  act_datasets : list string;
  act_platforms : list string;
  act_composite_function : string
}.

(** [a or b] on optional numbers. *)
Definition py_or (a b : option float) : option float :=
  match a with
  | Some x => if binary64.is_zero x then b else a
  | None => b
  end.

(** The ranking key [100. * efficacy / resolution] of a scene. *)
Definition scene_score (s : scene) : result float :=
  match py_or (py_or (scene_resx s) (scene_resy s)) (scene_resolution s) with
  | None => Err TypeError
  | Some resolution => float_truediv (binary64.mul (Finite 100) (scene_efficacy s)) resolution
  end.

Definition mask_tuples (scenes : list (string * scene)) : result (list (float * string)) :=
  mapM (fun entry => let* score := scene_score (snd entry) in Ok (score, fst entry)) scenes.

(** Comparison of the tuples [(score, key)]: the first pair of items that
    are not equal decides; the scores, when they differ, and the keys
    otherwise. *)
Definition tuple_lt (a b : float * string) : bool :=
  if binary64.eqb (fst a) (fst b) then String.ltb (snd a) (snd b)
  else binary64.ltb (fst a) (fst b).

(** [sorted(l, reverse=True)]: descending, elements that compare equal keep
    their order. *)
Fixpoint insert_reverse (x : float * string) (l : list (float * string))
    : list (float * string) :=
  match l with
  | [] => [x]
  | y :: l' => if tuple_lt x y then y :: insert_reverse x l' else x :: l
  end.

Definition sorted_reverse (l : list (float * string)) : list (float * string) :=
  foldr insert_reverse [] l.

(** [activity['scenes'][key]]. *)
Fixpoint scenes_lookup (scenes : list (string * scene)) (key : string) : result scene :=
  match scenes with
  | [] => Err (KeyError key)
  | entry :: scenes' =>
      if String.eqb (fst entry) key then Ok (snd entry) else scenes_lookup scenes' key
  end.

Definition rasterio_open (fs : gmap string dataset) (path : string) : result dataset :=
  require (RasterioIOError path) (fs !! path).

(** The files opened for one ranked date. *)
Record opened : Type := {
  o_key : string;
  o_band_path : string;
  o_band : dataset;
  o_quality : dataset;
  o_datasource : option dataset
}.

(** The loop [for m in sorted(mask_tuples, reverse=True)] that opens the
    quality and band files in ranking order and parses the mask on its first
    round. *)
Fixpoint open_scenes (fs : gmap string dataset) (act : activity) (quality_band : string)
    (mask_values : option mask) (ranked : list (float * string))
    : result (list opened * option mask) :=
  match ranked with
  | [] => Ok ([], mask_values)
  | m :: ranked' =>
      let key := snd m in
      let* sc := scenes_lookup (act_scenes act) key in
      let* quality_path := require (KeyError quality_band) (scene_ARDfiles sc !! quality_band) in
      let* quality_ref := rasterio_open fs quality_path in
      let* parsed :=
        (match mask_values with
         | None => parse_mask (act_mask act)
         | Some parsed => Ok parsed
         end) in
      let* band_path := require (KeyError (act_band act)) (scene_ARDfiles sc !! act_band act) in
      let* datasource :=
        (match scene_ARDfiles sc !! DATASOURCE_NAME with
         | Some path =>
             if String.eqb path EmptyString then Ok None
             else let* ds := rasterio_open fs path in Ok (Some ds)
         | None => Ok None
         end) in
      let* band_ref := rasterio_open fs band_path in
      let* rest := open_scenes fs act quality_band (Some parsed) ranked' in
      Ok ({| o_key := key; o_band_path := band_path; o_band := band_ref;
             o_quality := quality_ref; o_datasource := datasource |} :: fst rest,
          snd rest)
  end.

(** [merges_band_map]: band file name to scene key, a later entry replacing
    an earlier one of the same name. *)
Definition merges_band_map (files : list opened) : gmap string string :=
  foldl (fun map o => <[o_band_path o := o_key o]> map) ∅ files.

(** [provenance_merge_map]: scene key to the data-source file of the date. *)
Definition provenance_merge_map (files : list opened) : gmap string (option dataset) :=
  foldl (fun map o =>
           match o_datasource o with
           | Some ds => <[o_key o := Some ds]> map
           | None => match map !! o_key o with Some _ => map | None => <[o_key o := None]> map end
           end) ∅ files.

(** What the loop over the windows reads but does not change. *)
Record blend_context : Type := {
  cx_nodata : Z;
  cx_mask_values : mask;
  cx_clear_values : list Z;
  cx_not_clear_values : list Z;
  cx_saturated_values : list Z;
  cx_mask_nodata : Z;
  cx_bits : bool;
  cx_files : list opened;
  cx_saturated_list : list dataset;
  cx_index_landsat_oli : list Z;
  cx_with_datasource : bool;
  cx_apply_valid_range : bool;
  cx_min_value : Z;
  cx_max_value : Z;
  cx_median : bool;
  cx_build_clear_observation : bool
}.

(** The arrays a window owns while its dates are processed: the masked date
    stack, the not-done mask, and the window's slices of the stack raster, of
    the total observation counter, of the day-of-year provenance and of the
    data-source raster. *)
Record block_buffers : Type := {
  stackMA : list (list Z * list bool);
  notdonemask : list bool;
  stack_raster : list Z;
  stack_total_observation : list Z;
  provenance_array : list Z;
  data_set_block : list Z
}.

(** The mask of [masked] once the quality values of the date are classified:
    [true] for a pixel that is not clear. *)
Definition classify (cx : blend_context) (raster quality : list Z) (quality_mask : list bool)
    (conf : option confidence) : list bool :=
  if cx_bits cx then
    get_qa_mask quality (Some quality_mask) (cx_clear_values cx) (cx_not_clear_values cx)
      (cx_mask_nodata cx) conf
  else
    let m := numpy.put_const quality_mask
               (numpy.where_ (numpy.isin quality (cx_not_clear_values cx))) true in
    let m := numpy.put_const m (numpy.where_ (numpy.eq_scalar raster (cx_nodata cx))) true in
    let m := numpy.put_const m
               (numpy.where_ (numpy.isin quality (cx_saturated_values cx))) true in
    numpy.put_const m (numpy.where_ (numpy.isin quality (cx_clear_values cx))) false.

(** What the first half of the body of [for order in range(numscenes)] reads
    and derives for one date in window [w]: the band raster, the quality
    values, the final mask [bmask] of the classified quality array, the day of
    the year and the block of the data-source raster. *)
Record date_read : Type := {
  d_raster : list Z;
  d_quality : list Z;
  d_bmask : list bool;
  d_day : Z;
  d_datasource_block : list Z
}.

Definition read_date (cx : blend_context) (w order : nat) (o : opened) : result date_read :=
  let raster := read (o_band o) w in
  let quality := read (o_quality o) w in
  let* quality_mask :=
    (match cx_saturated_list cx with
     | [] => Ok (read_mask (o_quality o) w)
     | _ =>
         let* saturated_file := require IndexError (cx_saturated_list cx !! order) in
         let saturated :=
           (fun v => negb (radsat_extract_bits v 1 7 =? 0)) <$> read saturated_file w in
         Ok (numpy.put_const (read_mask (o_quality o) w) (numpy.where_ saturated) true)
     end) in
  let* key := require (KeyError (o_band_path o)) (merges_band_map (cx_files cx) !! o_band_path o) in
  let* day := day_of_year key in
  let* datasource_block :=
    (if cx_with_datasource cx then
       match provenance_merge_map (cx_files cx) !! key with
       | Some (Some ds) => Ok (read ds w)
       | Some None => Err TypeError
       | None => Err (KeyError key)
       end
     else Ok []) in
  let conf :=
    if cx_bits cx then
      Some (QAConfidence
              (if cx_with_datasource cx
               then OliArray (numpy.isin datasource_block (cx_index_landsat_oli cx))
               else OliDefault))
    else None in
  Ok {| d_raster := raster;
        d_quality := quality;
        d_bmask := classify cx raster quality quality_mask conf;
        d_day := day;
        d_datasource_block := datasource_block |}.

(** The second half of the body: the date is stacked into the buffers of the
    window. *)
Definition stack_date (cx : blend_context) (st : block_buffers) (order : nat) (d : date_read)
    : block_buffers :=
  let nodata := cx_nodata cx in
  let raster := d_raster d in
  let bmask := d_bmask d in
  let day := d_day d in
  let datasource_block := d_datasource_block d in
  let stackMA' := <[order := (astype_int16 <$> raster, bmask)]> (stackMA st) in
  (* total observation, from the copy of the quality values *)
  let copy_mask := d_quality d in
  let valid_pos := numpy.where_ (numpy.ne_scalar copy_mask nodata) in
  let copy_mask := numpy.put_const copy_mask (numpy.where_ (numpy.eq_scalar copy_mask nodata)) 0 in
  let copy_mask := numpy.put_const copy_mask valid_pos 1 in
  let total :=
    zip_with (fun t c => astype_uint8 (t + astype_uint8 c)) (stack_total_observation st) copy_mask in
  (* still nodata in the stack, some value in this date *)
  let stack_raster_nodata_pos := numpy.where_ (numpy.eq_scalar (stack_raster st) nodata) in
  let raster_where_data := numpy.where_ (numpy.ne_scalar raster nodata) in
  let intersect_ravel := numpy.intersect1d stack_raster_nodata_pos raster_where_data in
  let found := (0 <? length intersect_ravel)%nat in
  let stack1 :=
    if found then numpy.put_from (stack_raster st) raster intersect_ravel else stack_raster st in
  let provenance1 :=
    if found then numpy.put_const (provenance_array st) intersect_ravel day
    else provenance_array st in
  let data_set1 :=
    if found && cx_with_datasource cx
    then numpy.put_from (data_set_block st) datasource_block intersect_ravel
    else data_set_block st in
  (* clear in this date and not done yet *)
  let todomask := zip_with andb (notdonemask st) (numpy.invert bmask) in
  let clear_not_done_pixels := numpy.where_ (numpy.logical_and todomask (numpy.invert bmask)) in
  let stack2 := numpy.put_from stack1 raster clear_not_done_pixels in
  let provenance2 := numpy.put_const provenance1 clear_not_done_pixels day in
  let data_set2 :=
    if cx_with_datasource cx
    then numpy.put_from data_set1 datasource_block clear_not_done_pixels
    else data_set1 in
  (* apply_valid_range: [bmask[raster_where_data]] is a copy, and it is the
     copy that receives the assignments; [bmask] stays as it is *)
  let _ :=
    if cx_apply_valid_range cx then
      let raster_valid_data := numpy.take_at raster raster_where_data in
      let saturated_positions_min :=
        numpy.where_ ((fun v => v <? cx_min_value cx) <$> raster_valid_data) in
      let saturated_positions_max :=
        numpy.where_ ((fun v => cx_max_value cx <? v) <$> raster_valid_data) in
      (numpy.put_const (numpy.take_at bmask raster_where_data) saturated_positions_min true,
       numpy.put_const (numpy.take_at bmask raster_where_data) saturated_positions_max true)
    else ([], []) in
  {| stackMA := stackMA';
     notdonemask := zip_with andb (notdonemask st) bmask;
     stack_raster := stack2;
     stack_total_observation := total;
     provenance_array := provenance2;
     data_set_block := data_set2 |}.

(** The body of [for order in range(numscenes)] for window [w]. *)
Definition blend_date (cx : blend_context) (w : nat) (st : block_buffers) (order : nat)
    (o : opened) : result block_buffers :=
  let* d := read_date cx w order o in
  Ok (stack_date cx st order d).

(** The loop over the dates of a window, in ranking order from [order] on. *)
Fixpoint blend_dates (cx : blend_context) (w : nat) (st : block_buffers) (order : nat)
    (files : list opened) : result block_buffers :=
  match files with
  | [] => Ok st
  | o :: files' =>
      let* st' := blend_date cx w st order o in
      blend_dates cx w st' (S order) files'
  end.

(** Ascending sort of the values of one pixel, as [numpy.ma.median] does
    along the date axis. *)
Fixpoint insert_sorted (x : Z) (l : list Z) : list Z :=
  match l with
  | [] => [x]
  | y :: l' => if x <=? y then x :: l else y :: insert_sorted x l'
  end.

Definition sort_values (l : list Z) : list Z := foldr insert_sorted [] l.

(** The entries of the date stack that are not masked at pixel [i]. *)
Definition unmasked_at (stack : list (list Z * list bool)) (i : nat) : list Z :=
  omap (fun row => match snd row !! i with
                   | Some false => fst row !! i
                   | _ => None
                   end) stack.

(** [numpy.ma.count(stackMA, axis=0)] for a window of [size] pixels. *)
Definition ma_count (stack : list (list Z * list bool)) (size : nat) : list Z :=
  (fun i => Z.of_nat (length (unmasked_at stack i))) <$> seq 0 size.

(** The median of the unmasked values of one pixel: the middle value, or the
    mean of the two middle values, which the cast back to the integer raster
    type truncates.  A pixel masked on every date yields a masked entry; its
    payload (0 here) is the one [blend] overwrites with nodata. *)
Definition median_of (values : list Z) : Z :=
  let asorted := sort_values values in
  let counts := length values in
  let h := (counts / 2)%nat in
  let high := default 0 (asorted !! h) in
  let low := if Nat.odd counts then high else default 0 (asorted !! (h - 1)%nat) in
  Z.quot (low + high) 2.

(** [numpy.ma.median(stackMA, axis=0).data]. *)
Definition ma_median (stack : list (list Z * list bool)) (size : nat) : list Z :=
  (fun i => median_of (unmasked_at stack i)) <$> seq 0 size.

(** What one window contributes to the outputs. *)
Record block_output : Type := {
  block_final : block_buffers;
  block_median : option (list Z);
  block_count_raster : option (list Z)
}.

(** The buffers of a window before its first date: the date stack of zeros,
    nothing done, and the slices of the rasters as [blend] allocates them. *)
Definition initial_buffers (cx : blend_context) (numscenes size : nat) : block_buffers :=
  {| stackMA := replicate numscenes (numpy.zeros size, replicate size false);
     notdonemask := replicate size true;
     stack_raster := numpy.full size (cx_nodata cx);
     stack_total_observation := numpy.zeros size;
     provenance_array := numpy.full size (-1);
     data_set_block := numpy.full size DATASOURCE_NODATA |}.

(** The body of [for _, window in tilelist], for window [w] of [size] pixels. *)
Definition blend_block (cx : blend_context) (numscenes w size : nat) : result block_output :=
  let* final := blend_dates cx w (initial_buffers cx numscenes size) 0 (cx_files cx) in
  let median :=
    if cx_median cx then
      let median := ma_median (stackMA final) size in
      Some (numpy.put_const median (numpy.where_ (notdonemask final)) (cx_nodata cx))
    else None in
  let count_raster :=
    if cx_build_clear_observation cx then Some (ma_count (stackMA final) size) else None in
  Ok {| block_final := final; block_median := median; block_count_raster := count_raster |}.

(** [index_landsat_oli] of [blend]: the positions of the OLI platforms. *)
Fixpoint blend_index_landsat_oli (idx : Z) (platforms : list string) : result (list Z) :=
  match platforms with
  | [] => Ok []
  | platform :: platforms' =>
      let* is_oli := blend_platform_is_oli platform in
      let* rest := blend_index_landsat_oli (idx + 1) platforms' in
      Ok (if is_oli then idx :: rest else rest)
  end.

(** The files of the saturated band, in ranking order. *)
Definition open_saturated (fs : gmap string dataset) (act : activity) (saturated_band : string)
    (ranked : list (float * string)) : result (list dataset) :=
  mapM (fun m =>
          let* sc := scenes_lookup (act_scenes act) (snd m) in
          let* path := require (KeyError saturated_band) (scene_ARDfiles sc !! saturated_band) in
          rasterio_open fs path) ranked.

(** The rasters [blend] computes, window by window, and the statistics it
    stores in the activity. *)
Record blend_result : Type := {
  blend_ranked : list (float * string);
  blend_stack_raster : list (list Z);
  blend_median_raster : option (list (list Z));
  blend_count_raster : option (list (list Z));
  blend_clear_observation_file : option (list (list Z));
  blend_total_observation : list (list Z);
  blend_provenance_array : list (list Z);
  blend_cube_file : list (list Z);
  blend_efficacy : float;
  blend_cloudratio : float
}.

(** Collects an optional per-window raster when every window has one. *)
Fixpoint all_blocks (l : list (option (list Z))) : option (list (list Z)) :=
  match l with
  | [] => Some []
  | Some block :: l' => cons block <$> all_blocks l'
  | None :: _ => None
  end.

(** [blend].  [fs] maps a file name to the raster stored under it;
    [band_nodata], [min_value] and [max_value] come from [band_map[band]]. *)
Definition blend (fs : gmap string dataset) (act : activity) (band_nodata min_value max_value : Z)
    (quality_band : string) (build_clear_observation combined apply_valid_range : bool)
    : result blend_result :=
  let numscenes := length (act_scenes act) in
  let band := act_band act in
  let* nodata :=
    (if String.eqb band quality_band
     then require (KeyError "nodata") (mask_nodata (act_mask act))
     else Ok (default band_nodata (act_nodata act))) in
  let* first := require IndexError (head (act_scenes act)) in
  let* filename := require (KeyError band) (scene_ARDfiles (snd first) !! band) in
  let* src := rasterio_open fs filename in
  let tilelist := imap (fun w block => (w, length block)) (ds_blocks src) in
  let combined_collection :=
    is_combined_collection (act_datasets act) (act_platforms act) combined in
  let* index_oli := blend_index_landsat_oli 0 (act_platforms act) in
  let* tuples := mask_tuples (act_scenes act) in
  let ranked := sorted_reverse tuples in
  let* files := open_scenes fs act quality_band None ranked in
  let* mask_values := require TypeError (snd files) in
  let* clear_values := require (KeyError "clear_data") (mask_clear_data mask_values) in
  let* not_clear_values := require (KeyError "not_clear_data") (mask_not_clear_data mask_values) in
  let* saturated_list :=
    (match mask_saturated_band mask_values with
     | Some saturated_band => open_saturated fs act saturated_band ranked
     | None => Ok []
     end) in
  let* saturated_values := require (KeyError "saturated_data") (mask_saturated_data mask_values) in
  let* bits := require (KeyError "bits") (mask_bits mask_values) in
  let* mask_nodata := require (KeyError "nodata") (mask_nodata mask_values) in
  let is_median := String.eqb (act_composite_function act) "MED" in
  let cx :=
    {| cx_nodata := nodata;
       cx_mask_values := mask_values;
       cx_clear_values := clear_values;
       cx_not_clear_values := not_clear_values;
       cx_saturated_values := saturated_values;
       cx_mask_nodata := mask_nodata;
       cx_bits := bits;
       cx_files := fst files;
       cx_saturated_list := saturated_list;
       cx_index_landsat_oli := index_oli;
       cx_with_datasource := build_clear_observation && combined_collection;
       cx_apply_valid_range := apply_valid_range;
       cx_min_value := min_value;
       cx_max_value := max_value;
       cx_median := is_median;
       cx_build_clear_observation := build_clear_observation |} in
  let* blocks := mapM (fun window => blend_block cx numscenes (fst window) (snd window)) tilelist in
  let stack := (fun b => stack_raster (block_final b)) <$> blocks in
  let median := all_blocks (block_median <$> blocks) in
  let count := all_blocks (block_count_raster <$> blocks) in
  let* stats := _qa_statistics (concat stack) mask_values false None in
  Ok {| blend_ranked := ranked;
        blend_stack_raster := stack;
        blend_median_raster := if is_median then median else None;
        blend_count_raster := if build_clear_observation then count else None;
        blend_clear_observation_file :=
          if build_clear_observation
          then (fun c : list (list Z) =>
                  (fun block : list Z => astype_clear_observation <$> block) <$> c) <$> count
          else None;
        blend_total_observation := (fun b => stack_total_observation (block_final b)) <$> blocks;
        blend_provenance_array := (fun b => provenance_array (block_final b)) <$> blocks;
        blend_cube_file := if is_median then default [] median else stack;
        blend_efficacy := fst stats;
        blend_cloudratio := snd stats |}.

(** *** Definitions the statements use *)

(** The error [parse_mask] raises for a mask without nodata. *)
Definition expected_nodata : error :=
  RuntimeError "Expected nodata value set to compute data set statistics.".

(** The number of raster elements whose value is a member of [values]
    (follows the wording of the specification, to be compared with the
    count the code takes). *)
Definition count_members (values raster : list Z) : Z :=
  Z.of_nat (length (filter (fun x => x ∈ values) raster)).

(** [r] is [round(100 * a / b, 2)]: the quotient as double arithmetic gives
    it, rounded to two decimals; a finite number that is at most
    [0.005 + 2 ^ -43] away from the exact percentage. *)
Definition rounded_percentage (a b : Z) (r : float) : Prop :=
  exists x e,
    percent a b = Ok x /\ r = round2 x /\ r = Finite e /\
    (Qabs (e - 100 * inject_Z a / inject_Z b) <= (1 # 200) + (1 # 8796093022208))%Q.


(** The dates of a window as [read_date] sees them, in ranking order. *)
Fixpoint read_dates (cx : blend_context) (w order : nat) (files : list opened)
    : result (list date_read) :=
  match files with
  | [] => Ok []
  | o :: files' =>
      let* d := read_date cx w order o in
      let* ds := read_dates cx w (S order) files' in
      Ok (d :: ds)
  end.

(** The dates stacked one after the other, from position [order] on. *)
Fixpoint stack_dates (cx : blend_context) (st : block_buffers) (order : nat)
    (ds : list date_read) : block_buffers :=
  match ds with
  | [] => st
  | d :: ds' => stack_dates cx (stack_date cx st order d) (S order) ds'
  end.

(** Pixel [i] lies in the window of the date: the arrays read for the date
    have a value there. *)
Definition pixel_present (i : nat) (d : date_read) : Prop :=
  is_Some (d_raster d !! i) /\ is_Some (d_quality d !! i) /\ is_Some (d_bmask d !! i).

(** The row a date contributes to the date stack. *)
Definition date_row (d : date_read) : list Z * list bool :=
  (astype_int16 <$> d_raster d, d_bmask d).

(** The number of dates on which pixel [i] is classified clear, and the
    number of dates whose quality value at pixel [i] differs from [nodata]. *)
Definition clear_dates (i : nat) (ds : list date_read) : nat :=
  length (filter (fun d => d_bmask d !! i = Some false) ds).

Definition observed_dates (nodata : Z) (i : nat) (ds : list date_read) : nat :=
  length (filter (fun d => d_quality d !! i <> Some nodata) ds).

(** A value the [int16] date stack holds as it is. *)
Definition int16_range (z : Z) : Prop := -32768 <= z <= 32767.

(** *** The claims in the wording of the specification

    Stated for a window, to be compared with what [blend] does. *)

(** "Given two dates where date A ranks before date B, and a pixel is clear in
    both, the composite must take date A's value and day-of-year." *)
Definition precedence_for_every_clear_pair (cx : blend_context) (numscenes w size : nat)
    : Prop :=
  forall out ds a b dA dB i r,
    blend_block cx numscenes w size = Ok out ->
    read_dates cx w 0 (cx_files cx) = Ok ds ->
    (a < b)%nat -> ds !! a = Some dA -> ds !! b = Some dB ->
    d_bmask dA !! i = Some false -> d_bmask dB !! i = Some false ->
    d_raster dA !! i = Some r ->
    stack_raster (block_final out) !! i = Some r /\
    provenance_array (block_final out) !! i = Some (d_day dA).


(** "For all pixels nodata in every contributing date, the best-pixel and
    median composites must both be nodata at that pixel." *)
Definition nodata_preserved (cx : blend_context) (numscenes w size : nat) : Prop :=
  forall out ds i,
    blend_block cx numscenes w size = Ok out ->
    read_dates cx w 0 (cx_files cx) = Ok ds ->
    (i < size)%nat ->
    Forall (fun d => d_raster d !! i = Some (cx_nodata cx)) ds ->
    stack_raster (block_final out) !! i = Some (cx_nodata cx) /\
    (forall median, block_median out = Some median -> median !! i = Some (cx_nodata cx)).

(** "For every pixel, clear_observation_count <= total_observation_count." *)
Definition clear_le_total (cx : blend_context) (numscenes w size : nat) : Prop :=
  forall out count_raster i c t,
    blend_block cx numscenes w size = Ok out ->
    block_count_raster out = Some count_raster ->
    count_raster !! i = Some c ->
    stack_total_observation (block_final out) !! i = Some t ->
    c <= t.

(** "Incrementing a per-pixel counter wherever the band raster is not nodata,
    regardless of cloud status." *)
Definition total_counts_band_values (cx : blend_context) (w : nat) (st : block_buffers)
    (order : nat) (o : opened) : Prop :=
  forall st' i t r,
    blend_date cx w st order o = Ok st' ->
    stack_total_observation st !! i = Some t ->
    read (o_band o) w !! i = Some r ->
    stack_total_observation st' !! i
      = Some ((t + (if r =? cx_nodata cx then 0 else 1)) mod 256).

(** *** Example data *)

(** An instance of the parameters: a [get_qa_mask] that masks every pixel
    (the examples use categorical masks), the day of the year of a date
    written [YYYY-MM-DD], no OLI platform, and the constants. *)
Definition example_get_qa_mask (quality : list Z) (quality_mask : option (list bool))
    (clear_data not_clear_data : list Z) (nodata : Z) (conf : option confidence) : list bool :=
  (fun _ => true) <$> quality.

Definition digit_of (c : ascii) : option Z :=
  let n := Z.of_nat (nat_of_ascii c) in
  if (48 <=? n) && (n <=? 57) then Some (n - 48) else None.

Fixpoint number_from (acc : Z) (s : string) : option Z :=
  match s with
  | EmptyString => Some acc
  | String c s' =>
      match digit_of c with
      | Some d => number_from (10 * acc + d) s'
      | None => None
      end
  end.

Definition is_leap (year : Z) : bool :=
  ((year mod 4 =? 0) && negb (year mod 100 =? 0)) || (year mod 400 =? 0).

Definition month_lengths (year : Z) : list Z :=
  [31; if is_leap year then 29 else 28; 31; 30; 31; 30; 31; 31; 30; 31; 30; 31].

Definition example_day_of_year (key : string) : result Z :=
  match number_from 0 (substring 0 4 key), number_from 0 (substring 5 2 key),
        number_from 0 (substring 8 2 key) with
  | Some year, Some month, Some day =>
      let lengths := month_lengths year in
      if (String.length key =? 10)%nat
         && String.eqb (substring 4 1 key) "-" && String.eqb (substring 7 1 key) "-"
         && (1 <=? month) && (month <=? 12) && (1 <=? day)
         && (day <=? default 0 (lengths !! Z.to_nat (month - 1)))
      then Ok (foldr Z.add 0 (take (Z.to_nat (month - 1)) lengths) + day)
      else Err ValueError
  | _, _, _ => Err ValueError
  end.

Definition example_platform_is_oli (platform : string) : result bool := Ok false.

(** A stored raster whose masked read masks the pixels equal to [nodata]. *)
Definition raster_file (blocks : list (list Z)) (nodata : Z) : dataset :=
  {| ds_blocks := blocks;
     ds_mask := (fun block : list Z => (fun v => v =? nodata) <$> block) <$> blocks |}.

(** The Fmask specification of the documentation of [parse_mask]. *)
Definition fmask : mask :=
  {| mask_clear_data := Some [0; 1];
     mask_not_clear_data := Some [2; 3; 4];
     mask_saturated_data := None;
     mask_nodata := Some 255;
     mask_bits := None;
     mask_saturated_band := None;
     mask_confidence := false |}.

Definition fmask_without_nodata : mask :=
  {| mask_clear_data := Some [0; 1];
     mask_not_clear_data := Some [2; 3; 4];
     mask_saturated_data := None;
     mask_nodata := None;
     mask_bits := None;
     mask_saturated_band := None;
     mask_confidence := false |}.

Definition fmask_parsed : mask :=
  {| mask_clear_data := Some [0; 1];
     mask_not_clear_data := Some [2; 3; 4];
     mask_saturated_data := Some [];
     mask_nodata := Some 255;
     mask_bits := Some false;
     mask_saturated_band := None;
     mask_confidence := false |}.

(** The files of one date, for a band and a quality raster of one window. *)
Definition example_date (key : string) (band quality : list Z) (band_nodata : Z) : opened :=
  {| o_key := key;
     o_band_path := ("nir_" ++ key)%string;
     o_band := raster_file [band] band_nodata;
     o_quality := raster_file [quality] 255;
     o_datasource := None |}.

(** The context of a window for the Fmask specification. *)
Definition example_context (nodata : Z) (files : list opened) (median : bool) : blend_context :=
  {| cx_nodata := nodata;
     cx_mask_values := fmask_parsed;
     cx_clear_values := [0; 1];
     cx_not_clear_values := [2; 3; 4];
     cx_saturated_values := [];
     cx_mask_nodata := 255;
     cx_bits := false;
     cx_files := files;
     cx_saturated_list := [];
     cx_index_landsat_oli := [];
     cx_with_datasource := false;
     cx_apply_valid_range := false;
     cx_min_value := 0;
     cx_max_value := 10000;
     cx_median := median;
     cx_build_clear_observation := true |}.

(** Two dates of four pixels.  Pixel 0 is clear on both dates, pixel 1 is
    cloud on the lower ranked date, pixel 2 has no band value on either date
    though the quality says clear, pixel 3 is nodata in the quality as well. *)
Definition date_15 : opened :=
  example_date "2020-01-15" [854; 756; -9999; -9999] [0; 0; 0; 255] (-9999).
Definition date_10 : opened :=
  example_date "2020-01-10" [702; 7000; -9999; -9999] [0; 2; 0; 255] (-9999).

(** Three dates of one pixel, clear on each. *)
Definition three_clear_dates : list opened :=
  [example_date "2020-01-03" [10] [0] (-9999);
   example_date "2020-01-02" [20] [0] (-9999);
   example_date "2020-01-01" [30] [0] (-9999)].

(** Two dates of one pixel, clear on each, the first without a band value. *)
Definition clear_without_value : list opened :=
  [example_date "2020-01-02" [-9999] [0] (-9999);
   example_date "2020-01-01" [7] [0] (-9999)].

(** The day [n] (from 0) of the year 2020, written [YYYY-MM-DD]. *)
Definition two_digits (z : Z) : string :=
  String (ascii_of_nat (48 + Z.to_nat (z / 10)))
    (String (ascii_of_nat (48 + Z.to_nat (z mod 10))) EmptyString).

Fixpoint month_and_day (lengths : list Z) (month day : Z) : Z * Z :=
  match lengths with
  | [] => (month, day)
  | len :: lengths' =>
      if day <? len then (month, day) else month_and_day lengths' (month + 1) (day - len)
  end.

Definition date_of_2020 (n : nat) : string :=
  let md := month_and_day (month_lengths 2020) 1 (Z.of_nat n) in
  ("2020-" ++ two_digits (fst md) ++ "-" ++ two_digits (snd md + 1))%string.

(** 256 dates of one pixel, clear on each. *)
Definition many_clear_dates : list opened :=
  (fun n => example_date (date_of_2020 n) [100] [0] (-9999)) <$> seq 0 256.

(** Assets of two pixels for [merge]. *)
Definition example_assets : list asset :=
  [{| asset_dataset := "LC8"; asset_platform := EmptyString; asset_raster := [5; -9999] |};
   {| asset_dataset := "S2"; asset_platform := EmptyString; asset_raster := [6; 9] |}].

(** An activity over the dates [files], supplied in that order with equal
    efficacy and resolution, and the stored rasters it refers to. *)
Definition quality_path (o : opened) : string := ("quality_" ++ o_key o)%string.

Definition scene_of (o : opened) : string * scene :=
  (o_key o,
   {| scene_efficacy := Finite 50;
      scene_resx := Some (Finite 30);
      scene_resy := None;
      scene_resolution := None;
      scene_ARDfiles := <["nir" := o_band_path o]> (<["quality" := quality_path o]> ∅) |}).

Definition activity_of (files : list opened) (composite_function : string) : activity :=
  {| act_scenes := scene_of <$> files;
     act_band := "nir";
     act_mask := fmask;
     act_nodata := None;
     act_datasets := ["LC8"];
     act_platforms := [];
     act_composite_function := composite_function |}.

Definition stored_files (files : list opened) : gmap string dataset :=
  foldr (fun o fs => <[o_band_path o := o_band o]> (<[quality_path o := o_quality o]> fs))
        ∅ files.

(** Two dates of equal score, the earlier one supplied first. *)
Definition tied_dates : list opened :=
  [example_date "2020-01-01" [702; -9999] [0; 0] (-9999);
   example_date "2020-01-17" [854; -9999] [0; 0] (-9999)].



(** A quality raster of 4000 pixels: three clear, six not clear and the
    others nodata. *)
Definition sparse_quality : list Z := [0; 0; 0; 2; 2; 2; 2; 2; 2] ++ replicate 3991 255.

(** A quality raster and a band of one window of three pixels, as in the
    documentation of [post_processing_quality]. *)
Definition example_quality_file : dataset := raster_file [[0; 2; 255]] 255.
Definition example_bands : list band_file :=
  [{| bf_name := "nir"; bf_nodata := -9999;
      bf_data := raster_file [[-9999; 7100; -9999]] (-9999) |};
   {| bf_name := "NDVI"; bf_nodata := -9999;
      bf_data := raster_file [[3000; -9999; -9999]] (-9999) |};
   {| bf_name := "quality"; bf_nodata := 255; bf_data := raster_file [[0; 2; 255]] 255 |}].

(** The mask without its ['confidence'] entry. *)
Definition without_confidence (m : mask) : mask :=
  {| mask_clear_data := mask_clear_data m;
     mask_not_clear_data := mask_not_clear_data m;
     mask_saturated_data := mask_saturated_data m;
     mask_nodata := mask_nodata m;
     mask_bits := mask_bits m;
     mask_saturated_band := mask_saturated_band m;
     mask_confidence := false |}.

(** The context of a window with other settings of the valid range. *)
Definition with_valid_range (cx : blend_context) (apply_valid_range : bool)
    (min_value max_value : Z) : blend_context :=
  {| cx_nodata := cx_nodata cx;
     cx_mask_values := cx_mask_values cx;
     cx_clear_values := cx_clear_values cx;
     cx_not_clear_values := cx_not_clear_values cx;
     cx_saturated_values := cx_saturated_values cx;
     cx_mask_nodata := cx_mask_nodata cx;
     cx_bits := cx_bits cx;
     cx_files := cx_files cx;
     cx_saturated_list := cx_saturated_list cx;
     cx_index_landsat_oli := cx_index_landsat_oli cx;
     cx_with_datasource := cx_with_datasource cx;
     cx_apply_valid_range := apply_valid_range;
     cx_min_value := min_value;
     cx_max_value := max_value;
     cx_median := cx_median cx;
     cx_build_clear_observation := cx_build_clear_observation cx |}.

(** What [read_date] yields for the two dates of four pixels. *)
Definition date_15_read : date_read :=
  {| d_raster := [854; 756; -9999; -9999]; d_quality := [0; 0; 0; 255];
     d_bmask := [false; false; false; true]; d_day := 15; d_datasource_block := [] |}.
Definition date_10_read : date_read :=
  {| d_raster := [702; 7000; -9999; -9999]; d_quality := [0; 2; 0; 255];
     d_bmask := [false; true; false; true]; d_day := 10; d_datasource_block := [] |}.

(** Two dates of one pixel that is cloud on both, the first without a band
    value, and what [read_date] yields for them. *)
Definition cloudy_dates : list opened :=
  [example_date "2020-01-15" [-9999] [2] (-9999);
   example_date "2020-01-10" [7000] [4] (-9999)].
Definition cloudy_15_read : date_read :=
  {| d_raster := [-9999]; d_quality := [2]; d_bmask := [true]; d_day := 15;
     d_datasource_block := [] |}.
Definition cloudy_10_read : date_read :=
  {| d_raster := [7000]; d_quality := [4]; d_bmask := [true]; d_day := 10;
     d_datasource_block := [] |}.

(** Assets of two pixels that name their platform. *)
Definition platform_assets : list asset :=
  [{| asset_dataset := "LC8"; asset_platform := "LANDSAT-8"; asset_raster := [5; -9999] |};
   {| asset_dataset := "S2"; asset_platform := "SENTINEL-2"; asset_raster := [6; 9] |}].

(** Proofs keep to the parameters their statement mentions. *)
Ltac statement_parameters :=
  try clear astype_clear_observation;
  try clear DATASOURCE_NODATA;
  try clear PROVENANCE_NAME;
  try clear CLEAR_OBSERVATION_NAME;
  try clear TOTAL_OBSERVATION_NAME;
  try clear DATASOURCE_NAME;
  try clear blend_platform_is_oli;
  try clear merge_platform_is_oli;
  try clear day_of_year;
  try clear get_qa_mask.

(** ** Facts about floating point *)

Section FloatFacts.
Import binary64.
Local Open Scope Q_scope.

Lemma round_half_even_error (x : Q) :
  x - (1 # 2) <= inject_Z (round_half_even x) /\ inject_Z (round_half_even x) <= x + (1 # 2).
Proof.
  statement_parameters.
  destruct x as [n d].
  assert (Hr : (2 * n - Z.pos d <= 2 * (Z.pos d * round_half_even (n # d)) <= 2 * n + Z.pos d)%Z).
  { unfold round_half_even. cbn [Qnum Qden].
    assert (Hd : (0 < Z.pos d)%Z) by lia.
    pose proof (Z.div_mod n (Z.pos d) ltac:(lia)) as Hdiv.
    pose proof (Z.mod_pos_bound n (Z.pos d) Hd) as Hmod.
    destruct (2 * (n mod Z.pos d) ?= Z.pos d)%Z eqn:Hc.
    - apply Z.compare_eq in Hc.
      destruct (Z.even (n / Z.pos d)); rewrite ?Z.mul_add_distr_l; lia.
    - pose proof (proj1 (Z.compare_lt_iff _ _) Hc). lia.
    - pose proof (proj1 (Z.compare_gt_iff _ _) Hc). rewrite Z.mul_add_distr_l. lia. }
  revert Hr. generalize (round_half_even (n # d)). intros r Hr.
  unfold Qle, Qminus, Qplus, Qopp, inject_Z. cbn [Qnum Qden].
  rewrite ?Pos2Z.inj_mul. split; nia.
Qed.

Lemma inject_Z_lt_inv (a b : Z) : inject_Z a < inject_Z b -> (a < b)%Z.
Proof. statement_parameters. unfold Qlt. simpl. lia. Qed.

Lemma round_half_even_below (x : Q) (b : Z) : x < inject_Z b + (1 # 2) -> (round_half_even x <= b)%Z.
Proof.
  statement_parameters.
  intros H. destruct (round_half_even_error x) as [_ Hh].
  assert (E : inject_Z (b + 1) == inject_Z b + (1 # 2) + (1 # 2)).
  { unfold Qeq, Qplus, inject_Z. cbn [Qnum Qden]. lia. }
  assert (Hlt : inject_Z (round_half_even x) < inject_Z (b + 1)).
  { rewrite E. eapply Qle_lt_trans; [exact Hh|]. by apply Qplus_lt_l. }
  apply inject_Z_lt_inv in Hlt. lia.
Qed.

Lemma round_half_even_above (x : Q) (a : Z) : inject_Z a - (1 # 2) < x -> (a <= round_half_even x)%Z.
Proof.
  statement_parameters.
  intros H. destruct (round_half_even_error x) as [Hl _].
  assert (E : inject_Z (a - 1) == inject_Z a - (1 # 2) - (1 # 2)).
  { unfold Qeq, Qminus, Qplus, Qopp, inject_Z. cbn [Qnum Qden]. lia. }
  assert (Hlt : inject_Z (a - 1) < inject_Z (round_half_even x)).
  { rewrite E. eapply Qlt_le_trans; [|exact Hl]. unfold Qminus. by apply Qplus_lt_l. }
  apply inject_Z_lt_inv in Hlt. lia.
Qed.


Lemma pow2_pos (e : Z) : 0 < 2 ^ e.
Proof. statement_parameters. by apply Qpower_0_lt. Qed.

Lemma pow2_succ (e : Z) : 2 ^ (e + 1) == 2 * 2 ^ e.
Proof. statement_parameters. rewrite Qpower_plus by done. rewrite Qpower_1_r. ring. Qed.

Lemma pow2_pred (e : Z) : 2 ^ e == 2 * 2 ^ (e - 1).
Proof. statement_parameters. rewrite <- pow2_succ. by replace (e - 1 + 1)%Z with e by lia. Qed.

(** The quotient of two positive integers lies within a factor two of the
    power of two that their bit lengths give. *)
Lemma log2_quotient (n : Z) (d : positive) :
  (0 < n)%Z ->
  let e := (Z.log2 n - Z.log2 (Z.pos d))%Z in
  2 ^ (e - 1) < n # d /\ n # d < 2 ^ (e + 1).
Proof.
  statement_parameters.
  intros Hn e.
  destruct (Z.log2_spec n Hn) as [Hn1 Hn2].
  destruct (Z.log2_spec (Z.pos d) ltac:(lia)) as [Hd1 Hd2].
  pose proof (Z.log2_nonneg n) as Ha. pose proof (Z.log2_nonneg (Z.pos d)) as Hb.
  assert (HA : 0 < 2 ^ Z.log2 n) by apply pow2_pos.
  assert (HB : 0 < 2 ^ Z.log2 (Z.pos d)) by apply pow2_pos.
  assert (En : inject_Z (2 ^ Z.log2 n) == 2 ^ Z.log2 n) by by apply Zpower_Qpower.
  assert (Ed : inject_Z (2 ^ Z.log2 (Z.pos d)) == 2 ^ Z.log2 (Z.pos d)) by by apply Zpower_Qpower.
  rewrite Z.pow_succ_r in Hn2, Hd2 by done.
  assert (HA' : (0 < 2 ^ Z.log2 n)%Z) by (apply Z.pow_pos_nonneg; lia).
  assert (HB' : (0 < 2 ^ Z.log2 (Z.pos d))%Z) by (apply Z.pow_pos_nonneg; lia).
  set (A := (2 ^ Z.log2 n)%Z) in *. set (B := (2 ^ Z.log2 (Z.pos d))%Z) in *.
  clearbody A B.
  split.
  - unfold e. replace (Z.log2 n - Z.log2 (Z.pos d) - 1)%Z with (Z.log2 n - (Z.log2 (Z.pos d) + 1))%Z by lia.
    rewrite Qpower_minus by done. rewrite pow2_succ, <- En, <- Ed.
    apply Qlt_shift_div_r.
    + unfold Qlt, Qmult, inject_Z. cbn [Qnum Qden]. lia.
    + unfold Qlt, Qmult, inject_Z. cbn [Qnum Qden]. nia.
  - unfold e. replace (Z.log2 n - Z.log2 (Z.pos d) + 1)%Z with (Z.log2 n + 1 - Z.log2 (Z.pos d))%Z by lia.
    rewrite Qpower_minus by done. rewrite pow2_succ, <- En, <- Ed.
    apply Qlt_shift_div_l; [unfold Qlt, inject_Z; cbn [Qnum Qden]; lia|].
    unfold Qlt, Qmult, inject_Z. cbn [Qnum Qden]. nia.
Qed.

Lemma binade_spec (q : Q) : 0 < q -> 2 ^ binade q <= q /\ q < 2 ^ (binade q + 1).
Proof.
  statement_parameters.
  intros Hq. destruct q as [n d].
  assert (Hn : (0 < n)%Z) by (revert Hq; unfold Qlt; cbn [Qnum Qden]; lia).
  destruct (log2_quotient n d Hn) as [Hl Hh].
  unfold binade. cbn [Qnum Qden].
  destruct (Qle_bool _ _) eqn:Hc.
  - apply Qle_bool_iff in Hc. by split.
  - split; [by apply Qlt_le_weak|].
    replace (Z.log2 n - Z.log2 (Z.pos d) - 1 + 1)%Z with (Z.log2 n - Z.log2 (Z.pos d))%Z by lia.
    apply Qnot_le_lt. intros H. apply Qle_bool_iff in H. congruence.
Qed.

Lemma binade_lt (q : Q) (k : Z) : 0 < q -> q < 2 ^ k -> (binade q < k)%Z.
Proof.
  statement_parameters.
  intros Hq Hk. destruct (binade_spec q Hq) as [Hl _].
  apply (Qpower_lt_compat_l_inv 2); [|done]. by eapply Qle_lt_trans.
Qed.

Lemma binade_ge (q : Q) (k : Z) : 2 ^ k <= q -> (k <= binade q)%Z.
Proof.
  statement_parameters.
  intros Hk.
  assert (Hq : 0 < q) by (eapply Qlt_le_trans; [apply (pow2_pos k)|done]).
  destruct (binade_spec q Hq) as [_ Hh].
  assert (k < binade q + 1)%Z; [|lia].
  apply (Qpower_lt_compat_l_inv 2); [|done]. by eapply Qle_lt_trans.
Qed.


Lemma binade_zero (q : Q) : q == 0 -> (binade q <= -1)%Z.
Proof.
  statement_parameters.
  intros Hq. destruct q as [n d].
  assert (n = 0%Z) as -> by (revert Hq; unfold Qeq; cbn [Qnum Qden]; lia).
  unfold binade. cbn [Qnum Qden]. pose proof (Z.log2_nonneg (Z.pos d)).
  destruct (Qle_bool _ _) eqn:Hc; [|change (Z.log2 0) with 0%Z; lia].
  apply Qle_bool_iff in Hc. exfalso.
  apply (Qlt_irrefl 0). eapply Qlt_le_trans; [apply pow2_pos|].
  eapply Qle_trans; [exact Hc|]. unfold Qle. cbn [Qnum Qden]. lia.
Qed.

Lemma Qabs_nonneg_eq (q : Q) : 0 <= q -> Qabs q = q.
Proof.
  statement_parameters.
  destruct q as [n d]. unfold Qle. cbn [Qnum Qden]. intros H.
  unfold Qabs. f_equal. apply Z.abs_eq. lia.
Qed.

(** The unit in the last place of a number that is below [2 ^ (f + 53)]. *)
Lemma quantum_le (q : Q) (f : Z) :
  0 <= q -> q < 2 ^ (f + 53) -> (-53 <= f)%Z -> (quantum q <= f)%Z.
Proof.
  statement_parameters.
  intros H0 Hq Hf. unfold quantum. rewrite Qabs_nonneg_eq by done.
  destruct (Qle_lt_or_eq _ _ H0) as [Hpos|Hz].
  - pose proof (binade_lt q _ Hpos Hq). lia.
  - pose proof (binade_zero q ltac:(by symmetry)). lia.
Qed.

Lemma quantum_normal (q : Q) : 2 ^ (-1022) <= q -> quantum q = (binade q - 52)%Z.
Proof.
  statement_parameters.
  intros Hq.
  assert (H0 : 0 <= q) by (eapply Qle_trans; [apply Qlt_le_weak, (pow2_pos (-1022))|done]).
  unfold quantum. rewrite Qabs_nonneg_eq by done.
  pose proof (binade_ge q _ Hq). lia.
Qed.

Lemma nearest_eq (q : Q) :
  nearest q == inject_Z (round_half_even (q / 2 ^ quantum q)) * 2 ^ quantum q.
Proof. statement_parameters. apply Qred_correct. Qed.

(** [nearest q] is within half a unit in the last place of [q]. *)
Lemma nearest_error (q : Q) :
  q - 2 ^ quantum q * (1 # 2) <= nearest q /\ nearest q <= q + 2 ^ quantum q * (1 # 2).
Proof.
  statement_parameters.
  rewrite nearest_eq. pose proof (pow2_pos (quantum q)) as Hp.
  assert (Hne : ~ 2 ^ quantum q == 0) by (intros E; rewrite E in Hp; by apply (Qlt_irrefl 0)).
  destruct (round_half_even_error (q / 2 ^ quantum q)) as [Hl Hh].
  split.
  - setoid_replace (q - 2 ^ quantum q * (1 # 2)) with ((q / 2 ^ quantum q - (1 # 2)) * 2 ^ quantum q)
      using relation Qeq by (by field).
    apply Qmult_le_compat_r; [done|by apply Qlt_le_weak].
  - setoid_replace (q + 2 ^ quantum q * (1 # 2)) with ((q / 2 ^ quantum q + (1 # 2)) * 2 ^ quantum q)
      using relation Qeq by (by field).
    apply Qmult_le_compat_r; [done|by apply Qlt_le_weak].
Qed.

Lemma pow2_grid (k f g : Z) : (g <= f)%Z -> inject_Z k * 2 ^ f == inject_Z (k * 2 ^ (f - g)) * 2 ^ g.
Proof.
  statement_parameters.
  intros Hg. rewrite inject_Z_mult, Zpower_Qpower by lia.
  rewrite <- Qmult_assoc, <- Qpower_plus by done.
  by replace (f - g + g)%Z with f by lia.
Qed.

(** Rounding does not cross a number that is itself a multiple of the unit
    in the last place. *)
Lemma nearest_le (q : Q) (k f : Z) :
  (quantum q <= f)%Z -> q <= inject_Z k * 2 ^ f -> nearest q <= inject_Z k * 2 ^ f.
Proof.
  statement_parameters.
  intros Hf Hq. rewrite nearest_eq. pose proof (pow2_pos (quantum q)) as Hp.
  rewrite (pow2_grid k f (quantum q) Hf) in *.
  apply Qmult_le_compat_r; [|by apply Qlt_le_weak].
  rewrite <- Zle_Qle. apply round_half_even_below.
  eapply Qle_lt_trans; [by apply Qle_shift_div_r|].
  rewrite <- (Qplus_0_r (inject_Z _)) at 1. by apply Qplus_lt_r.
Qed.

Lemma nearest_ge (q : Q) (k f : Z) :
  (quantum q <= f)%Z -> inject_Z k * 2 ^ f <= q -> inject_Z k * 2 ^ f <= nearest q.
Proof.
  statement_parameters.
  intros Hf Hq. rewrite nearest_eq. pose proof (pow2_pos (quantum q)) as Hp.
  rewrite (pow2_grid k f (quantum q) Hf) in *.
  apply Qmult_le_compat_r; [|by apply Qlt_le_weak].
  rewrite <- Zle_Qle. apply round_half_even_above.
  eapply Qlt_le_trans; [|by apply Qle_shift_div_l].
  rewrite <- (Qplus_0_r (inject_Z _)) at 2. unfold Qminus. by apply Qplus_lt_r.
Qed.

Lemma nearest_nonneg (q : Q) : 0 <= q -> 0 <= nearest q.
Proof.
  statement_parameters.
  intros Hq. setoid_replace 0 with (inject_Z 0 * 2 ^ quantum q) using relation Qeq by ring.
  apply nearest_ge; [lia|]. by setoid_replace (inject_Z 0 * 2 ^ quantum q) with 0 using relation Qeq by ring.
Qed.

Lemma nearest_zero (q : Q) : q == 0 -> nearest q = 0.
Proof.
  statement_parameters.
  intros Hq. unfold nearest. change 0 with (Qred 0). apply Qred_complete.
  assert (E : q / 2 ^ quantum q == 0).
  { generalize (2 ^ quantum q). intros p. unfold Qdiv. transitivity (0 * / p); [|ring].
    by apply Qmult_comp. }
  assert (round_half_even (q / 2 ^ quantum q) = 0%Z) as ->.
  { pose proof (round_half_even_below (q / 2 ^ quantum q) 0 ltac:(by rewrite E)).
    pose proof (round_half_even_above (q / 2 ^ quantum q) 0 ltac:(by rewrite E)). lia. }
  ring.
Qed.

(** In the normal range the relative error of rounding is at most 2^-53. *)
Lemma nearest_relative (q : Q) :
  2 ^ (-1022) <= q ->
  q * (1 - 2 ^ (-53)) <= nearest q /\ nearest q <= q * (1 + 2 ^ (-53)).
Proof.
  statement_parameters.
  intros Hq. destruct (nearest_error q) as [Hl Hh].
  assert (H0 : 0 < q) by (eapply Qlt_le_trans; [apply (pow2_pos (-1022))|done]).
  destruct (binade_spec q H0) as [Hb _].
  rewrite (quantum_normal q Hq) in *.
  assert (E : 2 ^ (binade q - 52) * (1 # 2) == 2 ^ binade q * 2 ^ (-53)).
  { replace (binade q - 52)%Z with (binade q + (-52))%Z by lia.
    rewrite Qpower_plus by done. rewrite <- Qmult_assoc. apply Qmult_comp; [done|]. done. }
  rewrite E in *.
  assert (Hu : 2 ^ binade q * 2 ^ (-53) <= q * 2 ^ (-53)) by (by apply Qmult_le_compat_r).
  split.
  - eapply Qle_trans; [|exact Hl].
    setoid_replace (q * (1 - 2 ^ (-53))) with (q - q * 2 ^ (-53)) using relation Qeq by ring.
    unfold Qminus. apply Qplus_le_r. by apply Qopp_le_compat.
  - eapply Qle_trans; [exact Hh|].
    setoid_replace (q * (1 + 2 ^ (-53))) with (q + q * 2 ^ (-53)) using relation Qeq by ring.
    by apply Qplus_le_r.
Qed.

Lemma round_finite (q : Q) (k f : Z) :
  0 <= q -> (quantum q <= f)%Z -> q <= inject_Z k * 2 ^ f -> inject_Z k * 2 ^ f < 2 ^ 1024 ->
  round q = Finite (nearest q).
Proof.
  statement_parameters.
  intros H0 Hf Hq Hk. unfold round. cbv zeta.
  destruct (Qle_bool _ _) eqn:Hc; [|done].
  apply Qle_bool_iff in Hc. exfalso.
  rewrite Qabs_nonneg_eq in Hc by (by apply nearest_nonneg).
  apply (Qlt_irrefl (2 ^ 1024)). eapply Qle_lt_trans; [exact Hc|].
  eapply Qle_lt_trans; [by apply nearest_le|done].
Qed.


Lemma inject_Z_pow2 (z e : Z) : (0 <= e)%Z -> (z <= 2 ^ e)%Z -> inject_Z z <= 2 ^ e.
Proof.
  statement_parameters.
  intros He Hz. pose proof (Zpower_Qpower 2 e He) as E. change (inject_Z 2) with 2 in E.
  rewrite <- E. by rewrite <- Zle_Qle.
Qed.

(** A number between 0 and a power of two in range rounds to a finite
    number between the same bounds. *)
Lemma round_below_pow2 (q : Q) (e : Z) :
  0 <= q -> q <= 2 ^ e -> (-53 <= e < 1024)%Z ->
  round q = Finite (nearest q) /\ 0 <= nearest q /\ nearest q <= 2 ^ e.
Proof.
  statement_parameters.
  intros H0 Hq He.
  assert (E : inject_Z 1 * 2 ^ e == 2 ^ e) by ring.
  assert (Hf : (quantum q <= e)%Z).
  { apply quantum_le; [done| |lia]. eapply Qle_lt_trans; [exact Hq|].
    apply Qpower_lt_compat_l; [lia|done]. }
  split; [|split].
  - apply (round_finite q 1 e); [done|done|by rewrite E|].
    rewrite E. apply Qpower_lt_compat_l; [lia|done].
  - by apply nearest_nonneg.
  - rewrite <- E. apply nearest_le; [done|by rewrite E].
Qed.

Lemma hundred_grid : inject_Z 7036874417766400 * 2 ^ (-46) == 100.
Proof. statement_parameters. vm_compute. reflexivity. Qed.

Lemma unit_roundoff : 2 ^ (-53) == 1 # 9007199254740992.
Proof. statement_parameters. vm_compute. reflexivity. Qed.

(** [100. * a / b] for counts [0 <= a <= b]: a finite number, at most
    [2 ^ -44] away from the exact quotient. *)
Lemma percent_accuracy (a b : Z) :
  (0 <= a <= b)%Z -> (0 < b < 2 ^ 1000)%Z ->
  exists x, percent a b = Ok (Finite x) /\ 0 <= x /\
    Qabs (x - 100 * inject_Z a / inject_Z b) <= 1 # 17592186044416.
Proof.
  statement_parameters.
  intros Ha Hb. unfold percent, float_of_int.
  assert (Hqa : 0 <= inject_Z a) by (change 0 with (inject_Z 0); rewrite <- Zle_Qle; lia).
  assert (Hqb : 1 <= inject_Z b) by (change 1 with (inject_Z 1); rewrite <- Zle_Qle; lia).
  assert (Hab : inject_Z a <= inject_Z b) by (rewrite <- Zle_Qle; lia).
  destruct (round_below_pow2 (inject_Z a) 1000) as (-> & HA0 & HA1);
    [done|apply inject_Z_pow2; lia|lia|].
  destruct (round_below_pow2 (inject_Z b) 1000) as (-> & HT0 & HT1);
    [lra|apply inject_Z_pow2; lia|lia|].
  cbn [binary64.mul].
  destruct (nearest_relative (inject_Z b)) as [HTl HTu].
  { eapply Qle_trans; [|exact Hqb]. apply Qlt_le_weak. done. }
  rewrite unit_roundoff in HTl, HTu.
  assert (HTpos : 0 < nearest (inject_Z b)) by lra.
  unfold float_truediv. cbn [is_zero].
  destruct (Qeq_bool (nearest (inject_Z b)) 0) eqn:Hz.
  { apply Qeq_bool_iff in Hz. lra. }
  assert (H1000 : 2 ^ 1007 == 128 * 2 ^ 1000).
  { assert (E : 2 ^ 1007 == 2 ^ 7 * 2 ^ 1000) by (rewrite <- Qpower_plus; done).
    rewrite E. apply Qmult_comp; done. }
  destruct (round_below_pow2 (100 * nearest (inject_Z a)) 1007) as (-> & HY0 & HY1);
    [lra|rewrite H1000; lra|lia|].
  cbn [div].
  set (A := nearest (inject_Z a)) in *. set (T := nearest (inject_Z b)) in *.
  set (Y := nearest (100 * A)) in *.
  set (p := 100 * inject_Z a / inject_Z b).
  assert (Hp : p * inject_Z b == 100 * inject_Z a) by (unfold p; field; lra).
  assert (Hp0 : 0 <= p) by (apply Qle_shift_div_l; lra).
  assert (Hp1 : p <= 100) by (apply Qle_shift_div_r; lra).
  destruct (Z.eq_dec a 0%Z) as [->|Hne].
  { exists 0. unfold Y, A. rewrite (nearest_zero (inject_Z 0)) by done.
    rewrite (nearest_zero (100 * 0)) by done.
    assert (E : 0 / T == 0) by (unfold Qdiv; ring).
    unfold round. rewrite (nearest_zero (0 / T)) by done.
    split; [done|]. split; [done|].
    assert (E' : 0 - p == 0) by (unfold p; change (inject_Z 0) with 0; unfold Qdiv; ring).
    rewrite E'. done. }
  assert (H1 : 1 <= inject_Z a) by (change 1 with (inject_Z 1); rewrite <- Zle_Qle; lia).
  destruct (nearest_relative (inject_Z a)) as [HAl HAu].
  { eapply Qle_trans; [|exact H1]. done. }
  rewrite unit_roundoff in HAl, HAu. fold A in HAl, HAu.
  destruct (nearest_relative (100 * A)) as [HYl HYu].
  { apply (Qle_trans _ 1); [done|lra]. }
  rewrite unit_roundoff in HYl, HYu. fold Y in HYl, HYu.
  assert (HpT : 0 <= p * (T - inject_Z b * (1 - (1 # 9007199254740992)))).
  { apply Qmult_le_0_compat; [done|lra]. }
  assert (HpT' : 0 <= p * (inject_Z b * (1 + (1 # 9007199254740992)) - T)).
  { apply Qmult_le_0_compat; [done|lra]. }
  assert (Hqu : Y / T <= p * (1 + (4 # 9007199254740992))).
  { apply Qle_shift_div_r; [done|]. lra. }
  assert (Hql : p * (1 - (4 # 9007199254740992)) <= Y / T).
  { apply Qle_shift_div_l; [done|]. lra. }
  assert (Hq0 : 0 <= Y / T) by (apply Qle_shift_div_l; [done|lra]).
  destruct (nearest_relative (Y / T)) as [HXl HXu].
  { apply Qle_shift_div_l; [done|].
    apply (Qle_trans _ (2 ^ (-1022) * 2 ^ 1000)); [apply Qmult_le_l; [done|done]|].
    apply (Qle_trans _ 1); [|lra]. rewrite <- Qpower_plus by done. done. }
  rewrite unit_roundoff in HXl, HXu.
  destruct (round_below_pow2 (Y / T) 7) as (-> & HX0 & _); [done| |lia|].
  { apply (Qle_trans _ 101); [lra|done]. }
  exists (nearest (Y / T)). split; [done|]. split; [done|].
  apply Qabs_Qle_condition. fold p. split; lra.
Qed.

(** [round(x, 2)] of a number near a percentage [p]: a number between 0 and
    100, at most [0.005 + 2 ^ -43] away from [p]. *)
Lemma round2_accuracy (x p : Q) :
  0 <= x -> 0 <= p -> p <= 100 -> Qabs (x - p) <= 1 # 17592186044416 ->
  exists e, round2 (Finite x) = Finite e /\ 0 <= e /\ e <= 100 /\
    Qabs (e - p) <= (1 # 200) + (1 # 8796093022208).
Proof.
  statement_parameters.
  intros H0 Hp0 Hp1 Hx. apply Qabs_Qle_condition in Hx as [Hxl Hxu]. unfold round2.
  assert (Hk : (0 <= round_half_even (x * 100) <= 10000)%Z).
  { split.
    - apply round_half_even_above. change (inject_Z 0) with 0. lra.
    - apply round_half_even_below. change (inject_Z 10000) with 10000. lra. }
  destruct (round_half_even_error (x * 100)) as [Hkl Hku].
  set (k := round_half_even (x * 100)) in *.
  set (q := k # 100).
  assert (Eq : q * 100 == inject_Z k).
  { unfold q, Qeq, Qmult, inject_Z. cbn [Qnum Qden]. lia. }
  assert (Hq0 : 0 <= q) by (unfold q, Qle; cbn [Qnum Qden]; lia).
  assert (Hq1 : q <= 100) by (unfold q, Qle; cbn [Qnum Qden]; lia).
  assert (Hf : (quantum q <= -46)%Z).
  { apply quantum_le; [done| |lia]. eapply Qle_lt_trans; [exact Hq1|]. done. }
  assert (He : q * (1 - (1 # 9007199254740992)) <= nearest q /\
               nearest q <= q * (1 + (1 # 9007199254740992))).
  { destruct (Z.eq_dec k 0%Z) as [Hz|Hne].
    - assert (q == 0) as E by (unfold q; rewrite Hz; done).
      rewrite (nearest_zero q E). split; lra.
    - rewrite <- unit_roundoff. apply nearest_relative.
      apply (Qle_trans _ (1 # 100)); [done|]. unfold q, Qle. cbn [Qnum Qden]. lia. }
  exists (nearest q). split; [|split; [|split]].
  - apply (round_finite _ 7036874417766400 (-46)); [done|done| |].
    + by rewrite hundred_grid.
    + rewrite hundred_grid. done.
  - by apply nearest_nonneg.
  - rewrite <- hundred_grid. apply nearest_le; [done|]. by rewrite hundred_grid.
  - apply Qabs_Qle_condition. split; lra.
Qed.


(** The order of the floats. *)












(** [100. * a / b] raises nothing but [ZeroDivisionError]. *)
Lemma percent_Err (a b : Z) (e : error) : percent a b = Err e -> e = ZeroDivisionError.
Proof.
  statement_parameters.
  unfold percent, float_truediv. destruct (is_zero _); [|done]. by intros [= <-].
Qed.

Lemma percent_of_nothing (a : Z) : percent a 0 = Err ZeroDivisionError.
Proof. statement_parameters. done. Qed.

(** The rounded percentage of a count [a] out of [b]: the code computes it,
    and it lies between 0 and 100. *)
Lemma rounded_percentage_counts (a b : Z) :
  (0 <= a <= b)%Z -> (0 < b < 2 ^ 1000)%Z ->
  exists x, percent a b = Ok x /\ rounded_percentage a b (round2 x).
Proof.
  statement_parameters.
  intros Ha Hb. destruct (percent_accuracy a b Ha Hb) as (x & Hx & Hx0 & Hxp).
  assert (Hp0 : 0 <= 100 * inject_Z a / inject_Z b).
  { apply Qle_shift_div_l; [change 0 with (inject_Z 0); rewrite <- Zlt_Qlt; lia|].
    assert (0 <= inject_Z a) by (change 0 with (inject_Z 0); rewrite <- Zle_Qle; lia). lra. }
  assert (Hp1 : 100 * inject_Z a / inject_Z b <= 100).
  { apply Qle_shift_div_r; [change 0 with (inject_Z 0); rewrite <- Zlt_Qlt; lia|].
    assert (inject_Z a <= inject_Z b) by (rewrite <- Zle_Qle; lia). lra. }
  destruct (round2_accuracy x _ Hx0 Hp0 Hp1 Hxp) as (e & He & _ & _ & Hep).
  exists (Finite x). split; [done|]. by exists (Finite x), e.
Qed.

Lemma rounded_percentage_range (a b : Z) (r : float) :
  (0 <= a <= b)%Z -> (0 < b < 2 ^ 1000)%Z -> rounded_percentage a b r ->
  exists e, r = Finite e /\ 0 <= e /\ e <= 100.
Proof.
  statement_parameters.
  intros Ha Hb (x' & e' & Hx' & -> & He' & _).
  destruct (percent_accuracy a b Ha Hb) as (x & Hx & Hx0 & Hxp).
  assert (Hp0 : 0 <= 100 * inject_Z a / inject_Z b).
  { apply Qle_shift_div_l; [change 0 with (inject_Z 0); rewrite <- Zlt_Qlt; lia|].
    assert (0 <= inject_Z a) by (change 0 with (inject_Z 0); rewrite <- Zle_Qle; lia). lra. }
  assert (Hp1 : 100 * inject_Z a / inject_Z b <= 100).
  { apply Qle_shift_div_r; [change 0 with (inject_Z 0); rewrite <- Zlt_Qlt; lia|].
    assert (inject_Z a <= inject_Z b) by (rewrite <- Zle_Qle; lia). lra. }
  destruct (round2_accuracy x _ Hx0 Hp0 Hp1 Hxp) as (e & He & He0 & He1 & _).
  exists e. replace x' with (Finite x) by congruence. done.
Qed.

End FloatFacts.

(** ** Facts about the array operations *)

Section NumpyFacts.
Import numpy.

Lemma elem_of_where_from k cond i :
  i ∈ where_from k cond <-> (k <= i)%nat /\ cond !! (i - k)%nat = Some true.
Proof.
  statement_parameters.
  revert k. induction cond as [|b cond IH]; intros k; simpl.
  - rewrite elem_of_nil, lookup_nil. split; [done|]. by intros [_ ?].
  - destruct b.
    + rewrite elem_of_cons, IH. split.
      * intros [->|[Hk Hl]].
        -- split; [lia|]. by rewrite Nat.sub_diag.
        -- split; [lia|]. replace (i - k)%nat with (S (i - S k)) by lia. done.
      * intros [Hk Hl]. destruct (decide (i = k)) as [->|Hne]; [by left|right].
        split; [lia|]. replace (i - k)%nat with (S (i - S k)) in Hl by lia. done.
    + rewrite IH. split.
      * intros [Hk Hl]. split; [lia|].
        replace (i - k)%nat with (S (i - S k)) by lia. done.
      * intros [Hk Hl]. destruct (decide (i = k)) as [->|Hne].
        -- rewrite Nat.sub_diag in Hl. discriminate.
        -- split; [lia|]. replace (i - k)%nat with (S (i - S k)) in Hl by lia. done.
Qed.

Lemma elem_of_where cond i : i ∈ where_ cond <-> cond !! i = Some true.
Proof.
  statement_parameters.
  unfold where_. rewrite elem_of_where_from, Nat.sub_0_r. intuition lia.
Qed.

Lemma length_put_const {A} (dst : list A) idx v :
  length (put_const dst idx v) = length dst.
Proof.
  statement_parameters.
  unfold put_const. revert dst. induction idx as [|j idx IH]; intros dst; simpl; [done|].
  by rewrite IH, length_insert.
Qed.

Lemma lookup_put_const {A} (dst : list A) idx v i :
  put_const dst idx v !! i =
    if decide (i ∈ idx) then (fun _ => v) <$> dst !! i else dst !! i.
Proof.
  statement_parameters.
  unfold put_const. revert dst. induction idx as [|j idx IH]; intros dst; simpl.
  - destruct (decide (i ∈ [])) as [H|H]; [by apply elem_of_nil in H|done].
  - rewrite IH. destruct (decide (i = j)) as [->|Hne].
    + assert (Hl : <[j:=v]> dst !! j = (fun _ => v) <$> dst !! j).
      { destruct (decide (j < length dst)%nat).
        - rewrite list_lookup_insert_eq by done.
          destruct (lookup_lt_is_Some_2 dst j) as [x ->]; done.
        - rewrite list_insert_ge by lia.
          rewrite (lookup_ge_None_2 dst j) by lia. done. }
      rewrite Hl. rewrite (decide_True (P := j ∈ j :: idx)) by apply list_elem_of_here.
      case_decide; [|done]. by destruct (dst !! j).
    + rewrite list_lookup_insert_ne by done.
      case_decide as H1; case_decide as H2; try done.
      * exfalso. apply H2. by apply list_elem_of_further.
      * exfalso. apply elem_of_cons in H2 as [?|?]; done.
Qed.

Lemma length_put_from {A} (dst src : list A) idx :
  length (put_from dst src idx) = length dst.
Proof.
  statement_parameters.
  unfold put_from. revert dst. induction idx as [|j idx IH]; intros dst; simpl; [done|].
  rewrite IH. destruct (src !! j); [by rewrite length_insert|done].
Qed.

Lemma lookup_put_from {A} (dst src : list A) idx i x :
  src !! i = Some x ->
  put_from dst src idx !! i =
    if decide (i ∈ idx) then (fun _ => x) <$> dst !! i else dst !! i.
Proof.
  statement_parameters.
  intros Hsrc. unfold put_from. revert dst.
  induction idx as [|j idx IH]; intros dst; simpl.
  - destruct (decide (i ∈ [])) as [H|H]; [by apply elem_of_nil in H|done].
  - rewrite IH. destruct (decide (i = j)) as [->|Hne].
    + rewrite Hsrc.
      assert (Hl : <[j:=x]> dst !! j = (fun _ => x) <$> dst !! j).
      { destruct (decide (j < length dst)%nat).
        - rewrite list_lookup_insert_eq by done.
          destruct (lookup_lt_is_Some_2 dst j) as [y ->]; done.
        - rewrite list_insert_ge by lia.
          rewrite (lookup_ge_None_2 dst j) by lia. done. }
      rewrite Hl. rewrite (decide_True (P := j ∈ j :: idx)) by apply list_elem_of_here.
      case_decide; [|done]. by destruct (dst !! j).
    + assert (Hl : forall d : list A,
               (match src !! j with Some v => <[j:=v]> d | None => d end) !! i = d !! i).
      { intros d. destruct (src !! j); [by rewrite list_lookup_insert_ne|done]. }
      rewrite Hl.
      case_decide as H1; case_decide as H2; try done.
      * exfalso. apply H2. by apply list_elem_of_further.
      * exfalso. apply elem_of_cons in H2 as [?|?]; done.
Qed.

Lemma lookup_eq_scalar a v i : eq_scalar a v !! i = (fun x => x =? v) <$> a !! i.
Proof. statement_parameters. apply list_lookup_fmap. Qed.

Lemma lookup_ne_scalar a v i : ne_scalar a v !! i = (fun x => negb (x =? v)) <$> a !! i.
Proof. statement_parameters. apply list_lookup_fmap. Qed.

Lemma lookup_isin a values i :
  isin a values !! i = (fun x => existsb (Z.eqb x) values) <$> a !! i.
Proof. statement_parameters. apply list_lookup_fmap. Qed.

Lemma elem_of_intersect1d a b i : i ∈ intersect1d a b <-> i ∈ a /\ i ∈ b.
Proof. statement_parameters. apply list_elem_of_intersection. Qed.

Lemma elem_of_union1d a b i : i ∈ union1d a b <-> i ∈ a \/ i ∈ b.
Proof. statement_parameters. apply list_elem_of_union. Qed.

Lemma existsb_eqb_In x values : existsb (Z.eqb x) values = true <-> In x values.
Proof.
  statement_parameters.
  rewrite existsb_exists. split.
  - intros (y & Hy & Heq). apply Z.eqb_eq in Heq. by subst.
  - intros H. exists x. split; [done|apply Z.eqb_refl].
Qed.

End NumpyFacts.

Section MoreNumpyFacts.
Import numpy.

Lemma lookup_put_from_notin {A} (dst src : list A) idx i :
  i ∉ idx -> put_from dst src idx !! i = dst !! i.
Proof.
  statement_parameters.
  unfold put_from. revert dst. induction idx as [|j idx IH]; intros dst Hni; simpl; [done|].
  apply not_elem_of_cons in Hni as [Hne Hni].
  rewrite IH by done.
  destruct (src !! j); [by rewrite list_lookup_insert_ne|done].
Qed.

Lemma elem_of_where_fmap {A} (f : A -> bool) (a : list A) i :
  i ∈ where_ (f <$> a) <-> exists x, a !! i = Some x /\ f x = true.
Proof.
  statement_parameters.
  rewrite elem_of_where, list_lookup_fmap. split.
  - destruct (a !! i) as [x|]; simpl; [|done]. intros [= H]. eauto.
  - intros (x & -> & H). simpl. by rewrite H.
Qed.

Lemma take_at_where_from {A} (f : A -> bool) (pre a : list A) :
  take_at (pre ++ a) (where_from (length pre) (f <$> a)) = filter (fun x => f x = true) a.
Proof.
  statement_parameters.
  revert pre. induction a as [|x a IH]; intros pre; simpl; [done|].
  assert (Hcons : pre ++ x :: a = (pre ++ [x]) ++ a) by (by rewrite <- app_assoc).
  assert (Hlen : S (length pre) = length (pre ++ [x])) by (rewrite length_app; simpl; lia).
  destruct (f x) eqn:Hfx.
  - rewrite filter_cons_True by done.
    unfold take_at. simpl. rewrite list_lookup_middle by done. simpl. f_equal.
    rewrite Hcons, Hlen. apply IH.
  - rewrite filter_cons_False by (rewrite Hfx; done).
    rewrite Hcons, Hlen. apply IH.
Qed.

Lemma take_at_where {A} (f : A -> bool) (a : list A) :
  take_at a (where_ (f <$> a)) = filter (fun x => f x = true) a.
Proof. statement_parameters. apply (take_at_where_from f [] a). Qed.

Lemma take_at_isin raster values :
  Z.of_nat (length (take_at raster (where_ (isin raster values)))) = count_members values raster.
Proof.
  statement_parameters.
  unfold isin, count_members. rewrite take_at_where. do 2 f_equal.
  apply list_filter_iff. intros x.
  rewrite existsb_eqb_In. symmetry. apply list_elem_of_In.
Qed.

End MoreNumpyFacts.

(** ** parse_mask and the statistics *)

(** C8.  A mask whose nodata entry is absent does not parse: [parse_mask]
    raises, and what it raises is the "expected nodata" error as soon as the
    clear values, which are looked up first, are present.  Conversely that
    error is raised for no mask that has a nodata entry. *)
Theorem parse_mask_requires_nodata (m : mask) :
  (mask_nodata m = None ->
   exists e, parse_mask m = Err e /\
             (is_Some (mask_clear_data m) -> e = expected_nodata)) /\
  (parse_mask m = Err expected_nodata -> mask_nodata m = None).
Proof.
  statement_parameters.
  unfold parse_mask, expected_nodata. split.
  - intros Hnone. rewrite Hnone.
    destruct (mask_clear_data m) as [clear|]; simpl.
    + eexists; split; [reflexivity|done].
    + eexists; split; [reflexivity|]. by intros [? ?].
  - destruct (mask_clear_data m) as [clear|]; simpl; [|discriminate].
    destruct (mask_nodata m); [discriminate|done].
Qed.

Lemma parse_mask_Ok (m parsed : mask) :
  parse_mask m = Ok parsed ->
  exists nodata,
    mask_nodata m = Some nodata /\
    mask_nodata parsed = Some nodata /\
    mask_clear_data parsed = mask_clear_data m /\
    is_Some (mask_clear_data m) /\
    mask_not_clear_data parsed = Some (default [] (mask_not_clear_data m)) /\
    mask_saturated_data parsed = Some (default [] (mask_saturated_data m)) /\
    mask_bits parsed = Some (default false (mask_bits m)) /\
    mask_confidence parsed = false.
Proof.
  statement_parameters.
  unfold parse_mask.
  destruct (mask_clear_data m) as [clear|]; simpl; [|discriminate].
  destruct (mask_nodata m) as [nodata|]; [|discriminate].
  intros [= <-]. simpl. exists nodata. repeat split; eauto.
Qed.

Lemma count_members_bounds (values raster : list Z) :
  0 <= count_members values raster <= Z.of_nat (length raster).
Proof.
  statement_parameters.
  unfold count_members. pose proof (length_filter (fun x => x ∈ values) raster). lia.
Qed.

(** C3.  For a raster with pixels (fewer than 2^63, as the size of an array
    is) and a categorical mask, [_qa_statistics] returns as efficacy
    [round(100 * clear_pixels / total_pixels, 2)] and, for the cloud ratio,
    100 when no pixel is clear or not clear and
    [round(100 * not_clear_pixels / (clear_pixels + not_clear_pixels), 2)]
    otherwise, the two counts being those of the raster elements that are
    members of the clear and of the not-clear values.  The quotients are the
    ones double arithmetic gives, and each rounded number is within
    [0.005 + 2 ^ -43] of the exact percentage. *)
Theorem qa_statistics_categorical (raster : list Z) (m parsed : mask) (compute : bool)
    (conf : option confidence) (clear not_clear : list Z) :
  raster <> [] ->
  Z.of_nat (length raster) < 2 ^ 63 ->
  (if compute then parse_mask m else Ok m) = Ok parsed ->
  mask_bits parsed = Some false ->
  mask_clear_data parsed = Some clear ->
  mask_not_clear_data parsed = Some not_clear ->
  let total_pixels := Z.of_nat (length raster) in
  let clear_pixels := count_members clear raster in
  let not_clear_pixels := count_members not_clear raster in
  exists efficacy cloud_ratio,
    _qa_statistics raster m compute conf = Ok (efficacy, cloud_ratio) /\
    rounded_percentage clear_pixels total_pixels efficacy /\
    (if clear_pixels + not_clear_pixels =? 0 then cloud_ratio = Finite 100
     else rounded_percentage not_clear_pixels (clear_pixels + not_clear_pixels) cloud_ratio).
Proof.
  statement_parameters.
  intros Hne Hsize Hparsed Hbits Hclear Hnot. cbv zeta.
  pose proof (count_members_bounds clear raster) as Hc.
  pose proof (count_members_bounds not_clear raster) as Hn.
  assert (Hlen : 0 < Z.of_nat (length raster)) by (destruct raster; [done|simpl; lia]).
  assert (Hpow : 2 ^ 64 < 2 ^ 1000) by (by apply Z.pow_lt_mono_r).
  destruct (rounded_percentage_counts (count_members clear raster) (Z.of_nat (length raster)))
    as (x & Hx & He); [lia|lia|].
  unfold _qa_statistics. rewrite Hparsed. simpl.
  rewrite Hbits. simpl. rewrite Hclear. simpl. rewrite Hnot. simpl.
  rewrite !take_at_isin.
  fold (count_members clear raster). fold (count_members not_clear raster).
  destruct (count_members clear raster + count_members not_clear raster =? 0) eqn:Harea.
  - exists (round2 x), (Finite 100). cbn [rbind]. rewrite Hx. by cbn [rbind].
  - apply Z.eqb_neq in Harea.
    destruct (rounded_percentage_counts (count_members not_clear raster)
                (count_members clear raster + count_members not_clear raster))
      as (y & Hy & Hr); [lia|lia|].
    exists (round2 x), (round2 y). rewrite Hy. cbn [rbind]. rewrite Hx. by cbn [rbind].
Qed.

(** ** The result monad *)

Lemma rbind_Ok {A B} (m : result A) (f : A -> result B) (y : B) :
  rbind m f = Ok y -> exists x, m = Ok x /\ f x = Ok y.
Proof. statement_parameters. destruct m as [x|e]; simpl; [eauto|discriminate]. Qed.

Ltac inv_bind H :=
  let x := fresh "x" in
  let Hx := fresh "Hx" in
  apply rbind_Ok in H as (x & Hx & H).

(** ** merge *)

Section MergeFacts.
Import numpy.

Variables (nodata : Z) (datasets platforms : list string) (combined build_provenance : bool).

Let step := merge_asset nodata datasets platforms combined build_provenance.
Let loop := merge_assets nodata datasets platforms combined build_provenance.

(** In combined mode an asset is merged by one indexed store at the positions
    that are nodata in the buffer and hold data in the asset. *)
Lemma merge_asset_combined buf a buf' :
  is_combined_collection datasets platforms combined = true ->
  step buf a = Ok buf' ->
  raster_merge buf' =
    put_from (raster_merge buf) (asset_raster a)
      (intersect1d (where_ (eq_scalar (raster_merge buf) nodata))
                   (where_ (ne_scalar (asset_raster a) nodata))).
Proof.
  statement_parameters.
  intros Hcomb H. unfold step, merge_asset in H. rewrite Hcomb in H.
  inv_bind H. inv_bind H. inv_bind H. injection H as <-. simpl.
  destruct (0 <? length _)%nat eqn:Hlen in Hx0.
  - destruct build_provenance.
    + inv_bind Hx0. by injection Hx0 as <-.
    + by injection Hx0 as <-.
  - injection Hx0 as <-. simpl.
    apply Nat.ltb_ge in Hlen.
    destruct (intersect1d _ _); [done|simpl in Hlen; lia].
Qed.

Lemma merge_asset_combined_lookup buf a buf' i :
  is_combined_collection datasets platforms combined = true ->
  step buf a = Ok buf' ->
  raster_merge buf' !! i =
    match raster_merge buf !! i, asset_raster a !! i with
    | Some m, Some v => if (m =? nodata) && negb (v =? nodata) then Some v else Some m
    | held, _ => held
    end.
Proof.
  statement_parameters.
  intros Hcomb H. rewrite (merge_asset_combined buf a buf' Hcomb H).
  set (idx := intersect1d _ _).
  assert (Hidx : i ∈ idx <->
            raster_merge buf !! i = Some nodata /\
            exists v, asset_raster a !! i = Some v /\ v <> nodata).
  { unfold idx. rewrite elem_of_intersect1d. unfold eq_scalar, ne_scalar.
    rewrite !elem_of_where_fmap. split.
    - intros [(m & Hm & Hmn) (v & Hv & Hvn)].
      apply Z.eqb_eq in Hmn as ->. split; [done|]. exists v. split; [done|].
      apply negb_true_iff, Z.eqb_neq in Hvn. done.
    - intros [Hm (v & Hv & Hvn)]. split.
      + exists nodata. split; [done|apply Z.eqb_refl].
      + exists v. split; [done|]. by apply negb_true_iff, Z.eqb_neq. }
  destruct (asset_raster a !! i) as [v|] eqn:Hv.
  - rewrite (lookup_put_from _ _ _ _ v Hv).
    destruct (raster_merge buf !! i) as [m|] eqn:Hm; simpl.
    + case_decide as Hin.
      * apply Hidx in Hin as [[= ->] (v' & [= <-] & Hvn)].
        rewrite Z.eqb_refl. apply Z.eqb_neq in Hvn. by rewrite Hvn.
      * destruct (m =? nodata) eqn:Hmn; [|done].
        destruct (v =? nodata) eqn:Hvn; [done|]. simpl.
        exfalso. apply Hin, Hidx. apply Z.eqb_eq in Hmn as ->. split; [done|].
        exists v. split; [done|]. by apply Z.eqb_neq.
    + by case_decide.
  - rewrite lookup_put_from_notin.
    + by destruct (raster_merge buf !! i).
    + intros Hin. apply Hidx in Hin as [_ (v & Hv' & _)]. discriminate.
Qed.

Lemma merge_assets_combined_keeps assets buf buf' i v :
  is_combined_collection datasets platforms combined = true ->
  loop buf assets = Ok buf' ->
  raster_merge buf !! i = Some v -> v <> nodata ->
  raster_merge buf' !! i = Some v.
Proof.
  statement_parameters.
  intros Hcomb. revert buf. induction assets as [|a assets IH]; intros buf H Hv Hne.
  - injection H as <-. done.
  - unfold loop in H. simpl in H. inv_bind H.
    apply (IH x); [done| |done].
    rewrite (merge_asset_combined_lookup buf a x i Hcomb Hx), Hv.
    apply Z.eqb_neq in Hne. rewrite Hne. simpl. by destruct (asset_raster a !! i).
Qed.

Lemma merge_assets_combined_first pre a post buf buf' i v :
  is_combined_collection datasets platforms combined = true ->
  loop buf (pre ++ a :: post) = Ok buf' ->
  raster_merge buf !! i = Some nodata ->
  (forall b x, b ∈ pre -> asset_raster b !! i = Some x -> x = nodata) ->
  asset_raster a !! i = Some v -> v <> nodata ->
  raster_merge buf' !! i = Some v.
Proof.
  statement_parameters.
  intros Hcomb. revert buf. induction pre as [|b pre IH]; intros buf H Hm Hpre Hv Hne.
  - unfold loop in H. simpl in H. inv_bind H.
    apply (merge_assets_combined_keeps post x buf' i v Hcomb H); [|done].
    rewrite (merge_asset_combined_lookup buf a x i Hcomb Hx), Hm, Hv.
    rewrite Z.eqb_refl. apply Z.eqb_neq in Hne. by rewrite Hne.
  - unfold loop in H. simpl in H. inv_bind H.
    apply (IH x); [done| | |done|done].
    + rewrite (merge_asset_combined_lookup buf b x i Hcomb Hx), Hm.
      destruct (asset_raster b !! i) as [y|] eqn:Hy; [|done].
      rewrite (Hpre b y) by (done || apply list_elem_of_here).
      by rewrite Z.eqb_refl.
    + intros b' y Hin. apply Hpre. by apply list_elem_of_further.
Qed.

(** C2.  In combined-collection mode, merging an asset leaves every buffer
    pixel that holds a value other than nodata as it is, and writes only at
    positions that are nodata in the buffer and not nodata in the asset raster,
    where it stores the asset's value; so over the whole loop a value once
    stored stays, and a pixel takes the value of the first asset, in iteration
    order, that has data there. *)
Theorem merge_combined_never_overwrites :
  is_combined_collection datasets platforms combined = true ->
  (forall buf a buf' i,
     merge_asset nodata datasets platforms combined build_provenance buf a = Ok buf' ->
     (forall v, raster_merge buf !! i = Some v -> v <> nodata ->
                raster_merge buf' !! i = Some v) /\
     (raster_merge buf' !! i <> raster_merge buf !! i ->
      raster_merge buf !! i = Some nodata /\
      exists v, asset_raster a !! i = Some v /\ v <> nodata /\
                raster_merge buf' !! i = Some v)) /\
  (forall assets buf buf' i v,
     merge_assets nodata datasets platforms combined build_provenance buf assets = Ok buf' ->
     raster_merge buf !! i = Some v -> v <> nodata ->
     raster_merge buf' !! i = Some v) /\
  (forall pre a post buf buf' i v,
     merge_assets nodata datasets platforms combined build_provenance buf (pre ++ a :: post)
       = Ok buf' ->
     raster_merge buf !! i = Some nodata ->
     (forall b x, b ∈ pre -> asset_raster b !! i = Some x -> x = nodata) ->
     asset_raster a !! i = Some v -> v <> nodata ->
     raster_merge buf' !! i = Some v).
Proof.
  statement_parameters.
  intros Hcomb. split; [|split].
  - intros buf a buf' i H.
    pose proof (merge_asset_combined_lookup buf a buf' i Hcomb H) as Hl. split.
    + intros v Hv Hne. rewrite Hl, Hv. apply Z.eqb_neq in Hne. rewrite Hne. simpl.
      by destruct (asset_raster a !! i).
    + intros Hchg. rewrite Hl in *.
      destruct (raster_merge buf !! i) as [m|]; [|done].
      destruct (asset_raster a !! i) as [v|]; [|done].
      destruct (m =? nodata) eqn:Hm; simpl in *; [|done].
      destruct (v =? nodata) eqn:Hv; simpl in *; [done|].
      apply Z.eqb_eq in Hm as ->. apply Z.eqb_neq in Hv. eauto.
  - intros assets buf buf' i v. by apply merge_assets_combined_keeps.
  - intros pre a post buf buf' i v. by apply merge_assets_combined_first.
Qed.

End MergeFacts.

(** The merged raster starts as nodata everywhere and every asset is merged
    into it. *)
Lemma merge_Ok m assets band band_nodata quality_band datasets platforms combined
    build_provenance compute size r :
  merge m assets band band_nodata quality_band datasets platforms combined build_provenance
    compute size = Ok r ->
  exists buf,
    merge_assets (merge_nodata r) datasets platforms combined build_provenance
      {| raster_merge := numpy.full size (merge_nodata r);
         raster_provenance := numpy.full size DATASOURCE_NODATA;
         index_landsat_oli := [];
         platforms_used := [] |} assets = Ok buf /\
    merge_raster r = raster_merge buf /\
    assets <> [] /\
    (quality_band <> Some band ->
     merge_efficacy r = Finite 0 /\ merge_cloudratio r = Finite 100 /\
     merge_nodata r = band_nodata) /\
    (quality_band = Some band ->
     mask_nodata m = Some (merge_nodata r) /\
     exists conf,
       _qa_statistics (raster_merge buf) m compute conf
         = Ok (merge_efficacy r, merge_cloudratio r)).
Proof.
  statement_parameters.
  unfold merge. intros H. inv_bind H. inv_bind H. inv_bind H. inv_bind H.
  injection H as <-. simpl. exists x0.
  destruct (bool_decide (assets = [])) eqn:Ha; [discriminate|].
  apply bool_decide_eq_false in Ha.
  split; [done|]. split; [done|]. split; [done|].
  destruct (bool_decide (quality_band = Some band)) eqn:Hq.
  - apply bool_decide_eq_true in Hq. split; [by intros ?|]. intros _. split.
    + destruct (mask_nodata m) as [z|]; simpl in Hx; [|discriminate].
      by injection Hx as ->.
    + destruct x2 as [efficacy cloudratio]. simpl. eauto.
  - apply bool_decide_eq_false in Hq.
    injection Hx as <-. injection Hx2 as <-. split; [done|]. by intros ?.
Qed.

(** C10.  When the merged band is not the quality band, the result of [merge]
    carries efficacy 0 and cloud ratio 100 whatever the assets hold (and there
    is such a result as soon as there is an asset and neither provenance nor
    platform combination is asked for); when it is the quality band, the two
    numbers are those [_qa_statistics] computes on the merged raster. *)
Theorem merge_statistics_only_for_quality_band (m : mask) (assets : list asset)
    (band : string) (band_nodata : Z) (quality_band : option string)
    (datasets platforms : list string) (combined build_provenance compute : bool)
    (size : nat) :
  let run := merge m assets band band_nodata quality_band datasets platforms combined
               build_provenance compute size in
  (quality_band <> Some band ->
   (forall r, run = Ok r -> merge_efficacy r = Finite 0 /\ merge_cloudratio r = Finite 100) /\
   (assets <> [] -> build_provenance = false -> combined = false -> exists r, run = Ok r)) /\
  (quality_band = Some band ->
   forall r, run = Ok r ->
     exists conf, _qa_statistics (merge_raster r) m compute conf
                  = Ok (merge_efficacy r, merge_cloudratio r)).
Proof.
  statement_parameters.
  simpl. split.
  - intros Hq. split.
    + intros r H. apply merge_Ok in H as (buf & _ & _ & _ & H & _).
      destruct (H Hq) as (? & ? & _). done.
    + intros Ha -> ->. unfold merge.
      rewrite (bool_decide_eq_false_2 _ Hq). simpl.
      assert (Hloop : forall assets' buf, exists buf',
                 merge_assets band_nodata datasets platforms false false buf assets' = Ok buf').
      { induction assets' as [|a assets' IH]; intros buf; simpl; [eauto|].
        unfold merge_asset. rewrite andb_false_r. simpl.
        destruct (is_combined_collection _ _ _); simpl.
        - destruct (0 <? length _)%nat; simpl; apply IH.
        - apply IH. }
      edestruct Hloop as [buf' ->]. simpl.
      rewrite (bool_decide_eq_false_2 _ Ha). simpl. eauto.
  - intros Hq r H. apply merge_Ok in H as (buf & _ & -> & _ & _ & H).
    destruct (H Hq) as (_ & conf & ?). eauto.
Qed.

(** ** post_processing_quality *)

Section PostProcessingFacts.
Import numpy.

Lemma saturated_value_spec nodata datasets :
  saturated_value nodata datasets = if existsb is_sentinel datasets then 1 else nodata.
Proof.
  statement_parameters.
  unfold saturated_value. revert nodata.
  induction datasets as [|d datasets IH]; intros nodata; simpl; [done|].
  rewrite IH. destruct (is_sentinel d); simpl; [|done].
  by destruct (existsb is_sentinel datasets).
Qed.

Lemma elem_of_nodata_positions (bands : list band_file) (w : nat) (acc : list nat) i :
  i ∈ foldl (fun positions b =>
               union1d positions (where_ (eq_scalar (read (bf_data b) w) (bf_nodata b))))
        acc bands
  <-> i ∈ acc \/ exists b, b ∈ bands /\ read (bf_data b) w !! i = Some (bf_nodata b).
Proof.
  statement_parameters.
  revert acc. induction bands as [|b bands IH]; intros acc; simpl.
  - split; [by left|]. intros [?|(b & Hb & _)]; [done|]. by apply elem_of_nil in Hb.
  - rewrite IH, elem_of_union1d. unfold eq_scalar. rewrite elem_of_where_fmap. split.
    + intros [[?|(x & Hx & Heq)]|(b' & Hb' & ?)].
      * by left.
      * right. exists b. split; [apply list_elem_of_here|].
        apply Z.eqb_eq in Heq. by subst.
      * right. exists b'. split; [by apply list_elem_of_further|done].
    + intros [?|(b' & Hb' & Hr)]; [by left; left|].
      apply elem_of_cons in Hb' as [->|Hb'].
      * left. right. exists (bf_nodata b). split; [done|apply Z.eqb_refl].
      * right. eauto.
Qed.

Lemma post_processing_block_lookup nodata saturated bands w block i q :
  block !! i = Some q ->
  let hit := exists b, b ∈ bands /\ read (bf_data b) w !! i = Some (bf_nodata b) in
  let block' := post_processing_block nodata saturated bands w block in
  (q = nodata -> block' !! i = Some nodata) /\
  (q <> nodata -> hit -> block' !! i = Some saturated) /\
  (q <> nodata -> ~ hit -> block' !! i = Some q).
Proof.
  statement_parameters.
  intros Hq. simpl. unfold post_processing_block.
  set (positions := foldl _ [] bands).
  assert (Hpos : i ∈ positions <->
                 exists b, b ∈ bands /\ read (bf_data b) w !! i = Some (bf_nodata b)).
  { unfold positions. rewrite elem_of_nodata_positions. split; [|by right].
    intros [H|H]; [by apply elem_of_nil in H|done]. }
  assert (Hscl : i ∈ where_ (eq_scalar block nodata) <-> q = nodata).
  { unfold eq_scalar. rewrite elem_of_where_fmap. split.
    - intros (x & Hx & Heq). apply Z.eqb_eq in Heq. congruence.
    - intros ->. exists nodata. split; [done|apply Z.eqb_refl]. }
  destruct (0 <? length positions)%nat eqn:Hlen.
  - rewrite !lookup_put_const, Hq. simpl. split; [|split].
    + intros Hqn. rewrite decide_True by (by apply Hscl). by case_decide.
    + intros Hqn Hex. rewrite decide_False by (by rewrite Hscl).
      by rewrite decide_True by (by apply Hpos).
    + intros Hqn Hex. rewrite decide_False by (by rewrite Hscl).
      by rewrite decide_False by (by rewrite Hpos).
  - apply Nat.ltb_ge in Hlen. destruct positions as [|p positions'] eqn:Hp; [|simpl in Hlen; lia].
    rewrite Hq. split; [|split].
    + by intros ->.
    + intros _ Hex. apply Hpos in Hex. by apply elem_of_nil in Hex.
    + done.
Qed.

End PostProcessingFacts.

(** The bands that [bands_without_quality] keeps: those that are not the
    quality band and whose name in lower case is none of the derived bands. *)
Lemma elem_of_bands_without_quality (b : band_file) (bands : list band_file)
    (quality_band : string) :
  b ∈ bands_without_quality bands quality_band <->
  b ∈ bands /\ bf_name b <> quality_band /\
  in_strings (lower (bf_name b)) _default_bands = false.
Proof.
  statement_parameters.
  unfold bands_without_quality. rewrite list_elem_of_filter.
  rewrite andb_true_iff, !negb_true_iff, String.eqb_neq. tauto.
Qed.

(** C9.  After the reconciliation, a pixel whose quality value was the nodata
    of the quality band still holds nodata; any other pixel that is nodata in
    at least one band that is neither the quality band nor a derived band (a
    band whose name in lower case is one of [_default_bands]) holds the
    saturated value, which is 1 when a contributing data set is a Sentinel
    one and the nodata of the quality band otherwise; every remaining pixel,
    whatever the quality band and the derived bands hold there, keeps its
    quality value. *)
Theorem post_processing_quality_pixel (quality_file : dataset) (nodata : Z)
    (bands : list band_file) (quality_band : string) (datasets : list (option string))
    (w i : nat) (block : list Z) (q : Z) :
  ds_blocks quality_file !! w = Some block ->
  block !! i = Some q ->
  let nodata_in_some_band :=
    exists b, b ∈ bands /\
              bf_name b <> quality_band /\
              in_strings (lower (bf_name b)) _default_bands = false /\
              read (bf_data b) w !! i = Some (bf_nodata b) in
  exists block',
    post_processing_quality quality_file nodata bands quality_band datasets !! w = Some block' /\
    length block' = length block /\
    (q = nodata -> block' !! i = Some nodata) /\
    (q <> nodata -> nodata_in_some_band ->
     block' !! i = Some (if existsb is_sentinel datasets then 1 else nodata)) /\
    (q <> nodata -> ~ nodata_in_some_band -> block' !! i = Some q).
Proof.
  statement_parameters.
  intros Hw Hq. simpl. unfold post_processing_quality.
  rewrite list_lookup_imap, Hw. simpl. eexists. split; [reflexivity|].
  split.
  { unfold post_processing_block. destruct (0 <? length _)%nat; [|done].
    by rewrite !length_put_const. }
  rewrite <- saturated_value_spec.
  destruct (post_processing_block_lookup nodata (saturated_value nodata datasets)
              (bands_without_quality bands quality_band) w block i q Hq)
    as (Hnodata & Hhit & Hmiss).
  split; [done|]. split.
  - intros Hne (b & Hb & Hname & Hderived & Hread). apply Hhit; [done|].
    exists b. by rewrite elem_of_bands_without_quality.
  - intros Hne Hnone. apply Hmiss; [done|].
    intros (b & Hb & Hread). apply Hnone.
    apply elem_of_bands_without_quality in Hb as (? & ? & ?). by exists b.
Qed.

(** ** The ranking of the scenes *)

Section RankingFacts.











Lemma StronglySorted_lookup {A} (R : A -> A -> Prop) (l : list A) i j a b :
  StronglySorted R l -> (i < j)%nat -> l !! i = Some a -> l !! j = Some b -> R a b.
Proof.
  statement_parameters.
  intros Hs. revert i j. induction Hs as [|x l Hs IH Hx]; intros i j Hij Hi Hj; [done|].
  destruct j as [|j]; [lia|]. destruct i as [|i].
  - injection Hi as ->. rewrite Forall_forall in Hx. apply Hx.
    by eapply list_elem_of_lookup_2.
  - simpl in Hi, Hj. apply (IH i j); [lia|done|done].
Qed.


End RankingFacts.

(** ** blend: one date stacked into a window *)

Section StackDateFacts.
Import numpy.

Lemma put_from_guard {A} (dst src : list A) idx :
  (if (0 <? length idx)%nat then put_from dst src idx else dst) = put_from dst src idx.
Proof. statement_parameters. destruct idx; simpl; [done|]. done. Qed.

Lemma put_const_guard {A} (dst : list A) idx v :
  (if (0 <? length idx)%nat then put_const dst idx v else dst) = put_const dst idx v.
Proof. statement_parameters. destruct idx; simpl; [done|]. done. Qed.

Lemma astype_uint8_count t c :
  (c = 0 \/ c = 1) -> astype_uint8 (t + astype_uint8 c) = (t + c) mod 256.
Proof. statement_parameters. unfold astype_uint8. by intros [->| ->]. Qed.

Lemma astype_int16_id z : int16_range z -> astype_int16 z = z.
Proof.
  statement_parameters.
  unfold int16_range, astype_int16. intros H.
  rewrite Z.mod_small by lia. lia.
Qed.

Variable cx : blend_context.

(** The total observation counter of a pixel goes up by one, on 8 bits,
    exactly when the quality value of the date differs from nodata. *)
Lemma stack_date_total st order d i t q :
  stack_total_observation st !! i = Some t ->
  d_quality d !! i = Some q ->
  stack_total_observation (stack_date cx st order d) !! i
    = Some ((t + (if q =? cx_nodata cx then 0 else 1)) mod 256).
Proof.
  statement_parameters.
  intros Ht Hq. unfold stack_date. simpl.
  rewrite lookup_zip_with, Ht. simpl.
  rewrite !lookup_put_const, Hq. simpl.
  set (valid := where_ (ne_scalar _ _)). set (invalid := where_ (eq_scalar _ _)).
  assert (Hvalid : i ∈ valid <-> (q =? cx_nodata cx) = false).
  { unfold valid, ne_scalar. rewrite elem_of_where_fmap. split.
    - intros (x & Hx & Hne). simplify_eq. by apply negb_true_iff.
    - intros H. exists q. by rewrite H. }
  assert (Hinvalid : i ∈ invalid <-> (q =? cx_nodata cx) = true).
  { unfold invalid, eq_scalar. rewrite elem_of_where_fmap. split.
    - intros (x & Hx & Hne). by simplify_eq.
    - intros H. eauto. }
  destruct (q =? cx_nodata cx) eqn:Hqn.
  - rewrite (decide_False (P := i ∈ valid)) by (rewrite Hvalid; congruence).
    rewrite (decide_True (P := i ∈ invalid)) by (by apply Hinvalid).
    simpl. by rewrite astype_uint8_count by (by left).
  - rewrite (decide_True (P := i ∈ valid)) by (by apply Hvalid).
    rewrite (decide_False (P := i ∈ invalid)) by (rewrite Hinvalid; congruence).
    simpl. by rewrite astype_uint8_count by (by right).
Qed.

(** The not-done flag of a pixel stays up only while the pixel is masked. *)
Lemma stack_date_notdone st order d i nd b :
  notdonemask st !! i = Some nd ->
  d_bmask d !! i = Some b ->
  notdonemask (stack_date cx st order d) !! i = Some (nd && b).
Proof.
  statement_parameters.
  intros Hnd Hb. unfold stack_date. simpl.
  by rewrite lookup_zip_with, Hnd, Hb.
Qed.

(** The value and the day of year of a pixel are replaced by those of the date
    when the pixel is clear on the date and not done yet, or when the stack
    still holds nodata there and the date has some value. *)
Lemma stack_date_pixel st order d i s p nd r b :
  stack_raster st !! i = Some s ->
  provenance_array st !! i = Some p ->
  notdonemask st !! i = Some nd ->
  d_raster d !! i = Some r ->
  d_bmask d !! i = Some b ->
  let written := (nd && negb b) || ((s =? cx_nodata cx) && negb (r =? cx_nodata cx)) in
  stack_raster (stack_date cx st order d) !! i = Some (if written then r else s) /\
  provenance_array (stack_date cx st order d) !! i = Some (if written then d_day d else p).
Proof.
  statement_parameters.
  intros Hs Hp Hnd Hr Hb. unfold stack_date. simpl.
  rewrite put_from_guard, put_const_guard.
  set (fill := intersect1d _ _).
  set (clear := where_ _).
  assert (Hfill : i ∈ fill <-> (s =? cx_nodata cx) && negb (r =? cx_nodata cx) = true).
  { unfold fill. rewrite elem_of_intersect1d. unfold eq_scalar, ne_scalar.
    rewrite !elem_of_where_fmap, andb_true_iff. split.
    - intros [(x & Hx & Hxn) (y & Hy & Hyn)]. by simplify_eq.
    - intros [H1 H2]. split; eauto. }
  assert (Hclear : i ∈ clear <-> nd && negb b = true).
  { unfold clear, logical_and, invert. rewrite elem_of_where, !lookup_zip_with.
    rewrite list_lookup_fmap, Hnd, Hb. simpl. split.
    - intros [= H]. apply andb_true_iff in H as [H _]. done.
    - intros H. f_equal. rewrite H. apply andb_true_iff in H as [_ ->]. done. }
  rewrite (lookup_put_from _ _ clear i r Hr), (lookup_put_from _ _ fill i r Hr), Hs.
  rewrite !lookup_put_const, Hp. simpl.
  destruct (decide (i ∈ clear)) as [H1|H1]; destruct (decide (i ∈ fill)) as [H2|H2]; simpl.
  - apply Hclear in H1. by rewrite H1.
  - apply Hclear in H1. by rewrite H1.
  - rewrite Hclear in H1. apply not_true_is_false in H1. apply Hfill in H2.
    by rewrite H1, H2.
  - rewrite Hclear in H1. apply not_true_is_false in H1.
    rewrite Hfill in H2. apply not_true_is_false in H2.
    by rewrite H1, H2.
Qed.

Lemma stack_date_stackMA st order d :
  stackMA (stack_date cx st order d)
    = <[order := (astype_int16 <$> d_raster d, d_bmask d)]> (stackMA st).
Proof. statement_parameters. done. Qed.

End StackDateFacts.

(** ** blend: the dates of a window *)

Section StackDatesFacts.
Import numpy.

Variable cx : blend_context.

Lemma blend_dates_split w st order files :
  blend_dates cx w st order files =
    (let* ds := read_dates cx w order files in Ok (stack_dates cx st order ds)).
Proof.
  statement_parameters.
  revert st order. induction files as [|o files IH]; intros st order; simpl; [done|].
  unfold blend_date. destruct (read_date cx w order o) as [d|e]; simpl; [|done].
  rewrite IH. by destruct (read_dates cx w (S order) files).
Qed.

Lemma read_dates_length w order files ds :
  read_dates cx w order files = Ok ds -> length ds = length files.
Proof.
  statement_parameters.
  revert order ds. induction files as [|o files IH]; intros order ds H; simpl in H.
  - by injection H as <-.
  - inv_bind H. inv_bind H. injection H as <-. simpl. f_equal. by eapply IH.
Qed.

Lemma read_date_fields w order o d :
  read_date cx w order o = Ok d ->
  d_raster d = read (o_band o) w /\ d_quality d = read (o_quality o) w.
Proof.
  statement_parameters.
  unfold read_date. intros H. inv_bind H. inv_bind H. inv_bind H. inv_bind H.
  by injection H as <-.
Qed.

Lemma stack_dates_app st order ds1 ds2 :
  stack_dates cx st order (ds1 ++ ds2) =
    stack_dates cx (stack_dates cx st order ds1) (order + length ds1) ds2.
Proof.
  statement_parameters.
  revert st order. induction ds1 as [|d ds1 IH]; intros st order; simpl.
  - by rewrite Nat.add_0_r.
  - rewrite IH. f_equal. lia.
Qed.

Lemma blend_block_Ok numscenes w size out :
  blend_block cx numscenes w size = Ok out ->
  exists ds,
    read_dates cx w 0 (cx_files cx) = Ok ds /\
    block_final out = stack_dates cx (initial_buffers cx numscenes size) 0 ds /\
    block_median out =
      (if cx_median cx
       then Some (put_const (ma_median (stackMA (block_final out)) size)
                    (where_ (notdonemask (block_final out))) (cx_nodata cx))
       else None) /\
    block_count_raster out =
      (if cx_build_clear_observation cx
       then Some (ma_count (stackMA (block_final out)) size) else None).
Proof.
  statement_parameters.
  unfold blend_block. rewrite blend_dates_split. intros H.
  inv_bind H. inv_bind Hx. injection Hx as <-. injection H as <-. simpl. eauto.
Qed.

(** The date stack after the dates: one row per date. *)
Lemma stack_dates_stackMA st order ds :
  (order + length ds <= length (stackMA st))%nat ->
  stackMA (stack_dates cx st order ds) =
    take order (stackMA st) ++ (date_row <$> ds) ++ drop (order + length ds) (stackMA st).
Proof.
  statement_parameters.
  revert st order. induction ds as [|d ds IH]; intros st order Hlen; simpl.
  - by rewrite Nat.add_0_r, take_drop.
  - simpl in Hlen. rewrite IH by (rewrite stack_date_stackMA, length_insert; lia).
    rewrite stack_date_stackMA.
    rewrite drop_insert_lt by lia.
    assert (Hrow : exists row, stackMA st !! order = Some row).
    { apply lookup_lt_is_Some_2. lia. }
    destruct Hrow as [row Hrow].
    rewrite (take_S_r _ _ (date_row d)).
    + rewrite take_insert_ge by lia. rewrite <- app_assoc. simpl.
      by replace (S (order + length ds)) with (order + S (length ds))%nat by lia.
    + apply list_lookup_insert_eq. lia.
Qed.

Lemma initial_stackMA_final numscenes size ds :
  numscenes = length ds ->
  stackMA (stack_dates cx (initial_buffers cx numscenes size) 0 ds) = date_row <$> ds.
Proof.
  statement_parameters.
  intros ->. rewrite stack_dates_stackMA by (simpl; rewrite length_replicate; lia).
  simpl. rewrite drop_ge by (rewrite length_replicate; lia).
  by rewrite app_nil_r.
Qed.

(** The not-done flag of a pixel after the dates: still up when the pixel was
    masked on each of them. *)
Lemma stack_dates_notdone st order ds i nd :
  Forall (pixel_present i) ds ->
  notdonemask st !! i = Some nd ->
  exists nd',
    notdonemask (stack_dates cx st order ds) !! i = Some nd' /\
    (nd' = true <-> nd = true /\ Forall (fun d => d_bmask d !! i = Some true) ds).
Proof.
  statement_parameters.
  revert st order nd. induction ds as [|d ds IH]; intros st order nd Hp Hnd; simpl.
  - exists nd. split; [done|]. split; [by intros ->|by intros [-> _]].
  - inversion Hp as [|? ? (_ & _ & [b Hb]) Hp']; subst.
    destruct (IH (stack_date cx st order d) (S order) (nd && b) Hp') as (nd' & Hl & Hiff).
    { by apply stack_date_notdone. }
    exists nd'. split; [done|]. rewrite Hiff, andb_true_iff. split.
    + intros [[-> ->] H]. split; [done|]. by constructor.
    + intros [-> H]. inversion H; subst. split; [|done]. split; [done|]. congruence.
Qed.

(** The total observation counter of a pixel after the dates. *)
Lemma stack_dates_total st order ds i t :
  Forall (pixel_present i) ds ->
  stack_total_observation st !! i = Some t ->
  0 <= t < 256 ->
  stack_total_observation (stack_dates cx st order ds) !! i
    = Some ((t + Z.of_nat (observed_dates (cx_nodata cx) i ds)) mod 256).
Proof.
  statement_parameters.
  unfold observed_dates.
  revert st order t. induction ds as [|d ds IH]; intros st order t Hp Ht Hr; simpl.
  - rewrite Ht. f_equal. rewrite Z.add_0_r, Z.mod_small; lia.
  - inversion Hp as [|? ? (_ & [q Hq] & _) Hp']; subst.
    rewrite (IH _ _ ((t + (if q =? cx_nodata cx then 0 else 1)) mod 256));
      [|done|by apply stack_date_total|by apply Z.mod_pos_bound].
    f_equal. rewrite Zplus_mod_idemp_l. f_equal.
    rewrite filter_cons. destruct (q =? cx_nodata cx) eqn:Hqn.
    + apply Z.eqb_eq in Hqn. rewrite decide_False by (rewrite Hq; intros H; by apply H; f_equal).
      lia.
    + apply Z.eqb_neq in Hqn. rewrite decide_True by (rewrite Hq; congruence).
      simpl length. lia.
Qed.

(** The entries of one pixel that the date stack does not mask. *)
Lemma unmasked_at_rows_length ds i :
  Forall (pixel_present i) ds ->
  length (unmasked_at (date_row <$> ds) i) = clear_dates i ds.
Proof.
  statement_parameters.
  unfold clear_dates, unmasked_at.
  induction ds as [|d ds IH]; intros Hp; simpl; [done|].
  inversion Hp as [|? ? ([r Hr] & _ & [b Hb]) Hp']; subst.
  rewrite filter_cons, Hb, list_lookup_fmap, Hr. simpl.
  destruct b.
  - rewrite decide_False by congruence. by apply IH.
  - rewrite decide_True by done. simpl. f_equal. by apply IH.
Qed.

Lemma unmasked_at_rows_elem ds i x :
  x ∈ unmasked_at (date_row <$> ds) i ->
  exists d r, d ∈ ds /\ d_bmask d !! i = Some false /\ d_raster d !! i = Some r /\
              x = astype_int16 r.
Proof.
  statement_parameters.
  unfold unmasked_at.
  induction ds as [|d ds IH]; simpl; [by intros ?%elem_of_nil|].
  destruct (d_bmask d !! i) as [[|]|] eqn:Hb.
  - intros (d' & r & ? & ?)%IH. exists d', r. split; [by apply list_elem_of_further|done].
  - rewrite list_lookup_fmap. destruct (d_raster d !! i) as [r|] eqn:Hr; simpl.
    + intros [->|H]%elem_of_cons.
      * exists d, r. split; [apply list_elem_of_here|done].
      * apply IH in H as (d' & r' & ? & ?). exists d', r'.
        split; [by apply list_elem_of_further|done].
    + intros (d' & r' & ? & ?)%IH. exists d', r'. split; [by apply list_elem_of_further|done].
  - intros (d' & r & ? & ?)%IH. exists d', r. split; [by apply list_elem_of_further|done].
Qed.

Lemma lookup_ma_count stack size i :
  (i < size)%nat ->
  ma_count stack size !! i = Some (Z.of_nat (length (unmasked_at stack i))).
Proof. statement_parameters. intros H. unfold ma_count. by rewrite list_lookup_fmap, lookup_seq_lt. Qed.

Lemma lookup_ma_median stack size i :
  (i < size)%nat -> ma_median stack size !! i = Some (median_of (unmasked_at stack i)).
Proof. statement_parameters. intros H. unfold ma_median. by rewrite list_lookup_fmap, lookup_seq_lt. Qed.

Lemma initial_buffers_lookup numscenes size i :
  (i < size)%nat ->
  let st := initial_buffers cx numscenes size in
  stack_raster st !! i = Some (cx_nodata cx) /\
  provenance_array st !! i = Some (-1) /\
  notdonemask st !! i = Some true /\
  stack_total_observation st !! i = Some 0.
Proof.
  statement_parameters.
  intros H. simpl. unfold full, zeros. by rewrite !lookup_replicate_2.
Qed.

(** Before the first clear date: the pixel stays not done, whatever is
    written to it. *)
Lemma stack_dates_masked st order ds i :
  Forall (pixel_present i) ds ->
  Forall (fun d => d_bmask d !! i = Some true) ds ->
  notdonemask st !! i = Some true ->
  is_Some (stack_raster st !! i) ->
  is_Some (provenance_array st !! i) ->
  let st' := stack_dates cx st order ds in
  notdonemask st' !! i = Some true /\
  is_Some (stack_raster st' !! i) /\ is_Some (provenance_array st' !! i).
Proof.
  statement_parameters.
  revert st order. induction ds as [|d ds IH]; intros st order Hp Hm Hnd [s Hs] [p Hp0]; simpl.
  - eauto.
  - inversion Hp as [|? ? ([r Hr] & _ & _) Hp']; subst.
    inversion Hm as [|? ? Hb Hm']; subst.
    destruct (stack_date_pixel cx st order d i s p true r true Hs Hp0 Hnd Hr Hb) as [H1 H2].
    apply IH; [done|done| | |].
    + by rewrite (stack_date_notdone cx st order d i true true).
    + rewrite H1. eauto.
    + rewrite H2. eauto.
Qed.

(** After a clear date has stored a value other than nodata: nothing changes
    the pixel any more. *)
Lemma stack_dates_done st order ds i r day :
  Forall (pixel_present i) ds ->
  r <> cx_nodata cx ->
  notdonemask st !! i = Some false ->
  stack_raster st !! i = Some r ->
  provenance_array st !! i = Some day ->
  let st' := stack_dates cx st order ds in
  notdonemask st' !! i = Some false /\
  stack_raster st' !! i = Some r /\ provenance_array st' !! i = Some day.
Proof.
  statement_parameters.
  intros Hp Hne. revert st order Hp.
  induction ds as [|d ds IH]; intros st order Hp Hnd Hs Hp0; simpl; [done|].
  inversion Hp as [|? ? ([r' Hr] & _ & [b Hb]) Hp']; subst.
  destruct (stack_date_pixel cx st order d i r day false r' b Hs Hp0 Hnd Hr Hb) as [H1 H2].
  apply Z.eqb_neq in Hne. rewrite Hne in H1, H2. simpl in H1, H2.
  apply IH; [done| | |].
  - by rewrite (stack_date_notdone cx st order d i false b).
  - done.
  - done.
Qed.

(** A pixel that is nodata on every date stays nodata in the stack. *)
Lemma stack_dates_nodata st order ds i :
  Forall (fun d => d_raster d !! i = Some (cx_nodata cx) /\ is_Some (d_bmask d !! i)) ds ->
  is_Some (notdonemask st !! i) ->
  is_Some (provenance_array st !! i) ->
  stack_raster st !! i = Some (cx_nodata cx) ->
  stack_raster (stack_dates cx st order ds) !! i = Some (cx_nodata cx).
Proof.
  statement_parameters.
  revert st order. induction ds as [|d ds IH]; intros st order Hd [nd Hnd] [p Hp] Hs; simpl.
  - done.
  - inversion Hd as [|? ? [Hr [b Hb]] Hd']; subst.
    destruct (stack_date_pixel cx st order d i _ p nd _ b Hs Hp Hnd Hr Hb) as [H1 H2].
    apply IH; [done| | |].
    + rewrite (stack_date_notdone cx st order d i nd b) by done. eauto.
    + rewrite H2. eauto.
    + rewrite H1. by destruct (_ || _).
Qed.

End StackDatesFacts.

(** ** The median of one pixel *)

Section MedianFacts.

Lemma insert_sorted_Permutation x l : Permutation (insert_sorted x l) (x :: l).
Proof.
  statement_parameters.
  induction l as [|y l IH]; simpl; [done|].
  destruct (x <=? y); [done|]. rewrite IH. apply perm_swap.
Qed.

Lemma sort_values_Permutation l : Permutation (sort_values l) l.
Proof.
  statement_parameters.
  induction l as [|x l IH]; simpl; [done|].
  rewrite insert_sorted_Permutation. by constructor.
Qed.

Lemma median_of_constant (values : list Z) (v : Z) :
  values <> [] -> (forall x, x ∈ values -> x = v) -> median_of values = v.
Proof.
  statement_parameters.
  intros Hne Hall. unfold median_of.
  pose proof (sort_values_Permutation values) as Hperm.
  assert (Hlen : length (sort_values values) = length values) by (by rewrite Hperm).
  assert (Hpos : (0 < length values)%nat) by (destruct values; [done|simpl; lia]).
  assert (Hget : forall k, (k < length values)%nat -> default 0 (sort_values values !! k) = v).
  { intros k Hk. destruct (lookup_lt_is_Some_2 (sort_values values) k) as [y Hy]; [lia|].
    rewrite Hy. simpl. apply Hall. rewrite <- Hperm. by eapply list_elem_of_lookup_2. }
  assert (Hh : (length values / 2 < length values)%nat) by (apply Nat.div_lt; lia).
  rewrite (Hget _ Hh).
  assert (Hlow : (if Nat.odd (length values) then v
                  else default 0 (sort_values values !! (length values / 2 - 1)%nat)) = v).
  { destruct (Nat.odd (length values)); [done|]. apply Hget. lia. }
  rewrite Hlow. replace (v + v) with (v * 2) by lia. by apply Z.quot_mul.
Qed.

End MedianFacts.

(** ** blend: the properties of a window *)

(** C7 (as the code has it).  When a date is stacked, the total observation
    counter of a pixel goes up by one, on the 8 bits of the counter, exactly
    when the quality value of the date at that pixel differs from the nodata
    [blend] works with, and stays as it is otherwise; the classification of
    the pixel plays no part.  When the band and the quality reads coincide,
    as they do when the band is the quality band, this is exactly when the
    band value is not nodata. *)
Theorem total_observation_follows_quality_values (cx : blend_context) (w order : nat)
    (st st' : block_buffers) (o : opened) (i : nat) (t q : Z) :
  blend_date cx w st order o = Ok st' ->
  stack_total_observation st !! i = Some t ->
  read (o_quality o) w !! i = Some q ->
  stack_total_observation st' !! i
    = Some ((t + (if q =? cx_nodata cx then 0 else 1)) mod 256) /\
  (read (o_band o) w = read (o_quality o) w ->
   forall r, read (o_band o) w !! i = Some r ->
     stack_total_observation st' !! i
       = Some ((t + (if r =? cx_nodata cx then 0 else 1)) mod 256)).
Proof.
  statement_parameters.
  unfold blend_date. intros H Ht Hq. inv_bind H. injection H as <-.
  destruct (read_date_fields cx w order o x Hx) as [_ Hquality].
  assert (Hgoal : stack_total_observation (stack_date cx st order x) !! i
                  = Some ((t + (if q =? cx_nodata cx then 0 else 1)) mod 256)).
  { apply stack_date_total; [done|]. by rewrite Hquality. }
  split; [done|]. intros Hsame r Hr. rewrite Hsame, Hq in Hr. by injection Hr as <-.
Qed.

(** C6 (as the code has it).  In a window whose dates number at most 255,
    take a pixel that lies in the window on every date and whose quality
    value differs from the nodata [blend] works with on every date on which
    it is classified clear.  Then its clear observation count, the number of
    dates on which it is classified clear, is at most its total observation
    count, the number of dates on which its quality value differs from that
    nodata. *)
Theorem clear_observation_le_total_observation (cx : blend_context)
    (numscenes w size : nat) (out : block_output) (ds : list date_read) (i : nat) :
  blend_block cx numscenes w size = Ok out ->
  read_dates cx w 0 (cx_files cx) = Ok ds ->
  numscenes = length (cx_files cx) ->
  (length ds <= 255)%nat ->
  (i < size)%nat ->
  Forall (pixel_present i) ds ->
  Forall (fun d => d_bmask d !! i = Some false ->
                   d_quality d !! i <> Some (cx_nodata cx)) ds ->
  forall count_raster, block_count_raster out = Some count_raster ->
    exists c t,
      count_raster !! i = Some c /\
      stack_total_observation (block_final out) !! i = Some t /\
      c = Z.of_nat (clear_dates i ds) /\
      t = Z.of_nat (observed_dates (cx_nodata cx) i ds) /\
      c <= t.
Proof.
  statement_parameters.
  intros Hblock Hds Hnum Hlen Hi Hp Hclear count Hcount.
  apply blend_block_Ok in Hblock as (ds' & Hds' & Hfinal & _ & Hc).
  rewrite Hds in Hds'. injection Hds' as <-.
  pose proof (read_dates_length cx w 0 _ ds Hds) as Hlends.
  rewrite Hcount in Hc. destruct (cx_build_clear_observation cx); [|discriminate].
  injection Hc as ->.
  rewrite Hfinal, initial_stackMA_final by congruence.
  destruct (initial_buffers_lookup cx numscenes size i Hi) as (_ & _ & _ & Ht0).
  exists (Z.of_nat (clear_dates i ds)), (Z.of_nat (observed_dates (cx_nodata cx) i ds)).
  assert (Hobs : (observed_dates (cx_nodata cx) i ds <= length ds)%nat)
    by apply length_filter.
  split; [|split; [|split; [done|split; [done|]]]].
  - by rewrite lookup_ma_count, unmasked_at_rows_length.
  - rewrite (stack_dates_total cx _ 0 ds i 0 Hp Ht0) by lia.
    f_equal. rewrite Z.add_0_l. apply Z.mod_small. lia.
  - apply inj_le. unfold clear_dates, observed_dates.
    clear -Hclear. induction ds as [|d ds IH]; simpl; [done|].
    inversion Hclear as [|? ? Hd Hclear']; subst.
    rewrite !filter_cons. destruct (decide (d_bmask d !! i = Some false)) as [Hb|Hb].
    + rewrite decide_True by (by apply Hd). simpl. apply le_n_S. by apply IH.
    + case_decide; simpl; [apply le_S|]; by apply IH.
Qed.

(** C1 (as the code has it).  In a window, let A be the first date in ranking
    order on which a pixel is classified clear (the pixel is masked on every
    date ranked before A), with a band value on A other than nodata.  Then
    the stack composite holds the band value of A and the day of year of A at
    that pixel, whatever the dates ranked after A hold (so also when the pixel
    is clear on a later date B); and this is so from A on: after A and any
    number of later dates, the pixel holds the value and the day of A. *)
Theorem best_pixel_first_clear_date_wins (cx : blend_context) (numscenes w size : nat)
    (out : block_output) (pre post : list date_read) (dA : date_read) (i : nat) (r : Z) :
  blend_block cx numscenes w size = Ok out ->
  read_dates cx w 0 (cx_files cx) = Ok (pre ++ dA :: post) ->
  (i < size)%nat ->
  Forall (pixel_present i) (pre ++ dA :: post) ->
  Forall (fun d => d_bmask d !! i = Some true) pre ->
  d_bmask dA !! i = Some false ->
  d_raster dA !! i = Some r ->
  r <> cx_nodata cx ->
  (stack_raster (block_final out) !! i = Some r /\
   provenance_array (block_final out) !! i = Some (d_day dA)) /\
  (forall later rest, post = later ++ rest ->
     let st := stack_dates cx (initial_buffers cx numscenes size) 0 (pre ++ dA :: later) in
     stack_raster st !! i = Some r /\ provenance_array st !! i = Some (d_day dA)).
Proof.
  statement_parameters.
  intros Hblock Hds Hi Hp Hpre HbA HrA Hne.
  apply blend_block_Ok in Hblock as (ds' & Hds' & Hfinal & _ & _).
  rewrite Hds in Hds'. injection Hds' as <-.
  apply Forall_app in Hp as [Hp_pre Hp_rest].
  inversion Hp_rest as [|? ? HpA Hp_post]; subst.
  destruct (initial_buffers_lookup cx numscenes size i Hi) as (Hs0 & Hp0 & Hnd0 & _).
  assert (Hafter : forall later, Forall (pixel_present i) later ->
            let st := stack_dates cx (initial_buffers cx numscenes size) 0
                        (pre ++ dA :: later) in
            stack_raster st !! i = Some r /\ provenance_array st !! i = Some (d_day dA)).
  { intros later Hlater. simpl. rewrite stack_dates_app. simpl.
    set (st1 := stack_dates cx _ 0 pre).
    destruct (stack_dates_masked cx (initial_buffers cx numscenes size) 0 pre i)
      as (Hnd1 & [s1 Hs1] & [p1 Hp1]); [done|done|done|by rewrite Hs0|by rewrite Hp0|].
    fold st1 in Hnd1, Hs1, Hp1.
    destruct (stack_date_pixel cx st1 (0 + length pre) dA i s1 p1 true r false
                Hs1 Hp1 Hnd1 HrA HbA) as [H1 H2].
    simpl in H1, H2.
    pose proof (stack_date_notdone cx st1 (0 + length pre) dA i true false Hnd1 HbA) as H3.
    by destruct (stack_dates_done cx (stack_date cx st1 (0 + length pre) dA)
                   (S (0 + length pre)) later i r (d_day dA) Hlater Hne H3 H1 H2)
      as (_ & ? & ?). }
  split.
  - rewrite Hfinal. by apply Hafter.
  - intros later rest ->. apply Hafter. by apply Forall_app in Hp_post as [? _].
Qed.

(** X27.  In a window, a pixel whose band value is nodata on every date
    holds nodata in the stack composite; and, when the nodata value lies in
    the range of the 16-bit date stack [stackMA], it holds nodata in the
    median composite as well. *)
Theorem nodata_on_every_date_stays_nodata (cx : blend_context) (numscenes w size : nat)
    (out : block_output) (ds : list date_read) (i : nat) :
  blend_block cx numscenes w size = Ok out ->
  read_dates cx w 0 (cx_files cx) = Ok ds ->
  numscenes = length (cx_files cx) ->
  (i < size)%nat ->
  Forall (pixel_present i) ds ->
  Forall (fun d => d_raster d !! i = Some (cx_nodata cx)) ds ->
  stack_raster (block_final out) !! i = Some (cx_nodata cx) /\
  (int16_range (cx_nodata cx) ->
   forall median, block_median out = Some median -> median !! i = Some (cx_nodata cx)).
Proof.
  statement_parameters.
  intros Hblock Hds Hnum Hi Hp Hnodata.
  apply blend_block_Ok in Hblock as (ds' & Hds' & Hfinal & Hmed & _).
  rewrite Hds in Hds'. injection Hds' as <-.
  pose proof (read_dates_length cx w 0 _ ds Hds) as Hlends.
  destruct (initial_buffers_lookup cx numscenes size i Hi) as (Hs0 & Hp0 & Hnd0 & _).
  split.
  - rewrite Hfinal. apply stack_dates_nodata; [|by rewrite Hnd0|by rewrite Hp0|done].
    rewrite Forall_forall in *. intros d Hd. split; [by apply Hnodata|].
    by destruct (Hp d Hd) as (_ & _ & ?).
  - intros Hrange median Hmedian. rewrite Hmedian in Hmed.
    destruct (cx_median cx); [|discriminate]. injection Hmed as ->.
    rewrite Hfinal, initial_stackMA_final by congruence.
    rewrite lookup_put_const, lookup_ma_median by done. simpl.
    case_decide as Hin; [done|]. f_equal.
    destruct (stack_dates_notdone cx (initial_buffers cx numscenes size) 0 ds i true
                Hp Hnd0) as (nd' & Hnd' & Hiff).
    apply median_of_constant.
    + intros Hnil. apply Hin. apply elem_of_where. rewrite Hnd'. f_equal.
      apply Hiff. split; [done|].
      assert (Hzero : clear_dates i ds = 0%nat).
      { by rewrite <- (unmasked_at_rows_length ds i Hp), Hnil. }
      clear -Hzero Hp. unfold clear_dates in Hzero.
      induction ds as [|d ds IH]; [constructor|].
      inversion Hp as [|? ? (_ & _ & [b Hb]) Hp']; subst.
      rewrite filter_cons in Hzero. destruct b.
      * rewrite decide_False in Hzero by congruence. constructor; [done|by apply IH].
      * rewrite decide_True in Hzero by done. discriminate.
    + intros x (d & r & Hd & _ & Hr & ->)%unmasked_at_rows_elem.
      rewrite Forall_forall in Hnodata. rewrite (Hnodata d Hd) in Hr.
      injection Hr as <-. by apply astype_int16_id.
Qed.

(** When the band is the quality band and the mask is categorical with a
    nodata that is not one of its clear values, a pixel classified clear has
    a quality value other than nodata: every clear observation is counted
    in the total. *)
Lemma read_date_bmask (cx : blend_context) w order o d :
  read_date cx w order o = Ok d ->
  exists quality_mask conf,
    d_bmask d = classify cx (read (o_band o) w) (read (o_quality o) w) quality_mask conf.
Proof.
  statement_parameters.
  unfold read_date. intros H. inv_bind H. inv_bind H. inv_bind H. inv_bind H.
  injection H as <-. simpl. eauto.
Qed.

Lemma classify_categorical_clear (cx : blend_context) raster quality quality_mask conf i q r :
  cx_bits cx = false ->
  quality !! i = Some q ->
  raster !! i = Some r ->
  classify cx raster quality quality_mask conf !! i = Some false ->
  existsb (Z.eqb q) (cx_clear_values cx) = true \/ r <> cx_nodata cx.
Proof.
  statement_parameters.
  intros Hbits Hq Hr. unfold classify. rewrite Hbits.
  rewrite lookup_put_const.
  destruct (decide (i ∈ numpy.where_ (numpy.isin quality (cx_clear_values cx)))) as [Hin|Hin].
  - intros _. left. unfold numpy.isin in Hin. apply elem_of_where_fmap in Hin as (x & Hx & Hc).
    congruence.
  - rewrite lookup_put_const. case_decide.
    { destruct (numpy.put_const _ _ _ !! i); simpl; intros ?; discriminate. }
    rewrite lookup_put_const. case_decide as Hnodata.
    { destruct (numpy.put_const _ _ _ !! i); simpl; intros ?; discriminate. }
    intros _. right. intros ->. apply Hnodata.
    unfold numpy.eq_scalar. apply elem_of_where_fmap. exists (cx_nodata cx).
    split; [done|apply Z.eqb_refl].
Qed.

Lemma quality_band_clear_is_observed (cx : blend_context) w order o d i :
  cx_bits cx = false ->
  existsb (Z.eqb (cx_nodata cx)) (cx_clear_values cx) = false ->
  o_band o = o_quality o ->
  read_date cx w order o = Ok d ->
  pixel_present i d ->
  d_bmask d !! i = Some false ->
  d_quality d !! i <> Some (cx_nodata cx).
Proof.
  statement_parameters.
  intros Hbits Hnot Hsame Hd (_ & [q Hq] & _) Hb.
  destruct (read_date_fields cx w order o d Hd) as [Hraster Hquality].
  destruct (read_date_bmask cx w order o d Hd) as (qm & conf & Hbmask).
  rewrite Hbmask in Hb. rewrite Hquality in Hq.
  assert (Hr : read (o_band o) w !! i = Some q) by (by rewrite Hsame).
  destruct (classify_categorical_clear cx _ _ qm conf i q q Hbits Hq Hr Hb) as [Hc|Hne].
  - rewrite Hquality, Hq. intros [= ->]. congruence.
  - rewrite Hquality, Hq. congruence.
Qed.

(** ** blend as a whole *)




(** ** Further properties of the statistics *)

(** X1.  A mask that [parse_mask] returned parses to itself: parsing a
    parsed mask changes nothing. *)
Theorem parse_mask_idempotent (m parsed : mask) :
  parse_mask m = Ok parsed -> parse_mask parsed = Ok parsed.
Proof.
  statement_parameters.
  unfold parse_mask. intros H.
  destruct (mask_clear_data m) as [clear|]; simpl in H; [|discriminate].
  destruct (mask_nodata m) as [nodata|]; [|discriminate].
  injection H as <-. simpl.
  destruct (mask_saturated_band m) as [b|]; [|done].
  destruct (String.eqb b EmptyString) eqn:Hb; [done|]. by rewrite Hb.
Qed.

Lemma parse_mask_without_confidence (m : mask) :
  parse_mask (without_confidence m) = parse_mask m.
Proof. statement_parameters. done. Qed.

(** X2.  With [compute] set, the statistics of a stored raster do not
    depend on the ['confidence'] entry of the mask: [parse_mask] leaves the
    entry out of the mask that [_qa_statistics] goes on with, so [get_qa_mask]
    is called without the confidence of the mask. *)
Theorem compute_data_set_stats_ignores_confidence (data_set : dataset) (m : mask) :
  compute_data_set_stats data_set m true
    = compute_data_set_stats data_set (without_confidence m) true.
Proof.
  statement_parameters.
  unfold compute_data_set_stats, _qa_statistics.
  by rewrite parse_mask_without_confidence.
Qed.

(** The ratios of a raster without pixels: the efficacy divides by zero,
    and nothing before it raises anything else. *)
Lemma statistics_without_pixels (clear_pixels not_clear_pixels : Z)
    (area_is_zero : bool) :
  (let* not_clear_ratio :=
     (if area_is_zero then Ok (Finite 100)
      else let* ratio := percent not_clear_pixels (clear_pixels + not_clear_pixels) in
           Ok (round2 ratio)) in
   let* efficacy := percent clear_pixels 0 in
   Ok (round2 efficacy, not_clear_ratio)) = Err ZeroDivisionError.
Proof.
  statement_parameters.
  rewrite percent_of_nothing. destruct area_is_zero; [done|].
  destruct (percent _ _) as [x|e] eqn:H; [done|].
  by rewrite (percent_Err _ _ _ H).
Qed.

(** X3.  For a mask that parses, the statistics of a raster without
    pixels are not computed: [_qa_statistics] raises [ZeroDivisionError], on
    the mask as given with [compute] set and on the parsed mask without it,
    and so does [compute_data_set_stats] on a stored raster without pixels. *)
Theorem qa_statistics_empty_raster (m parsed : mask) (conf : option confidence)
    (data_set : dataset) :
  parse_mask m = Ok parsed ->
  _qa_statistics [] m true conf = Err ZeroDivisionError /\
  _qa_statistics [] parsed false conf = Err ZeroDivisionError /\
  (concat (ds_blocks data_set) = [] ->
   compute_data_set_stats data_set m true = Err ZeroDivisionError).
Proof.
  statement_parameters.
  intros Hparsed.
  destruct (parse_mask_Ok m parsed Hparsed)
    as (nodata & _ & Hn & Hc & [clear Hclear] & Hnc & _ & Hb & _).
  assert (H : _qa_statistics [] parsed false conf = Err ZeroDivisionError).
  { unfold _qa_statistics. simpl. rewrite Hb, Hn, Hc, Hclear, Hnc. simpl.
    destruct (default false (mask_bits m)); apply statistics_without_pixels. }
  assert (H' : _qa_statistics [] m true conf = Err ZeroDivisionError).
  { unfold _qa_statistics. rewrite Hparsed. simpl. rewrite Hb, Hn, Hc, Hclear, Hnc. simpl.
    destruct (default false (mask_bits m)); apply statistics_without_pixels. }
  split; [done|]. split; [done|].
  intros Hempty. unfold compute_data_set_stats. rewrite Hempty.
  unfold _qa_statistics. rewrite Hparsed. simpl. rewrite Hb, Hn, Hc, Hclear, Hnc. simpl.
  destruct (default false (mask_bits m)); apply statistics_without_pixels.
Qed.

(** X4.  For a categorical mask and a raster of fewer than 2^63 pixels (as
    the size of an array is), the efficacy and the cloud ratio that
    [_qa_statistics] returns are percentages: finite numbers between 0 and
    100. *)
Theorem qa_statistics_categorical_range (raster : list Z) (m parsed : mask) (compute : bool)
    (conf : option confidence) (efficacy cloud_ratio : float) :
  (if compute then parse_mask m else Ok m) = Ok parsed ->
  mask_bits parsed = Some false ->
  Z.of_nat (length raster) < 2 ^ 63 ->
  _qa_statistics raster m compute conf = Ok (efficacy, cloud_ratio) ->
  exists e c,
    efficacy = Finite e /\ cloud_ratio = Finite c /\
    (0 <= e)%Q /\ (e <= 100)%Q /\ (0 <= c)%Q /\ (c <= 100)%Q.
Proof.
  statement_parameters.
  intros Hparsed Hbits Hsize. unfold _qa_statistics. rewrite Hparsed. simpl.
  rewrite Hbits. simpl. intros H. inv_bind H. inv_bind Hx. inv_bind Hx.
  injection Hx as <-. simpl in H. rewrite !take_at_isin in H.
  fold (count_members x0 raster) in H. fold (count_members x1 raster) in H.
  pose proof (count_members_bounds x0 raster) as Hc.
  pose proof (count_members_bounds x1 raster) as Hn.
  assert (Hpow : 2 ^ 64 < 2 ^ 1000) by (by apply Z.pow_lt_mono_r).
  inv_bind H. inv_bind H. injection H as <- <-.
  rename x into ratio, Hx into Hratio, x2 into quotient, Hx2 into Hquotient.
  destruct (Z.eq_dec (Z.of_nat (length raster)) 0) as [Hlen|Hlen].
  { rewrite Hlen, percent_of_nothing in Hquotient. discriminate. }
  destruct (rounded_percentage_counts (count_members x0 raster) (Z.of_nat (length raster)))
    as (x' & Hx' & He); [lia|lia|].
  replace x' with quotient in He by congruence.
  apply rounded_percentage_range in He as (e & He' & He0 & He1); [|lia|lia].
  exists e.
  destruct (count_members x0 raster + count_members x1 raster =? 0) eqn:Harea.
  - injection Hratio as <-. by exists 100%Q.
  - apply Z.eqb_neq in Harea. inv_bind Hratio. injection Hratio as <-.
    destruct (rounded_percentage_counts (count_members x1 raster)
                (count_members x0 raster + count_members x1 raster))
      as (y' & Hy' & Hr); [lia|lia|].
    replace y' with x in Hr by congruence.
    apply rounded_percentage_range in Hr as (c & Hc' & Hc0 & Hc1); [|lia|lia].
    by exists c.
Qed.

(** ** Further properties of merge *)

Lemma index_from_not_in (k : Z) (x : string) (l : list string) :
  x ∉ l -> index_from k x l = Err ValueError.
Proof.
  statement_parameters.
  revert k. induction l as [|y l IH]; intros k Hx; simpl; [done|].
  destruct (String.eqb y x) eqn:Hy.
  - apply String.eqb_eq in Hy as ->. exfalso. apply Hx. apply list_elem_of_here.
  - apply IH. intros Hin. apply Hx. by apply list_elem_of_further.
Qed.

Section MoreMergeFacts.
Import numpy.

Variables (nodata : Z) (datasets platforms : list string) (combined build_provenance : bool).

Let step := merge_asset nodata datasets platforms combined build_provenance.
Let loop := merge_assets nodata datasets platforms combined build_provenance.

(** Outside combined mode an asset is merged by one indexed store at the
    positions that hold data in the asset. *)
Lemma merge_asset_plain buf a buf' :
  is_combined_collection datasets platforms combined = false ->
  step buf a = Ok buf' ->
  raster_merge buf' =
    put_from (raster_merge buf) (asset_raster a) (where_ (ne_scalar (asset_raster a) nodata)).
Proof.
  statement_parameters.
  intros Hcomb H. unfold step, merge_asset in H. rewrite Hcomb in H.
  inv_bind H. inv_bind H. inv_bind H. injection H as <-. simpl.
  by injection Hx0 as <-.
Qed.

Lemma merge_asset_plain_lookup buf a buf' i :
  is_combined_collection datasets platforms combined = false ->
  step buf a = Ok buf' ->
  raster_merge buf' !! i =
    match raster_merge buf !! i, asset_raster a !! i with
    | Some m, Some v => if v =? nodata then Some m else Some v
    | held, _ => held
    end.
Proof.
  statement_parameters.
  intros Hcomb H. rewrite (merge_asset_plain buf a buf' Hcomb H).
  destruct (asset_raster a !! i) as [v|] eqn:Hv.
  - rewrite (lookup_put_from _ _ _ _ v Hv).
    destruct (raster_merge buf !! i) as [m|] eqn:Hm; simpl; [|by case_decide].
    unfold ne_scalar. case_decide as Hin.
    + apply elem_of_where_fmap in Hin as (v' & Hv' & Hne).
      rewrite Hv in Hv'. injection Hv' as <-.
      apply negb_true_iff in Hne. by rewrite Hne.
    + destruct (v =? nodata) eqn:Hvn; [done|].
      exfalso. apply Hin. apply elem_of_where_fmap. exists v. by rewrite Hvn.
  - rewrite lookup_put_from_notin.
    + by destruct (raster_merge buf !! i).
    + unfold ne_scalar. intros (v & Hv' & _)%elem_of_where_fmap. congruence.
Qed.

(** In either mode: what merging one asset does to a pixel of the buffer. *)
Lemma merge_asset_lookup buf a buf' i :
  step buf a = Ok buf' ->
  raster_merge buf' !! i =
    match raster_merge buf !! i, asset_raster a !! i with
    | Some m, Some v =>
        if (negb (is_combined_collection datasets platforms combined) || (m =? nodata))
           && negb (v =? nodata)
        then Some v else Some m
    | held, _ => held
    end.
Proof.
  statement_parameters.
  intros H. destruct (is_combined_collection datasets platforms combined) eqn:Hcomb.
  - by rewrite (merge_asset_combined_lookup nodata datasets platforms combined build_provenance
                  buf a buf' i Hcomb H).
  - rewrite (merge_asset_plain_lookup buf a buf' i Hcomb H).
    destruct (raster_merge buf !! i); [|done]. destruct (asset_raster a !! i) as [v|]; [|done].
    simpl. by destruct (v =? nodata).
Qed.

(** The pixels of the buffer after the loop are pixels of the buffer before
    it or data of some asset. *)
Lemma merge_assets_source assets buf buf' i v :
  loop buf assets = Ok buf' ->
  raster_merge buf' !! i = Some v ->
  raster_merge buf !! i = Some v \/
  (v <> nodata /\ exists a, a ∈ assets /\ asset_raster a !! i = Some v).
Proof.
  statement_parameters.
  revert buf. induction assets as [|a assets IH]; intros buf H Hv.
  - injection H as <-. by left.
  - unfold loop in H. simpl in H. inv_bind H.
    destruct (IH x H Hv) as [Hx'|(Hne & b & Hb & Hbv)].
    + rewrite (merge_asset_lookup buf a x i Hx) in Hx'.
      destruct (raster_merge buf !! i) as [m|] eqn:Hm; [|done].
      destruct (asset_raster a !! i) as [r|] eqn:Hr; [|by left].
      destruct (_ && _) eqn:Hc; [|by left].
      injection Hx' as ->. right. apply andb_true_iff in Hc as [_ Hc].
      apply negb_true_iff, Z.eqb_neq in Hc. split; [done|].
      exists a. split; [apply list_elem_of_here|done].
    + right. split; [done|]. exists b. split; [by apply list_elem_of_further|done].
Qed.

Lemma merge_asset_length buf a buf' :
  step buf a = Ok buf' -> length (raster_merge buf') = length (raster_merge buf).
Proof.
  statement_parameters.
  intros H. destruct (is_combined_collection datasets platforms combined) eqn:Hcomb.
  - rewrite (merge_asset_combined nodata datasets platforms combined build_provenance
               buf a buf' Hcomb H). apply length_put_from.
  - rewrite (merge_asset_plain buf a buf' Hcomb H). apply length_put_from.
Qed.

Lemma merge_assets_length assets buf buf' :
  loop buf assets = Ok buf' -> length (raster_merge buf') = length (raster_merge buf).
Proof.
  statement_parameters.
  revert buf. induction assets as [|a assets IH]; intros buf H.
  - by injection H as <-.
  - unfold loop in H. simpl in H. inv_bind H. rewrite (IH x H).
    by apply merge_asset_length with a.
Qed.

(** A pixel that holds data, or receives an asset with data, holds data after
    the loop. *)
Lemma merge_assets_valid assets buf buf' i m :
  loop buf assets = Ok buf' ->
  raster_merge buf !! i = Some m ->
  (m <> nodata \/ exists a v, a ∈ assets /\ asset_raster a !! i = Some v /\ v <> nodata) ->
  exists m', raster_merge buf' !! i = Some m' /\ m' <> nodata.
Proof.
  statement_parameters.
  revert buf m. induction assets as [|a assets IH]; intros buf m H Hm Hvalid.
  - injection H as <-. destruct Hvalid as [Hne|(a & v & Ha & _)].
    + by exists m.
    + by apply elem_of_nil in Ha.
  - unfold loop in H. simpl in H. inv_bind H.
    pose proof (merge_asset_lookup buf a x i Hx) as Hl. rewrite Hm in Hl.
    destruct (asset_raster a !! i) as [r|] eqn:Hr.
    + destruct (_ && _) eqn:Hc in Hl.
      * apply andb_true_iff in Hc as [_ Hc]. apply negb_true_iff, Z.eqb_neq in Hc.
        apply (IH x r H Hl). by left.
      * apply (IH x m H Hl).
        destruct Hvalid as [Hne|(b & v & Hb & Hv & Hne)]; [by left|].
        apply elem_of_cons in Hb as [->|Hb]; [|right; eauto].
        rewrite Hr in Hv. injection Hv as ->.
        apply andb_false_iff in Hc as [Hc|Hc].
        -- apply orb_false_iff in Hc as [_ Hc]. apply Z.eqb_neq in Hc. by left.
        -- apply negb_false_iff, Z.eqb_eq in Hc. done.
    + apply (IH x m H Hl).
      destruct Hvalid as [Hne|(b & v & Hb & Hv & Hne)]; [by left|].
      apply elem_of_cons in Hb as [->|Hb]; [congruence|right; eauto].
Qed.

(** Outside combined mode a pixel that receives no further data keeps its
    value, and an asset with data at a pixel replaces what the buffer holds. *)
Lemma merge_assets_plain_keeps assets buf buf' i m :
  is_combined_collection datasets platforms combined = false ->
  loop buf assets = Ok buf' ->
  raster_merge buf !! i = Some m ->
  (forall b x, b ∈ assets -> asset_raster b !! i = Some x -> x = nodata) ->
  raster_merge buf' !! i = Some m.
Proof.
  statement_parameters.
  intros Hcomb. revert buf. induction assets as [|a assets IH]; intros buf H Hm Hpost.
  - by injection H as <-.
  - unfold loop in H. simpl in H. inv_bind H. apply (IH x); [done| |].
    + rewrite (merge_asset_plain_lookup buf a x i Hcomb Hx), Hm.
      destruct (asset_raster a !! i) as [y|] eqn:Hy; [|done].
      rewrite (Hpost a y) by (done || apply list_elem_of_here). by rewrite Z.eqb_refl.
    + intros b y Hb. apply Hpost. by apply list_elem_of_further.
Qed.

Lemma merge_assets_is_Some assets buf buf' i :
  loop buf assets = Ok buf' ->
  is_Some (raster_merge buf !! i) -> is_Some (raster_merge buf' !! i).
Proof.
  statement_parameters.
  intros H. rewrite !lookup_lt_is_Some. by rewrite (merge_assets_length assets buf buf' H).
Qed.

(** X6.  Outside combined mode a later asset overwrites an earlier one:
    a pixel of the merge buffer takes the value of the last asset, in
    iteration order, that has data there. *)
Theorem merge_plain_last_asset_wins (pre post : list asset) (a : asset)
    (buf buf' : merge_buffers) (i : nat) (v : Z) :
  is_combined_collection datasets platforms combined = false ->
  merge_assets nodata datasets platforms combined build_provenance buf (pre ++ a :: post)
    = Ok buf' ->
  is_Some (raster_merge buf !! i) ->
  asset_raster a !! i = Some v -> v <> nodata ->
  (forall b x, b ∈ post -> asset_raster b !! i = Some x -> x = nodata) ->
  raster_merge buf' !! i = Some v.
Proof.
  statement_parameters.
  intros Hcomb. revert buf. induction pre as [|b pre IH]; intros buf H Hsome Hv Hne Hpost.
  - simpl in H. inv_bind H.
    apply (merge_assets_plain_keeps post x buf' i v Hcomb H); [|done].
    rewrite (merge_asset_plain_lookup buf a x i Hcomb Hx), Hv.
    destruct Hsome as [m ->]. apply Z.eqb_neq in Hne. by rewrite Hne.
  - simpl in H. inv_bind H. apply (IH x); try done.
    apply (merge_assets_is_Some [b] buf x i); [|done].
    unfold loop. simpl. by rewrite Hx.
Qed.

(** With [build_provenance], merging an asset stores the position of its
    platform at every pixel where the asset has data, and leaves the other
    pixels of the provenance as they are: the data set position written by
    the combined mode is overwritten at once. *)
Lemma merge_asset_provenance buf a buf' :
  build_provenance = true ->
  step buf a = Ok buf' ->
  exists k, index platforms (asset_platform a) = Ok k /\
    forall i, raster_provenance buf' !! i =
      match asset_raster a !! i with
      | Some v => if v =? nodata then raster_provenance buf !! i
                  else (fun _ => k) <$> raster_provenance buf !! i
      | None => raster_provenance buf !! i
      end.
Proof.
  statement_parameters.
  intros Hprov H. unfold step, merge_asset in H. rewrite Hprov in H.
  inv_bind H. inv_bind H. inv_bind H. injection H as <-. simpl.
  inv_bind Hx1. injection Hx1 as <-. exists x2. split; [done|]. intros i.
  assert (Hvalid : i ∈ where_ (invert (eq_scalar (asset_raster a) nodata)) <->
            exists v, asset_raster a !! i = Some v /\ v <> nodata).
  { unfold invert, eq_scalar. rewrite <- list_fmap_compose. rewrite elem_of_where_fmap.
    split; intros (v & Hv & Hne); exists v; (split; [done|]); simpl in *.
    - by apply negb_true_iff, Z.eqb_neq in Hne.
    - by apply negb_true_iff, Z.eqb_neq. }
  assert (Hsnd : i ∉ where_ (invert (eq_scalar (asset_raster a) nodata)) ->
            snd x0 !! i = raster_provenance buf !! i).
  { intros Hnot.
    destruct (is_combined_collection datasets platforms combined); [|by injection Hx0 as <-].
    destruct (0 <? length _)%nat in Hx0; [|by injection Hx0 as <-].
    inv_bind Hx0. injection Hx0 as <-. simpl. rewrite lookup_put_const.
    case_decide as Hin; [|done]. exfalso. apply Hnot, Hvalid.
    apply elem_of_intersect1d in Hin as [_ Hin]. unfold ne_scalar in Hin.
    apply elem_of_where_fmap in Hin as (v & Hv & Hne). exists v. split; [done|].
    by apply negb_true_iff, Z.eqb_neq in Hne. }
  rewrite lookup_put_const. case_decide as Hin.
  - pose proof Hin as (v & Hv & Hne)%Hvalid. rewrite Hv.
    apply Z.eqb_neq in Hne. rewrite Hne.
    assert (Hlen : length (snd x0) = length (raster_provenance buf)).
    { destruct (is_combined_collection datasets platforms combined); [|by injection Hx0 as <-].
      destruct (0 <? length _)%nat in Hx0; [|by injection Hx0 as <-].
      inv_bind Hx0. injection Hx0 as <-. simpl. apply length_put_const. }
    destruct (raster_provenance buf !! i) as [p|] eqn:Hp; simpl.
    + apply lookup_lt_Some in Hp. rewrite <- Hlen in Hp.
      apply lookup_lt_is_Some in Hp as [q ->]. done.
    + apply lookup_ge_None in Hp. rewrite <- Hlen in Hp.
      apply lookup_ge_None in Hp. by rewrite Hp.
  - rewrite (Hsnd Hin). destruct (asset_raster a !! i) as [v|] eqn:Hv; [|done].
    destruct (v =? nodata) eqn:Hvn; [done|]. exfalso. apply Hin, Hvalid.
    exists v. split; [done|]. by apply Z.eqb_neq.
Qed.

Lemma merge_assets_provenance_keeps assets buf buf' i p :
  build_provenance = true ->
  loop buf assets = Ok buf' ->
  raster_provenance buf !! i = Some p ->
  (forall b x, b ∈ assets -> asset_raster b !! i = Some x -> x = nodata) ->
  raster_provenance buf' !! i = Some p.
Proof.
  statement_parameters.
  intros Hprov. revert buf. induction assets as [|a assets IH]; intros buf H Hp Hpost.
  - by injection H as <-.
  - unfold loop in H. simpl in H. inv_bind H. apply (IH x); [done| |].
    + destruct (merge_asset_provenance buf a x Hprov Hx) as (k & _ & Hl). rewrite Hl.
      destruct (asset_raster a !! i) as [y|] eqn:Hy; [|done].
      rewrite (Hpost a y) by (done || apply list_elem_of_here). by rewrite Z.eqb_refl.
    + intros b y Hb. apply Hpost. by apply list_elem_of_further.
Qed.

(** X8.  With [build_provenance], the provenance raster of a merge holds
    at a pixel the position, in [platforms], of the platform of the last
    asset that has data there, in either mode (so in combined mode, where the
    value kept is that of the first such asset, not the position of the asset
    the value comes from). *)
Theorem merge_provenance_names_last_asset (pre post : list asset) (a : asset)
    (buf buf' : merge_buffers) (i : nat) (v : Z) :
  build_provenance = true ->
  merge_assets nodata datasets platforms combined build_provenance buf (pre ++ a :: post)
    = Ok buf' ->
  (i < length (raster_provenance buf))%nat ->
  asset_raster a !! i = Some v -> v <> nodata ->
  (forall b x, b ∈ post -> asset_raster b !! i = Some x -> x = nodata) ->
  exists k, index platforms (asset_platform a) = Ok k /\
            raster_provenance buf' !! i = Some k.
Proof.
  statement_parameters.
  intros Hprov. revert buf. induction pre as [|b pre IH]; intros buf H Hlt Hv Hne Hpost.
  - simpl in H. inv_bind H.
    destruct (merge_asset_provenance buf a x Hprov Hx) as (k & Hk & Hl).
    exists k. split; [done|].
    apply (merge_assets_provenance_keeps post x buf' i k Hprov H); [|done].
    rewrite Hl, Hv. apply Z.eqb_neq in Hne. rewrite Hne.
    apply lookup_lt_is_Some in Hlt as [p ->]. done.
  - simpl in H. inv_bind H. apply (IH x); try done.
    destruct (merge_asset_provenance buf b x Hprov Hx) as (k & Hk & Hl).
    apply lookup_lt_is_Some. rewrite Hl. apply lookup_lt_is_Some in Hlt as [p Hp].
    rewrite Hp. destruct (asset_raster b !! i) as [y|]; [|done].
    by destruct (y =? nodata).
Qed.

Lemma merge_asset_unknown_platform buf a :
  build_provenance = true -> asset_platform a ∉ platforms ->
  exists e, step buf a = Err e.
Proof.
  statement_parameters.
  intros Hprov Hnot. unfold step, merge_asset. rewrite Hprov.
  match goal with |- context [rbind ?m _] => destruct m as [index_oli|e] end;
    simpl; [|eauto].
  match goal with |- context [rbind ?m _] => destruct m as [merged|e] end;
    simpl; [|eauto].
  unfold index. rewrite (index_from_not_in 0 _ _ Hnot). simpl. eauto.
Qed.

Lemma merge_assets_unknown_platform assets buf a :
  build_provenance = true -> a ∈ assets -> asset_platform a ∉ platforms ->
  exists e, loop buf assets = Err e.
Proof.
  statement_parameters.
  intros Hprov Ha Hnot. revert buf.
  induction assets as [|b assets IH]; intros buf; [by apply elem_of_nil in Ha|].
  unfold loop. simpl.
  apply elem_of_cons in Ha as [<-|Ha].
  - destruct (merge_asset_unknown_platform buf a Hprov Hnot) as [e He].
    unfold step in He. rewrite He. simpl. eauto.
  - destruct (merge_asset _ _ _ _ _ buf b) as [buf1|e]; simpl; [|eauto].
    by apply IH.
Qed.

End MoreMergeFacts.

(** X5.  A merge without assets raises [TypeError] (no asset has set the
    template of the output), whatever the band and the mode; for the quality
    band the mask is taken to have its nodata. *)
Theorem merge_without_assets (m : mask) (band : string) (band_nodata : Z)
    (quality_band : option string) (datasets platforms : list string)
    (combined build_provenance compute : bool) (size : nat) :
  (quality_band = Some band -> is_Some (mask_nodata m)) ->
  merge m [] band band_nodata quality_band datasets platforms combined build_provenance
    compute size = Err TypeError.
Proof.
  statement_parameters.
  intros Hnodata. unfold merge.
  destruct (bool_decide (quality_band = Some band)) eqn:Hq; simpl; [|done].
  apply bool_decide_eq_true in Hq. destruct (Hnodata Hq) as [nodata ->]. done.
Qed.

(** X7.  A completed merge has the size of the target grid; every value
    of it other than nodata is the value of some asset at that pixel; and,
    at a pixel where every asset has a value, the merge holds nodata exactly
    when every asset holds nodata there. *)
Theorem merge_pixels_come_from_assets (m : mask) (assets : list asset) (band : string)
    (band_nodata : Z) (quality_band : option string) (datasets platforms : list string)
    (combined build_provenance compute : bool) (size : nat) (r : merge_result) :
  merge m assets band band_nodata quality_band datasets platforms combined build_provenance
    compute size = Ok r ->
  length (merge_raster r) = size /\
  (forall i v, merge_raster r !! i = Some v -> v <> merge_nodata r ->
     exists a, a ∈ assets /\ asset_raster a !! i = Some v) /\
  (forall i, (i < size)%nat ->
     (forall a, a ∈ assets -> is_Some (asset_raster a !! i)) ->
     (merge_raster r !! i = Some (merge_nodata r) <->
      forall a, a ∈ assets -> asset_raster a !! i = Some (merge_nodata r))).
Proof.
  statement_parameters.
  intros H. apply merge_Ok in H as (buf & Hloop & -> & _).
  set (nodata := merge_nodata r) in *.
  pose proof (merge_assets_length _ _ _ _ _ _ _ _ Hloop) as Hlen. simpl in Hlen.
  unfold numpy.full in Hlen. rewrite length_replicate in Hlen.
  assert (Hinit : forall i, (i < size)%nat ->
            numpy.full size nodata !! i = Some nodata).
  { intros i Hi. unfold numpy.full. by apply lookup_replicate_2. }
  split; [done|]. split.
  - intros i v Hv Hne.
    destruct (merge_assets_source _ _ _ _ _ _ _ _ _ _ Hloop Hv) as [Hold|(_ & Hnew)];
      [|done].
    simpl in Hold. unfold numpy.full in Hold. apply lookup_replicate in Hold as [-> _]. done.
  - intros i Hi Hpresent. split.
    + intros Hnodata a Ha. destruct (Hpresent a Ha) as [v Hv].
      destruct (decide (v = nodata)) as [->|Hne]; [done|]. exfalso.
      destruct (merge_assets_valid _ _ _ _ _ _ _ _ i nodata Hloop) as (m' & Hm' & Hne').
      * simpl. by apply Hinit.
      * right. by exists a, v.
      * congruence.
    + intros Hall.
      assert (Hsome : is_Some (raster_merge buf !! i)).
      { apply lookup_lt_is_Some. by rewrite Hlen. }
      destruct Hsome as [v Hv]. rewrite Hv. f_equal.
      destruct (merge_assets_source _ _ _ _ _ _ _ _ _ _ Hloop Hv) as [Hold|(Hne & a & Ha & Hav)].
      * simpl in Hold. rewrite Hinit in Hold by done. by injection Hold.
      * rewrite (Hall a Ha) in Hav. by injection Hav.
Qed.

(** X9.  With [build_provenance], a merge fails as soon as one of its
    assets names a platform that is not in [platforms] (an asset without
    platform has the empty name), whether or not the asset has data. *)
Theorem merge_provenance_requires_known_platform (m : mask) (assets : list asset)
    (band : string) (band_nodata : Z) (quality_band : option string)
    (datasets platforms : list string) (combined compute : bool) (size : nat) (a : asset) :
  a ∈ assets -> asset_platform a ∉ platforms ->
  exists e, merge m assets band band_nodata quality_band datasets platforms combined true
              compute size = Err e.
Proof.
  statement_parameters.
  intros Ha Hnot. unfold merge.
  match goal with |- context [rbind ?m _] => destruct m as [nodata|e] end; simpl; [|eauto].
  destruct (merge_assets_unknown_platform nodata datasets platforms combined true assets
              {| raster_merge := numpy.full size nodata;
                 raster_provenance := numpy.full size DATASOURCE_NODATA;
                 index_landsat_oli := [];
                 platforms_used := [] |} a eq_refl Ha Hnot) as [e He].
  rewrite He. simpl. eauto.
Qed.

(** ** Further properties of post_processing_quality *)

Lemma post_processing_block_length nodata saturated bands w block :
  length (post_processing_block nodata saturated bands w block) = length block.
Proof.
  statement_parameters.
  unfold post_processing_block. destruct (0 <? length _)%nat; [|done].
  by rewrite !length_put_const.
Qed.

Lemma post_processing_block_idempotent nodata saturated bands w block :
  post_processing_block nodata saturated bands w
    (post_processing_block nodata saturated bands w block)
  = post_processing_block nodata saturated bands w block.
Proof.
  statement_parameters.
  set (once := post_processing_block nodata saturated bands w block).
  apply list_eq. intros i.
  destruct (once !! i) as [q'|] eqn:Hq'.
  - assert (Hsome : is_Some (block !! i)).
    { apply lookup_lt_is_Some. rewrite <- (post_processing_block_length nodata saturated bands w).
      by apply lookup_lt_is_Some. }
    destruct Hsome as [q Hq].
    destruct (post_processing_block_lookup nodata saturated bands w block i q Hq)
      as (H1 & H2 & H3).
    destruct (post_processing_block_lookup nodata saturated bands w once i q' Hq')
      as (H1' & H2' & H3').
    fold once in H1, H2, H3.
    destruct (decide (q' = nodata)) as [->|Hne']; [by apply H1'|].
    set (positions := foldl (fun positions b =>
             numpy.union1d positions
               (numpy.where_ (numpy.eq_scalar (read (bf_data b) w) (bf_nodata b)))) [] bands).
    assert (Hpos : i ∈ positions <->
              exists b, b ∈ bands /\ read (bf_data b) w !! i = Some (bf_nodata b)).
    { unfold positions. rewrite elem_of_nodata_positions. split; [|by right].
      intros [H|H]; [by apply elem_of_nil in H|done]. }
    assert (Hq_ne : q <> nodata).
    { intros ->. rewrite H1 in Hq' by done. congruence. }
    destruct (decide (i ∈ positions)) as [Hin|Hin].
    + apply Hpos in Hin. rewrite H2' by done. rewrite H2 in Hq' by done. done.
    + rewrite <- Hpos in H3'. by apply H3'.
  - apply lookup_ge_None. rewrite post_processing_block_length.
    by apply lookup_ge_None.
Qed.

(** X10.  Reconciling a quality raster that has been reconciled with the
    same bands changes nothing. *)
Theorem post_processing_quality_idempotent (quality_file : dataset) (nodata : Z)
    (bands : list band_file) (quality_band : string) (datasets : list (option string)) :
  let once := post_processing_quality quality_file nodata bands quality_band datasets in
  post_processing_quality {| ds_blocks := once; ds_mask := ds_mask quality_file |}
    nodata bands quality_band datasets = once.
Proof.
  statement_parameters.
  simpl. unfold post_processing_quality. simpl.
  apply list_eq. intros w. rewrite !list_lookup_imap.
  destruct (ds_blocks quality_file !! w) as [block|]; simpl; [|done].
  by rewrite post_processing_block_idempotent.
Qed.

(** ** Further properties of the dates of a window *)

Section MoreStackDatesFacts.
Import numpy.

Variable cx : blend_context.

(** A pixel of the stack and its day of year are those the window started
    with, or those of one and the same date. *)
Lemma stack_dates_source st order ds i s p :
  Forall (pixel_present i) ds ->
  stack_raster st !! i = Some s ->
  provenance_array st !! i = Some p ->
  is_Some (notdonemask st !! i) ->
  let st' := stack_dates cx st order ds in
  (stack_raster st' !! i = Some s /\ provenance_array st' !! i = Some p) \/
  exists d r, d ∈ ds /\ d_raster d !! i = Some r /\
    (r <> cx_nodata cx \/ d_bmask d !! i = Some false) /\
    stack_raster st' !! i = Some r /\ provenance_array st' !! i = Some (d_day d).
Proof.
  statement_parameters.
  intros Hp. revert st order s p.
  induction Hp as [|d ds Hd Hp IH]; intros st order s p Hs Hpr [nd Hnd]; simpl; [by left|].
  destruct Hd as ([r Hr] & _ & [b Hb]).
  destruct (stack_date_pixel cx st order d i s p nd r b Hs Hpr Hnd Hr Hb) as [H1 H2].
  pose proof (stack_date_notdone cx st order d i nd b Hnd Hb) as H3.
  simpl in H1, H2.
  destruct (IH (stack_date cx st order d) (S order) _ _ H1 H2 (mk_is_Some _ _ H3))
    as [[Hs' Hp']|(d' & r' & Hd' & Hr' & Hw' & Hs' & Hp')].
  - destruct ((nd && negb b) || ((s =? cx_nodata cx) && negb (r =? cx_nodata cx))) eqn:Hw.
    + right. exists d, r. split; [apply list_elem_of_here|]. split; [done|].
      split; [|done].
      apply orb_true_iff in Hw as [Hw|Hw].
      * apply andb_true_iff in Hw as [_ Hw]. apply negb_true_iff in Hw. subst b. by right.
      * apply andb_true_iff in Hw as [_ Hw]. apply negb_true_iff, Z.eqb_neq in Hw. by left.
    + by left.
  - right. exists d', r'. split; [by apply list_elem_of_further|done].
Qed.

(** While the pixel is masked and without data, nothing is stored. *)
Lemma stack_dates_unfilled st order ds i p :
  Forall (pixel_present i) ds ->
  Forall (fun d => d_bmask d !! i = Some true) ds ->
  Forall (fun d => d_raster d !! i = Some (cx_nodata cx)) ds ->
  stack_raster st !! i = Some (cx_nodata cx) ->
  provenance_array st !! i = Some p ->
  notdonemask st !! i = Some true ->
  let st' := stack_dates cx st order ds in
  stack_raster st' !! i = Some (cx_nodata cx) /\
  provenance_array st' !! i = Some p /\
  notdonemask st' !! i = Some true.
Proof.
  statement_parameters.
  intros Hp. revert st order.
  induction Hp as [|d ds _ Hp IH]; intros st order Hmasked Hnodata Hs Hpr Hnd; simpl; [done|].
  inversion Hmasked as [|? ? Hb Hmasked']; subst.
  inversion Hnodata as [|? ? Hr Hnodata']; subst.
  destruct (stack_date_pixel cx st order d i _ p true _ true Hs Hpr Hnd Hr Hb) as [H1 H2].
  pose proof (stack_date_notdone cx st order d i true true Hnd Hb) as H3.
  simpl in H1, H2, H3. rewrite Z.eqb_refl in H1, H2. simpl in H1, H2.
  by apply IH.
Qed.

(** A pixel that holds data is left as it is by the dates on which it is
    masked. *)
Lemma stack_dates_masked_keeps st order ds i r p :
  Forall (pixel_present i) ds ->
  Forall (fun d => d_bmask d !! i = Some true) ds ->
  r <> cx_nodata cx ->
  stack_raster st !! i = Some r ->
  provenance_array st !! i = Some p ->
  is_Some (notdonemask st !! i) ->
  let st' := stack_dates cx st order ds in
  stack_raster st' !! i = Some r /\ provenance_array st' !! i = Some p.
Proof.
  statement_parameters.
  intros Hp. revert st order.
  induction Hp as [|d ds Hd Hp IH]; intros st order Hmasked Hne Hs Hpr [nd Hnd];
    simpl; [done|].
  destruct Hd as ([x Hx] & _ & _).
  inversion Hmasked as [|? ? Hb Hmasked']; subst.
  destruct (stack_date_pixel cx st order d i r p nd x true Hs Hpr Hnd Hx Hb) as [H1 H2].
  pose proof (stack_date_notdone cx st order d i nd true Hnd Hb) as H3.
  simpl in H1, H2. apply Z.eqb_neq in Hne. rewrite Hne in H1, H2.
  rewrite andb_false_r in H1, H2. simpl in H1, H2.
  apply IH; try done. by apply Z.eqb_neq.
Qed.

End MoreStackDatesFacts.

(** ** Further properties of the median *)

Section MoreMedianFacts.

Lemma insert_sorted_sorted x l :
  StronglySorted Z.le l -> StronglySorted Z.le (insert_sorted x l).
Proof.
  statement_parameters.
  induction 1 as [|y l Hl IH Hy]; simpl; [repeat constructor|].
  destruct (x <=? y) eqn:Hxy.
  - apply Z.leb_le in Hxy. constructor; [by constructor|].
    constructor; [done|]. eapply Forall_impl; [exact Hy|]. simpl. intros. lia.
  - apply Z.leb_gt in Hxy. constructor; [done|].
    rewrite insert_sorted_Permutation. constructor; [lia|done].
Qed.

Lemma sort_values_sorted l : StronglySorted Z.le (sort_values l).
Proof.
  statement_parameters.
  induction l as [|x l IH]; simpl; [constructor|]. by apply insert_sorted_sorted.
Qed.

Lemma quot_mean_between (low high : Z) :
  low <= high -> low <= Z.quot (low + high) 2 <= high.
Proof.
  statement_parameters.
  intros H. Z.to_euclidean_division_equations. lia.
Qed.

(** The median of the values of a pixel lies between two of them. *)
Lemma median_of_between (values : list Z) :
  values <> [] ->
  exists lo hi, lo ∈ values /\ hi ∈ values /\ lo <= median_of values <= hi.
Proof.
  statement_parameters.
  intros Hne. unfold median_of.
  pose proof (sort_values_Permutation values) as Hperm.
  pose proof (sort_values_sorted values) as Hsorted.
  assert (Hlen : length (sort_values values) = length values) by (by rewrite Hperm).
  assert (Hpos : (0 < length values)%nat) by (destruct values; [done|simpl; lia]).
  assert (Hh : (length values / 2 < length values)%nat) by (apply Nat.div_lt; lia).
  destruct (lookup_lt_is_Some_2 (sort_values values) (length values / 2)) as [high Hhigh];
    [lia|].
  assert (Hhigh_in : high ∈ values).
  { rewrite <- Hperm. by eapply list_elem_of_lookup_2. }
  destruct (Nat.odd (length values)) eqn:Hodd.
  - rewrite Hhigh. simpl. exists high, high. split; [done|]. split; [done|].
    replace (high + high) with (high * 2) by lia. rewrite Z.quot_mul by done. lia.
  - assert (Hge : (1 <= length values / 2)%nat).
    { destruct (length values) as [|[|n]] eqn:Hn; [lia|done|].
      change (S (S n)) with (2 + n)%nat. apply Nat.div_le_lower_bound; lia. }
    destruct (lookup_lt_is_Some_2 (sort_values values) (length values / 2 - 1)) as [low Hlow];
      [lia|].
    rewrite Hhigh, Hlow. simpl.
    assert (Hle : low <= high).
    { apply (StronglySorted_lookup Z.le (sort_values values)
               (length values / 2 - 1) (length values / 2) low high); [done|lia|done|done]. }
    exists low, high. split; [|split; [done|by apply quot_mean_between]].
    rewrite <- Hperm. by eapply list_elem_of_lookup_2.
Qed.

End MoreMedianFacts.

(** ** Further properties of a window *)

(** X11.  In a window, the stack composite and the day-of-year provenance
    of a pixel come from one and the same date: either nothing was stored (the
    pixel holds nodata and the day -1), or there is a date whose band value
    the pixel holds and whose day of year the provenance holds, a date on
    which the pixel has data or is classified clear. *)
Theorem composite_value_and_day_from_one_date (cx : blend_context) (numscenes w size : nat)
    (out : block_output) (ds : list date_read) (i : nat) :
  blend_block cx numscenes w size = Ok out ->
  read_dates cx w 0 (cx_files cx) = Ok ds ->
  (i < size)%nat ->
  Forall (pixel_present i) ds ->
  (stack_raster (block_final out) !! i = Some (cx_nodata cx) /\
   provenance_array (block_final out) !! i = Some (-1)) \/
  exists d r, d ∈ ds /\ d_raster d !! i = Some r /\
    (r <> cx_nodata cx \/ d_bmask d !! i = Some false) /\
    stack_raster (block_final out) !! i = Some r /\
    provenance_array (block_final out) !! i = Some (d_day d).
Proof.
  statement_parameters.
  intros Hblock Hds Hi Hp.
  apply blend_block_Ok in Hblock as (ds' & Hds' & Hfinal & _ & _).
  rewrite Hds in Hds'. injection Hds' as <-.
  destruct (initial_buffers_lookup cx numscenes size i Hi) as (Hs0 & Hp0 & Hnd0 & _).
  rewrite Hfinal.
  apply stack_dates_source; [done|done|done|by rewrite Hnd0].
Qed.

(** X12.  After a window is processed, the total observation of a pixel
    is the number of dates whose quality value differs from nodata, on the 8
    bits of the counter, and its clear observation count is the number of
    dates on which it is classified clear; neither number exceeds the number
    of dates. *)
Theorem observation_counts_of_a_window (cx : blend_context) (numscenes w size : nat)
    (out : block_output) (ds : list date_read) (i : nat) :
  blend_block cx numscenes w size = Ok out ->
  read_dates cx w 0 (cx_files cx) = Ok ds ->
  numscenes = length (cx_files cx) ->
  (i < size)%nat ->
  Forall (pixel_present i) ds ->
  stack_total_observation (block_final out) !! i
    = Some (Z.of_nat (observed_dates (cx_nodata cx) i ds) mod 256) /\
  (forall count_raster, block_count_raster out = Some count_raster ->
     count_raster !! i = Some (Z.of_nat (clear_dates i ds))) /\
  (clear_dates i ds <= numscenes)%nat /\
  (observed_dates (cx_nodata cx) i ds <= numscenes)%nat.
Proof.
  statement_parameters.
  intros Hblock Hds Hnum Hi Hp.
  apply blend_block_Ok in Hblock as (ds' & Hds' & Hfinal & _ & Hc).
  rewrite Hds in Hds'. injection Hds' as <-.
  pose proof (read_dates_length cx w 0 _ ds Hds) as Hlends.
  destruct (initial_buffers_lookup cx numscenes size i Hi) as (_ & _ & _ & Ht0).
  split; [|split; [|split]].
  - rewrite Hfinal. rewrite (stack_dates_total cx _ 0 ds i 0 Hp Ht0) by lia.
    by rewrite Z.add_0_l.
  - intros count Hcount. rewrite Hcount in Hc.
    destruct (cx_build_clear_observation cx); [|discriminate]. injection Hc as ->.
    rewrite Hfinal, initial_stackMA_final by congruence.
    by rewrite lookup_ma_count, unmasked_at_rows_length.
  - rewrite Hnum, <- Hlends. apply length_filter.
  - rewrite Hnum, <- Hlends. apply length_filter.
Qed.

Lemma clear_dates_pos (i : nat) (ds : list date_read) :
  (0 < clear_dates i ds)%nat <-> exists d, d ∈ ds /\ d_bmask d !! i = Some false.
Proof.
  statement_parameters.
  unfold clear_dates. induction ds as [|d ds IH].
  - split; [simpl; lia|]. intros (d & Hd & _). by apply elem_of_nil in Hd.
  - rewrite filter_cons. destruct (decide (d_bmask d !! i = Some false)) as [Hb|Hb].
    + split; [|simpl; lia]. intros _. exists d. split; [apply list_elem_of_here|done].
    + rewrite IH. split.
      * intros (d' & Hd' & Hb'). exists d'. split; [by apply list_elem_of_further|done].
      * intros (d' & Hd' & Hb'). apply elem_of_cons in Hd' as [->|Hd']; [done|eauto].
Qed.

(** X13.  In a window, the median composite of a pixel that is classified
    clear on some date lies between two of the values the pixel has, in the
    16-bit date stack, on the dates on which it is clear. *)
Theorem median_between_clear_values (cx : blend_context) (numscenes w size : nat)
    (out : block_output) (ds : list date_read) (i : nat) (median : list Z) :
  blend_block cx numscenes w size = Ok out ->
  read_dates cx w 0 (cx_files cx) = Ok ds ->
  numscenes = length (cx_files cx) ->
  (i < size)%nat ->
  Forall (pixel_present i) ds ->
  block_median out = Some median ->
  (0 < clear_dates i ds)%nat ->
  exists m dlo rlo dhi rhi,
    median !! i = Some m /\
    dlo ∈ ds /\ d_bmask dlo !! i = Some false /\ d_raster dlo !! i = Some rlo /\
    dhi ∈ ds /\ d_bmask dhi !! i = Some false /\ d_raster dhi !! i = Some rhi /\
    astype_int16 rlo <= m <= astype_int16 rhi.
Proof.
  statement_parameters.
  intros Hblock Hds Hnum Hi Hp Hmedian Hclear.
  apply blend_block_Ok in Hblock as (ds' & Hds' & Hfinal & Hmed & _).
  rewrite Hds in Hds'. injection Hds' as <-.
  pose proof (read_dates_length cx w 0 _ ds Hds) as Hlends.
  destruct (initial_buffers_lookup cx numscenes size i Hi) as (_ & _ & Hnd0 & _).
  rewrite Hmedian in Hmed. destruct (cx_median cx); [|discriminate]. injection Hmed as ->.
  rewrite Hfinal, initial_stackMA_final by congruence.
  destruct (stack_dates_notdone cx (initial_buffers cx numscenes size) 0 ds i true Hp Hnd0)
    as (nd' & Hnd' & Hiff).
  assert (Hdone : nd' = false).
  { destruct nd'; [|done]. exfalso.
    destruct (proj1 Hiff eq_refl) as [_ Hall].
    apply clear_dates_pos in Hclear as (d & Hd & Hb).
    rewrite Forall_forall in Hall. specialize (Hall d Hd). congruence. }
  subst nd'.
  assert (Hne : unmasked_at (date_row <$> ds) i <> []).
  { intros Hnil. pose proof (unmasked_at_rows_length ds i Hp) as Hl.
    rewrite Hnil in Hl. simpl in Hl. lia. }
  destruct (median_of_between _ Hne) as (lo & hi & Hlo & Hhi & Hbetween).
  apply unmasked_at_rows_elem in Hlo as (dlo & rlo & Hdlo & Hblo & Hrlo & ->).
  apply unmasked_at_rows_elem in Hhi as (dhi & rhi & Hdhi & Hbhi & Hrhi & ->).
  exists (median_of (unmasked_at (date_row <$> ds) i)), dlo, rlo, dhi, rhi.
  split; [|done].
  rewrite lookup_put_const, lookup_ma_median by done.
  rewrite decide_False; [done|].
  rewrite elem_of_where. congruence.
Qed.

(** X14.  In a window, a pixel that is masked on every date holds nodata
    in the median composite and 0 in the clear observation count, whatever
    its band values. *)
Theorem never_clear_pixel_has_no_median (cx : blend_context) (numscenes w size : nat)
    (out : block_output) (ds : list date_read) (i : nat) :
  blend_block cx numscenes w size = Ok out ->
  read_dates cx w 0 (cx_files cx) = Ok ds ->
  numscenes = length (cx_files cx) ->
  (i < size)%nat ->
  Forall (pixel_present i) ds ->
  Forall (fun d => d_bmask d !! i = Some true) ds ->
  (forall median, block_median out = Some median -> median !! i = Some (cx_nodata cx)) /\
  (forall count_raster, block_count_raster out = Some count_raster ->
     count_raster !! i = Some 0).
Proof.
  statement_parameters.
  intros Hblock Hds Hnum Hi Hp Hmasked.
  apply blend_block_Ok in Hblock as (ds' & Hds' & Hfinal & Hmed & Hc).
  rewrite Hds in Hds'. injection Hds' as <-.
  pose proof (read_dates_length cx w 0 _ ds Hds) as Hlends.
  destruct (initial_buffers_lookup cx numscenes size i Hi) as (_ & _ & Hnd0 & _).
  split.
  - intros median Hmedian. rewrite Hmedian in Hmed.
    destruct (cx_median cx); [|discriminate]. injection Hmed as ->.
    destruct (stack_dates_notdone cx (initial_buffers cx numscenes size) 0 ds i true Hp Hnd0)
      as (nd' & Hnd' & Hiff).
    rewrite lookup_put_const, lookup_ma_median by done.
    rewrite decide_True; [done|].
    rewrite elem_of_where, Hfinal, Hnd'. f_equal. by apply Hiff.
  - intros count Hcount. rewrite Hcount in Hc.
    destruct (cx_build_clear_observation cx); [|discriminate]. injection Hc as ->.
    rewrite Hfinal, initial_stackMA_final by congruence.
    rewrite lookup_ma_count, unmasked_at_rows_length by done. do 2 f_equal.
    destruct (clear_dates i ds) eqn:Hn; [done|]. exfalso.
    assert (Hpos : (0 < clear_dates i ds)%nat) by lia.
    apply clear_dates_pos in Hpos as (d & Hd & Hb).
    rewrite Forall_forall in Hmasked. specialize (Hmasked d Hd). congruence.
Qed.

(** X15.  In a window, a pixel that is classified clear on no date takes,
    in the stack composite, the value and the day of year of the first date,
    in ranking order, on which it has data. *)
Theorem cloudy_pixel_takes_first_data (cx : blend_context) (numscenes w size : nat)
    (out : block_output) (pre post : list date_read) (dA : date_read) (i : nat) (r : Z) :
  blend_block cx numscenes w size = Ok out ->
  read_dates cx w 0 (cx_files cx) = Ok (pre ++ dA :: post) ->
  (i < size)%nat ->
  Forall (pixel_present i) (pre ++ dA :: post) ->
  Forall (fun d => d_bmask d !! i = Some true) (pre ++ dA :: post) ->
  Forall (fun d => d_raster d !! i = Some (cx_nodata cx)) pre ->
  d_raster dA !! i = Some r ->
  r <> cx_nodata cx ->
  stack_raster (block_final out) !! i = Some r /\
  provenance_array (block_final out) !! i = Some (d_day dA).
Proof.
  statement_parameters.
  intros Hblock Hds Hi Hp Hmasked Hpre HrA Hne.
  apply blend_block_Ok in Hblock as (ds' & Hds' & Hfinal & _ & _).
  rewrite Hds in Hds'. injection Hds' as <-.
  apply Forall_app in Hp as [Hp_pre Hp_rest].
  inversion Hp_rest as [|? ? HpA Hp_post]; subst.
  apply Forall_app in Hmasked as [Hm_pre Hm_rest].
  inversion Hm_rest as [|? ? HbA Hm_post]; subst.
  destruct (initial_buffers_lookup cx numscenes size i Hi) as (Hs0 & Hp0 & Hnd0 & _).
  rewrite Hfinal, stack_dates_app. simpl.
  destruct (stack_dates_unfilled cx (initial_buffers cx numscenes size) 0 pre i (-1)
              Hp_pre Hm_pre Hpre Hs0 Hp0 Hnd0) as (Hs1 & Hp1 & Hnd1).
  set (st1 := stack_dates cx _ 0 pre) in *.
  destruct (stack_date_pixel cx st1 (0 + length pre) dA i _ _ true r true
              Hs1 Hp1 Hnd1 HrA HbA) as [H1 H2].
  simpl in H1, H2. rewrite Z.eqb_refl in H1, H2.
  pose proof Hne as Hne'. apply Z.eqb_neq in Hne'. rewrite Hne' in H1, H2. simpl in H1, H2.
  pose proof (stack_date_notdone cx st1 (0 + length pre) dA i true true Hnd1 HbA) as H3.
  apply stack_dates_masked_keeps; done || (by rewrite H3).
Qed.

(** ** Further properties of blend as a whole *)

Lemma mapM_ext {A B} (f g : A -> result B) (l : list A) :
  (forall x, f x = g x) -> mapM f l = mapM g l.
Proof.
  statement_parameters.
  intros Hfg. induction l as [|x l IH]; simpl; [done|]. by rewrite Hfg, IH.
Qed.

Lemma blend_dates_valid_range (cx : blend_context) (apply_valid_range : bool)
    (min_value max_value : Z) (w : nat) (st : block_buffers) (order : nat)
    (files : list opened) :
  blend_dates (with_valid_range cx apply_valid_range min_value max_value) w st order files
    = blend_dates cx w st order files.
Proof.
  statement_parameters.
  revert st order. induction files as [|o files IH]; intros st order; simpl; [done|].
  replace (blend_date (with_valid_range cx apply_valid_range min_value max_value) w st order o)
    with (blend_date cx w st order o) by reflexivity.
  destruct (blend_date cx w st order o); simpl; [apply IH|done].
Qed.

Lemma blend_block_valid_range (cx : blend_context) (apply_valid_range : bool)
    (min_value max_value : Z) (numscenes w size : nat) :
  blend_block (with_valid_range cx apply_valid_range min_value max_value) numscenes w size
    = blend_block cx numscenes w size.
Proof.
  statement_parameters.
  unfold blend_block.
  replace (initial_buffers (with_valid_range cx apply_valid_range min_value max_value)
             numscenes size)
    with (initial_buffers cx numscenes size) by reflexivity.
  simpl. by rewrite blend_dates_valid_range.
Qed.

(** X16.  [apply_valid_range] and the valid range of the band have no
    effect on what [blend] computes: the masks they set are those of copies
    that indexing with positions returns. *)
Theorem blend_ignores_valid_range (fs : gmap string dataset) (act : activity)
    (band_nodata min_value max_value min_value' max_value' : Z) (quality_band : string)
    (build_clear_observation combined apply_valid_range apply_valid_range' : bool) :
  blend fs act band_nodata min_value max_value quality_band build_clear_observation combined
    apply_valid_range
  = blend fs act band_nodata min_value' max_value' quality_band build_clear_observation
      combined apply_valid_range'.
Proof.
  statement_parameters.
  unfold blend.
  repeat match goal with
         | |- rbind ?m _ = rbind ?m _ => destruct m; simpl; [|reflexivity]
         end.
  match goal with
  | |- rbind ?blocks _ = rbind ?blocks' _ => replace blocks with blocks'; [reflexivity|]
  end.
  apply mapM_ext. intros tile. symmetry.
  match goal with
  | |- blend_block ?cx1 _ _ _ = blend_block ?cx2 _ _ _ =>
      change cx1 with (with_valid_range cx2 apply_valid_range min_value max_value)
  end.
  apply blend_block_valid_range.
Qed.

(** X17.  A blend of an activity without scenes raises [IndexError]: there
    is no first scene to take the profile from. *)
Theorem blend_without_scenes (fs : gmap string dataset) (act : activity)
    (band_nodata min_value max_value : Z) (quality_band : string)
    (build_clear_observation combined apply_valid_range : bool) :
  act_scenes act = [] ->
  (act_band act = quality_band -> is_Some (mask_nodata (act_mask act))) ->
  blend fs act band_nodata min_value max_value quality_band build_clear_observation combined
    apply_valid_range = Err IndexError.
Proof.
  statement_parameters.
  intros Hscenes Hnodata. unfold blend. rewrite Hscenes.
  destruct (String.eqb (act_band act) quality_band) eqn:Hq; [|done].
  apply String.eqb_eq in Hq. destruct (Hnodata Hq) as [nodata ->]. done.
Qed.

(** The mask [open_scenes] hands on is the parsed mask of the activity. *)
Lemma open_scenes_mask fs act quality_band mask_values ranked files parsed :
  open_scenes fs act quality_band mask_values ranked = Ok (files, Some parsed) ->
  mask_values = Some parsed \/
  (mask_values = None /\ parse_mask (act_mask act) = Ok parsed).
Proof.
  statement_parameters.
  revert mask_values files.
  induction ranked as [|m ranked IH]; intros mv files H; simpl in H.
  - injection H as _ ->. by left.
  - do 8 inv_bind H. injection H as _ Hsnd.
    destruct x6 as [files' mv']. simpl in Hsnd. subst mv'.
    destruct (IH _ _ Hx6) as [[= ->]|[[=] _]].
    destruct mv as [p|]; [left; by injection Hx2 as ->|right; by split].
Qed.

(** X24.  The efficacy and the cloud ratio that a completed [blend] stores are
    the statistics, under the parsed mask of the activity, of the stack
    composite of the band at hand: of the values of that band, whatever the
    band (quality band or not) and whatever the composite function. *)
Theorem blend_statistics_of_the_stack (fs : gmap string dataset) (act : activity)
    (band_nodata min_value max_value : Z) (quality_band : string)
    (build_clear_observation combined apply_valid_range : bool) (r : blend_result) :
  blend fs act band_nodata min_value max_value quality_band build_clear_observation combined
    apply_valid_range = Ok r ->
  exists parsed,
    parse_mask (act_mask act) = Ok parsed /\
    _qa_statistics (concat (blend_stack_raster r)) parsed false None
      = Ok (blend_efficacy r, blend_cloudratio r).
Proof.
  statement_parameters.
  unfold blend. intros H. do 16 inv_bind H. injection H as <-. simpl.
  destruct x5 as [files mask_values]. simpl in *.
  destruct mask_values as [parsed|]; [|discriminate]. injection Hx6 as <-.
  exists parsed. split.
  - by destruct (open_scenes_mask _ _ _ _ _ _ _ Hx5) as [[=]|[_ ?]].
  - rewrite Hx14. by destruct x14.
Qed.

Lemma decide_as_bool (P : Prop) `{Decision P} (b : bool) {A} (x y : A) :
  (P <-> b = true) -> (if decide P then x else y) = (if b then x else y).
Proof.
  statement_parameters.
  intros HP. destruct (decide P) as [Hyes|Hno], b; try done.
  - apply HP in Hyes. discriminate.
  - exfalso. by apply Hno, HP.
Qed.

(** X25.  The categorical classification of a pixel for one date, as the
    four masked stores of [blend] leave it: a quality value listed as clear
    is clear, whatever else holds; otherwise the pixel is masked when its
    quality value is listed as saturated or as not clear, or when its band
    value is nodata; otherwise it keeps the mask the quality read came with. *)
Theorem categorical_classification_of_a_pixel (cx : blend_context) (raster quality : list Z)
    (quality_mask : list bool) (conf : option confidence) (i : nat) (q r : Z) (m : bool) :
  cx_bits cx = false ->
  quality !! i = Some q ->
  raster !! i = Some r ->
  quality_mask !! i = Some m ->
  classify cx raster quality quality_mask conf !! i
    = Some (if existsb (Z.eqb q) (cx_clear_values cx) then false
            else if existsb (Z.eqb q) (cx_saturated_values cx)
                    || (r =? cx_nodata cx)
                    || existsb (Z.eqb q) (cx_not_clear_values cx) then true
            else m).
Proof.
  statement_parameters.
  intros Hbits Hq Hr Hm. unfold classify. rewrite Hbits.
  assert (Hisin : forall values,
            i ∈ numpy.where_ (numpy.isin quality values) <-> existsb (Z.eqb q) values = true).
  { intros values. unfold numpy.isin. rewrite elem_of_where_fmap. split.
    - intros (x & Hx & Hv). congruence.
    - intros Hv. by exists q. }
  assert (Hnodata : i ∈ numpy.where_ (numpy.eq_scalar raster (cx_nodata cx))
                    <-> (r =? cx_nodata cx) = true).
  { unfold numpy.eq_scalar. rewrite elem_of_where_fmap. split.
    - intros (x & Hx & Hv). congruence.
    - intros Hv. by exists r. }
  rewrite !lookup_put_const, Hm.
  rewrite (decide_as_bool _ (existsb (Z.eqb q) (cx_clear_values cx))) by apply Hisin.
  rewrite (decide_as_bool _ (existsb (Z.eqb q) (cx_saturated_values cx))) by apply Hisin.
  rewrite (decide_as_bool _ (r =? cx_nodata cx)) by apply Hnodata.
  rewrite (decide_as_bool _ (existsb (Z.eqb q) (cx_not_clear_values cx))) by apply Hisin.
  destruct (existsb (Z.eqb q) (cx_clear_values cx)),
           (existsb (Z.eqb q) (cx_saturated_values cx)),
           (r =? cx_nodata cx),
           (existsb (Z.eqb q) (cx_not_clear_values cx)); reflexivity.
Qed.

(** X26.  What one date does to a pixel of a window.  The stack takes the
    band value of the date, and the provenance its day of year, exactly when
    the pixel is classified clear on the date and was clear on no earlier
    date, or when the stack holds nodata there and the date has data; the
    pixel counts as done from the first date on which it is clear. *)
Theorem blend_date_pixel (cx : blend_context) (w order : nat) (st st' : block_buffers)
    (o : opened) (d : date_read) (i : nat) (s p r : Z) (nd b : bool) :
  blend_date cx w st order o = Ok st' ->
  read_date cx w order o = Ok d ->
  stack_raster st !! i = Some s ->
  provenance_array st !! i = Some p ->
  notdonemask st !! i = Some nd ->
  d_raster d !! i = Some r ->
  d_bmask d !! i = Some b ->
  let written := (nd && negb b) || ((s =? cx_nodata cx) && negb (r =? cx_nodata cx)) in
  stack_raster st' !! i = Some (if written then r else s) /\
  provenance_array st' !! i = Some (if written then d_day d else p) /\
  notdonemask st' !! i = Some (nd && b).
Proof.
  statement_parameters.
  unfold blend_date. intros H Hd Hs Hp Hnd Hr Hb. rewrite Hd in H. injection H as <-.
  destruct (stack_date_pixel cx st order d i s p nd r b Hs Hp Hnd Hr Hb) as [H1 H2].
  split; [done|]. split; [done|]. by apply stack_date_notdone.
Qed.

End Processing.

(** ** The statements at concrete inputs *)

(** The Fmask specification without its nodata entry does not parse. *)
Lemma parse_mask_requires_nodata_witness :
  exists e, parse_mask fmask_without_nodata = Err e /\
            (is_Some (mask_clear_data fmask_without_nodata) -> e = expected_nodata).
Proof.
  apply (proj1 (parse_mask_requires_nodata fmask_without_nodata)). reflexivity.
Defined.

(** Three clear and six not-clear pixels out of 4000.  The efficacy is the
    double [0.07]: [100. * 3 / 4000] is the double just below 0.075, which
    rounds down.  The cloud ratio is the double [66.67]. *)
Lemma qa_statistics_categorical_witness :
  _qa_statistics example_get_qa_mask sparse_quality fmask true None
    = Ok (Finite (1261007895663739 # 18014398509481984),
          Finite (4691484174324859 # 70368744177664)) /\
  rounded_percentage 3 4000 (Finite (1261007895663739 # 18014398509481984)) /\
  rounded_percentage 6 9 (Finite (4691484174324859 # 70368744177664)).
Proof.
  destruct (qa_statistics_categorical example_get_qa_mask sparse_quality fmask fmask_parsed
              true None [0; 1] [2; 3; 4])
    as (efficacy & cloud_ratio & Hrun & Hefficacy & Hratio).
  - discriminate.
  - vm_compute. reflexivity.
  - reflexivity.
  - reflexivity.
  - reflexivity.
  - reflexivity.
  - vm_compute in Hrun. injection Hrun as <- <-.
    split; [vm_compute; reflexivity|]. split; [exact Hefficacy|exact Hratio].
Defined.

(** Two data sets: the first asset fills pixel 0, and the second one does
    not replace it. *)
Lemma merge_combined_never_overwrites_witness :
  is_combined_collection ["LC8"; "S2"] [] false = true /\
  exists buf,
    merge_assets example_platform_is_oli (-9999) ["LC8"; "S2"] [] false false
      {| raster_merge := [-9999; -9999]; raster_provenance := [255; 255];
         index_landsat_oli := []; platforms_used := [] |} example_assets = Ok buf /\
    raster_merge buf !! 0%nat = Some 5.
Proof.
  split; [reflexivity|].
  eexists. split; [vm_compute; reflexivity|].
  pose proof (merge_combined_never_overwrites example_platform_is_oli (-9999) ["LC8"; "S2"] []
                false false eq_refl) as (_ & _ & Hfirst).
  refine (Hfirst [] {| asset_dataset := "LC8"; asset_platform := EmptyString; asset_raster := [5; -9999] |}
            [{| asset_dataset := "S2"; asset_platform := EmptyString; asset_raster := [6; 9] |}]
            {| raster_merge := [-9999; -9999]; raster_provenance := [255; 255];
               index_landsat_oli := []; platforms_used := [] |}
            _ 0%nat 5 _ _ _ _ _).
  - vm_compute. reflexivity.
  - reflexivity.
  - intros b x Hb. inversion Hb.
  - reflexivity.
  - discriminate.
Defined.

(** A spectral band merged from two assets: efficacy 0 and cloud ratio 100. *)
Lemma merge_statistics_only_for_quality_band_witness :
  exists r,
    merge example_get_qa_mask example_platform_is_oli 255 fmask example_assets "nir" (-9999)
      (Some "quality") ["LC8"] [] false false false 2 = Ok r /\
    merge_efficacy r = Finite 0 /\ merge_cloudratio r = Finite 100.
Proof.
  pose proof (merge_statistics_only_for_quality_band example_get_qa_mask
                example_platform_is_oli 255 fmask example_assets "nir" (-9999)
                (Some "quality") ["LC8"] [] false false false 2) as [Hother _].
  destruct Hother as [Hstats Hruns]; [discriminate|].
  destruct Hruns as [r Hr]; [discriminate|reflexivity|reflexivity|].
  exists r. split; [exact Hr|]. exact (Hstats r Hr).
Defined.

(** The example of the documentation of [post_processing_quality], for a
    Sentinel-2 data set and with the derived band [NDVI] beside the band
    [nir]: pixel 0, nodata in [nir], takes the value 1; pixel 1, nodata in
    [NDVI] only, keeps its quality value 2. *)
Lemma post_processing_quality_pixel_witness :
  exists block',
    post_processing_quality "DATASOURCE" "TOTALOB" "CLEAROB" "PROVENANCE"
      example_quality_file 255 example_bands "quality" [Some "S2_L2A"] !! 0%nat = Some block' /\
    block' !! 0%nat = Some 1 /\
    block' !! 1%nat = Some 2.
Proof.
  destruct (post_processing_quality_pixel "DATASOURCE" "TOTALOB" "CLEAROB" "PROVENANCE"
              example_quality_file 255 example_bands "quality" [Some "S2_L2A"]
              0%nat 0%nat [0; 2; 255] 0 eq_refl eq_refl)
    as (block' & Hblock & _ & _ & Hsaturated & _).
  destruct (post_processing_quality_pixel "DATASOURCE" "TOTALOB" "CLEAROB" "PROVENANCE"
              example_quality_file 255 example_bands "quality" [Some "S2_L2A"]
              0%nat 1%nat [0; 2; 255] 2 eq_refl eq_refl)
    as (block'' & Hblock' & _ & _ & _ & Hkept).
  assert (block'' = block') as -> by congruence.
  exists block'. split; [exact Hblock|]. split.
  - apply Hsaturated; [discriminate|].
    exists {| bf_name := "nir"; bf_nodata := -9999;
              bf_data := raster_file [[-9999; 7100; -9999]] (-9999) |}.
    split; [vm_compute; constructor|]. split; [discriminate|]. split; reflexivity.
  - apply Hkept; [discriminate|].
    intros (b & Hb & Hname & Hderived & Hread).
    apply elem_of_cons in Hb as [->|Hb]; [vm_compute in Hread; discriminate|].
    apply elem_of_cons in Hb as [->|Hb]; [vm_compute in Hderived; discriminate|].
    apply elem_of_cons in Hb as [->|Hb]; [by apply Hname|].
    by apply elem_of_nil in Hb.
Defined.


(** The first of two dates: the counter of pixel 0 goes from 0 to 1. *)
Lemma total_observation_follows_quality_values_witness :
  exists st',
    blend_date example_get_qa_mask example_day_of_year
      (example_context (-9999) [date_15; date_10] true) 0
      (initial_buffers 255 (example_context (-9999) [date_15; date_10] true) 2 4) 0 date_15
      = Ok st' /\
    stack_total_observation st' !! 0%nat = Some 1.
Proof.
  eexists. split; [vm_compute; reflexivity|].
  refine (proj1 (total_observation_follows_quality_values example_get_qa_mask
                   example_day_of_year (example_context (-9999) [date_15; date_10] true)
                   0 0 (initial_buffers 255 (example_context (-9999) [date_15; date_10] true) 2 4)
                   _ date_15 0 0 0 _ _ _)).
  - vm_compute. reflexivity.
  - reflexivity.
  - reflexivity.
Defined.

(** Two dates: pixel 1 is clear on one date and observed on both. *)
Lemma clear_observation_le_total_observation_witness :
  exists out count_raster c t,
    blend_block example_get_qa_mask example_day_of_year 255
      (example_context (-9999) [date_15; date_10] true) 2 0 4 = Ok out /\
    block_count_raster out = Some count_raster /\
    count_raster !! 1%nat = Some c /\
    stack_total_observation (block_final out) !! 1%nat = Some t /\
    c = 1 /\ t = 2 /\ c <= t.
Proof.
  destruct (blend_block example_get_qa_mask example_day_of_year 255
              (example_context (-9999) [date_15; date_10] true) 2 0 4) as [out|e] eqn:Hrun;
    [|vm_compute in Hrun; discriminate].
  destruct (read_dates example_get_qa_mask example_day_of_year
              (example_context (-9999) [date_15; date_10] true) 0 0 [date_15; date_10])
    as [ds|e] eqn:Hds; [|vm_compute in Hds; discriminate].
  assert (Hcount : block_count_raster out = Some [2; 1; 2; 0]).
  { vm_compute in Hrun. injection Hrun as <-. reflexivity. }
  assert (Hvalues : ds = [{| d_raster := [854; 756; -9999; -9999]; d_quality := [0; 0; 0; 255];
                             d_bmask := [false; false; false; true]; d_day := 15;
                             d_datasource_block := [] |};
                          {| d_raster := [702; 7000; -9999; -9999]; d_quality := [0; 2; 0; 255];
                             d_bmask := [false; true; false; true]; d_day := 10;
                             d_datasource_block := [] |}]).
  { vm_compute in Hds. injection Hds as <-. reflexivity. }
  destruct (clear_observation_le_total_observation example_get_qa_mask example_day_of_year 255
              (example_context (-9999) [date_15; date_10] true) 2 0 4 out ds 1%nat
              Hrun Hds eq_refl) with (count_raster := [2; 1; 2; 0])
    as (c & t & Hc & Ht & Hcv & Htv & Hle).
  - rewrite Hvalues. simpl. lia.
  - lia.
  - rewrite Hvalues. repeat constructor; vm_compute; eauto.
  - rewrite Hvalues. repeat constructor; vm_compute; discriminate.
  - exact Hcount.
  - exists out, [2; 1; 2; 0], c, t.
    split; [reflexivity|]. split; [exact Hcount|]. split; [exact Hc|]. split; [exact Ht|].
    rewrite Hvalues in Hcv, Htv. split; [exact Hcv|]. split; [exact Htv|exact Hle].
Defined.

(** Two dates: pixel 0 is clear on both, and holds the value and the day of
    the date ranked first. *)
Lemma best_pixel_first_clear_date_wins_witness :
  exists out,
    blend_block example_get_qa_mask example_day_of_year 255
      (example_context (-9999) [date_15; date_10] false) 2 0 4 = Ok out /\
    stack_raster (block_final out) !! 0%nat = Some 854 /\
    provenance_array (block_final out) !! 0%nat = Some 15.
Proof.
  destruct (blend_block example_get_qa_mask example_day_of_year 255
              (example_context (-9999) [date_15; date_10] false) 2 0 4) as [out|e] eqn:Hrun;
    [|vm_compute in Hrun; discriminate].
  exists out. split; [reflexivity|].
  refine (proj1 (best_pixel_first_clear_date_wins example_get_qa_mask example_day_of_year 255
                   (example_context (-9999) [date_15; date_10] false) 2 0 4 out []
                   [{| d_raster := [702; 7000; -9999; -9999]; d_quality := [0; 2; 0; 255];
                       d_bmask := [false; true; false; true]; d_day := 10;
                       d_datasource_block := [] |}]
                   {| d_raster := [854; 756; -9999; -9999]; d_quality := [0; 0; 0; 255];
                      d_bmask := [false; false; false; true]; d_day := 15;
                      d_datasource_block := [] |}
                   0%nat 854 Hrun _ _ _ _ _ _ _)).
  - vm_compute. reflexivity.
  - lia.
  - repeat constructor; vm_compute; eauto.
  - constructor.
  - reflexivity.
  - reflexivity.
  - discriminate.
Defined.

(** Two dates: pixel 2 has no band value on either date, and is nodata in
    the stack and in the median. *)
Lemma nodata_on_every_date_stays_nodata_witness :
  exists out median,
    blend_block example_get_qa_mask example_day_of_year 255
      (example_context (-9999) [date_15; date_10] true) 2 0 4 = Ok out /\
    block_median out = Some median /\
    stack_raster (block_final out) !! 2%nat = Some (-9999) /\
    median !! 2%nat = Some (-9999).
Proof.
  destruct (blend_block example_get_qa_mask example_day_of_year 255
              (example_context (-9999) [date_15; date_10] true) 2 0 4) as [out|e] eqn:Hrun;
    [|vm_compute in Hrun; discriminate].
  assert (Hmedian : block_median out = Some [778; 756; -9999; -9999]).
  { vm_compute in Hrun. injection Hrun as <-. reflexivity. }
  destruct (nodata_on_every_date_stays_nodata example_get_qa_mask example_day_of_year 255
              (example_context (-9999) [date_15; date_10] true) 2 0 4 out
              [{| d_raster := [854; 756; -9999; -9999]; d_quality := [0; 0; 0; 255];
                  d_bmask := [false; false; false; true]; d_day := 15;
                  d_datasource_block := [] |};
               {| d_raster := [702; 7000; -9999; -9999]; d_quality := [0; 2; 0; 255];
                  d_bmask := [false; true; false; true]; d_day := 10;
                  d_datasource_block := [] |}] 2%nat Hrun)
    as [Hstack Hmed].
  - vm_compute. reflexivity.
  - reflexivity.
  - lia.
  - repeat constructor; vm_compute; eauto.
  - repeat constructor.
  - exists out, [778; 756; -9999; -9999].
    split; [reflexivity|]. split; [exact Hmedian|]. split; [exact Hstack|].
    apply Hmed; [unfold int16_range; simpl; lia|exact Hmedian].
Defined.

(** ** Where the wording of the specification fails *)

(** [known H] replaces the result named in [H : run = Ok x] by its value. *)
Ltac known H :=
  let Hvalue := fresh "Hvalue" in
  pose proof H as Hvalue; vm_compute in Hvalue; injection Hvalue as <-.

(** C1.  With three dates on which the pixel is clear, the composite holds
    the value of the first and not, for the pair of the second and the third,
    that of the second; and with a first date that is clear without a band
    value, the composite holds the value and the day of the second date. *)
Lemma precedence_for_every_clear_pair_counterexample :
  (exists r,
     blend example_get_qa_mask example_day_of_year example_platform_is_oli "DATASOURCE" 255 id
       (stored_files three_clear_dates) (activity_of three_clear_dates "STK") (-9999) 0 10000
       "quality" true false false = Ok r /\
     snd <$> blend_ranked r = ["2020-01-03"; "2020-01-02"; "2020-01-01"]%string /\
     blend_stack_raster r = [[10]] /\ blend_provenance_array r = [[3]]) /\
  ~ precedence_for_every_clear_pair example_get_qa_mask example_day_of_year 255
      (example_context (-9999) three_clear_dates false) 3 0 1 /\
  (exists r,
     blend example_get_qa_mask example_day_of_year example_platform_is_oli "DATASOURCE" 255 id
       (stored_files clear_without_value) (activity_of clear_without_value "STK") (-9999) 0
       10000 "quality" true false false = Ok r /\
     snd <$> blend_ranked r = ["2020-01-02"; "2020-01-01"]%string /\
     blend_stack_raster r = [[7]] /\ blend_provenance_array r = [[1]]) /\
  ~ precedence_for_every_clear_pair example_get_qa_mask example_day_of_year 255
      (example_context (-9999) clear_without_value false) 2 0 1.
Proof.
  split; [eexists; split; [vm_compute; reflexivity|by vm_compute]|].
  split.
  { intros Hclaim. unfold precedence_for_every_clear_pair in Hclaim.
    destruct (blend_block example_get_qa_mask example_day_of_year 255
                (example_context (-9999) three_clear_dates false) 3 0 1)
      as [out|e] eqn:Hrun; [|vm_compute in Hrun; discriminate].
    destruct (read_dates example_get_qa_mask example_day_of_year
                (example_context (-9999) three_clear_dates false) 0 0
                (cx_files (example_context (-9999) three_clear_dates false)))
      as [ds|e] eqn:Hds; [|vm_compute in Hds; discriminate].
    known Hrun. known Hds.
    destruct (Hclaim _ _ 1%nat 2%nat _ _ 0%nat 20 eq_refl eq_refl ltac:(lia)
                eq_refl eq_refl eq_refl eq_refl eq_refl) as [Hstack _].
    vm_compute in Hstack. discriminate. }
  split; [eexists; split; [vm_compute; reflexivity|by vm_compute]|].
  intros Hclaim. unfold precedence_for_every_clear_pair in Hclaim.
  destruct (blend_block example_get_qa_mask example_day_of_year 255
              (example_context (-9999) clear_without_value false) 2 0 1)
    as [out|e] eqn:Hrun; [|vm_compute in Hrun; discriminate].
  destruct (read_dates example_get_qa_mask example_day_of_year
              (example_context (-9999) clear_without_value false) 0 0
              (cx_files (example_context (-9999) clear_without_value false)))
    as [ds|e] eqn:Hds; [|vm_compute in Hds; discriminate].
  known Hrun. known Hds.
  destruct (Hclaim _ _ 0%nat 1%nat _ _ 0%nat (-9999) eq_refl eq_refl ltac:(lia)
              eq_refl eq_refl eq_refl eq_refl eq_refl) as [Hstack _].
  vm_compute in Hstack. discriminate.
Qed.


(** C5.  A band of data type [int32] whose nodata is 40000, one date, and a
    pixel that the quality band gives as clear while its band value is
    nodata.  The stack composite, an array of the data type of the band,
    holds 40000 at the pixel; the median composite holds -25536, the value
    that 40000 wraps to in the date stack [stackMA], which is allocated as
    [int16] whatever the data type of the band.  So the two composites are
    not both nodata at a pixel that is nodata on every date. *)
Lemma median_wraps_nodata_outside_int16 :
  (exists r,
     blend example_get_qa_mask example_day_of_year example_platform_is_oli "DATASOURCE" 255 id
       (stored_files [example_date "2020-01-01" [40000] [0] 40000])
       (activity_of [example_date "2020-01-01" [40000] [0] 40000] "MED") 40000 0 10000
       "quality" true false false = Ok r /\
     blend_stack_raster r = [[40000]] /\ blend_median_raster r = Some [[-25536]]) /\
  ~ nodata_preserved example_get_qa_mask example_day_of_year 255
      (example_context 40000 [example_date "2020-01-01" [40000] [0] 40000] true) 1 0 1.
Proof.
  split; [eexists; split; [vm_compute; reflexivity|by vm_compute]|].
  intros Hclaim. unfold nodata_preserved in Hclaim.
  destruct (blend_block example_get_qa_mask example_day_of_year 255
              (example_context 40000 [example_date "2020-01-01" [40000] [0] 40000] true) 1 0 1)
    as [out|e] eqn:Hrun; [|vm_compute in Hrun; discriminate].
  destruct (read_dates example_get_qa_mask example_day_of_year
              (example_context 40000 [example_date "2020-01-01" [40000] [0] 40000] true) 0 0
              (cx_files (example_context 40000
                           [example_date "2020-01-01" [40000] [0] 40000] true)))
    as [ds|e] eqn:Hds; [|vm_compute in Hds; discriminate].
  known Hrun. known Hds.
  destruct (Hclaim _ _ 0%nat eq_refl eq_refl ltac:(lia)) as [_ Hmedian].
  { repeat constructor. }
  specialize (Hmedian _ eq_refl). vm_compute in Hmedian. discriminate.
Qed.

(** C6.  With a band whose nodata is 0 and a pixel whose quality value 0 is
    clear, the pixel counts as a clear observation and not as an observation;
    and with 256 dates the 8-bit total wraps to 0. *)
Lemma clear_le_total_counterexample :
  (exists r,
     blend example_get_qa_mask example_day_of_year example_platform_is_oli "DATASOURCE" 255 id
       (stored_files [example_date "2020-01-01" [500] [0] 0])
       (activity_of [example_date "2020-01-01" [500] [0] 0] "STK") 0 0 10000
       "quality" true false false = Ok r /\
     blend_count_raster r = Some [[1]] /\ blend_total_observation r = [[0]]) /\
  ~ clear_le_total example_get_qa_mask example_day_of_year 255
      (example_context 0 [example_date "2020-01-01" [500] [0] 0] false) 1 0 1 /\
  (exists r,
     blend example_get_qa_mask example_day_of_year example_platform_is_oli "DATASOURCE" 255 id
       (stored_files many_clear_dates) (activity_of many_clear_dates "STK") (-9999) 0 10000
       "quality" true false false = Ok r /\
     blend_count_raster r = Some [[256]] /\ blend_total_observation r = [[0]]) /\
  ~ clear_le_total example_get_qa_mask example_day_of_year 255
      (example_context (-9999) many_clear_dates false) 256 0 1.
Proof.
  split; [eexists; split; [vm_compute; reflexivity|by vm_compute]|].
  split.
  { intros Hclaim. unfold clear_le_total in Hclaim.
    destruct (blend_block example_get_qa_mask example_day_of_year 255
                (example_context 0 [example_date "2020-01-01" [500] [0] 0] false) 1 0 1)
      as [out|e] eqn:Hrun; [|vm_compute in Hrun; discriminate].
    known Hrun.
    pose proof (Hclaim _ [1] 0%nat 1 0 eq_refl eq_refl eq_refl eq_refl) as Hle. lia. }
  split; [eexists; split; [vm_compute; reflexivity|by vm_compute]|].
  intros Hclaim. unfold clear_le_total in Hclaim.
  destruct (blend_block example_get_qa_mask example_day_of_year 255
              (example_context (-9999) many_clear_dates false) 256 0 1)
    as [out|e] eqn:Hrun; [|vm_compute in Hrun; discriminate].
  assert (Hcount : block_count_raster out = Some [256]).
  { vm_compute in Hrun. injection Hrun as <-. reflexivity. }
  assert (Htotal : stack_total_observation (block_final out) = [0]).
  { vm_compute in Hrun. injection Hrun as <-. reflexivity. }
  assert (Hzero : stack_total_observation (block_final out) !! 0%nat = Some 0)
    by (by rewrite Htotal).
  pose proof (Hclaim out [256] 0%nat 256 0 eq_refl Hcount eq_refl Hzero) as Hle. lia.
Qed.

(** C7.  A pixel without a band value whose quality value is 0: the counter
    goes up although the band raster is nodata there. *)
Lemma total_counts_band_values_counterexample :
  (exists r,
     blend example_get_qa_mask example_day_of_year example_platform_is_oli "DATASOURCE" 255 id
       (stored_files [example_date "2020-01-01" [-9999] [0] (-9999)])
       (activity_of [example_date "2020-01-01" [-9999] [0] (-9999)] "STK") (-9999) 0 10000
       "quality" true false false = Ok r /\
     blend_total_observation r = [[1]]) /\
  ~ total_counts_band_values example_get_qa_mask example_day_of_year
      (example_context (-9999) [example_date "2020-01-01" [-9999] [0] (-9999)] false) 0
      (initial_buffers 255
         (example_context (-9999) [example_date "2020-01-01" [-9999] [0] (-9999)] false) 1 1)
      0 (example_date "2020-01-01" [-9999] [0] (-9999)).
Proof.
  split; [eexists; split; [vm_compute; reflexivity|by vm_compute]|].
  intros Hclaim. unfold total_counts_band_values in Hclaim.
  destruct (blend_date example_get_qa_mask example_day_of_year
              (example_context (-9999) [example_date "2020-01-01" [-9999] [0] (-9999)] false) 0
              (initial_buffers 255
                 (example_context (-9999) [example_date "2020-01-01" [-9999] [0] (-9999)] false)
                 1 1)
              0 (example_date "2020-01-01" [-9999] [0] (-9999)))
    as [st'|e] eqn:Hrun; [|vm_compute in Hrun; discriminate].
  known Hrun.
  pose proof (Hclaim _ 0%nat 0 (-9999) eq_refl eq_refl eq_refl) as Hvalue.
  vm_compute in Hvalue. discriminate.
Qed.

(** ** concat_path and the item prefix *)

Section PathFacts.
Import pathlib.

Lemma startswith_slash (s : string) :
  startswith s "/" = true <-> exists s', s = String "/" s'.
Proof.
  unfold startswith. destruct s as [|c s]; cbn -[ascii_dec].
  - split; [discriminate|]. by intros [s' ?].
  - destruct (ascii_dec "/" c) as [<-|Hc].
    + split; [eauto|]. intros _. by destruct s.
    + split; [discriminate|]. intros [s' Heq]. injection Heq as Hc' _. congruence.
Qed.

Lemma components_slash (s : string) : components (String "/" s) = components s.
Proof. done. Qed.

Lemma splitroot_not_relative (s : string) : splitroot (String "/" s) <> Relative.
Proof.
  unfold splitroot. simpl. by destruct (leading_slashes s) as [|[|n]].
Qed.

Lemma splitroot_relative (s : string) : startswith s "/" = false -> splitroot s = Relative.
Proof.
  intros H. unfold splitroot. destruct s as [|c s]; [done|].
  cbn [leading_slashes]. destruct (Ascii.eqb c "/") eqn:Hc; [|done].
  apply Ascii.eqb_eq in Hc as ->. exfalso.
  assert (Ht : startswith (String "/" s) "/" = true) by (apply startswith_slash; eauto).
  congruence.
Qed.

Lemma truediv_root (p q : Path) :
  root p <> Relative -> root (truediv p q) <> Relative.
Proof. unfold truediv. by destruct (root q) eqn:Hq; simpl; rewrite ?Hq. Qed.


Lemma truediv_relative (p q : Path) :
  root q = Relative -> truediv p q = {| root := root p; parts := parts p ++ parts q |}.
Proof. unfold truediv. by intros ->. Qed.

Lemma truediv_rooted (p q : Path) : root q <> Relative -> truediv p q = q.
Proof. unfold truediv. by destruct (root q). Qed.

Lemma concat_entry_root (base : Path) (entry : path_like) :
  root base <> Relative -> root (concat_entry base entry) <> Relative.
Proof.
  intros Hbase. unfold concat_entry.
  destruct (startswith (str_of entry) "/"); [by apply truediv_root|].
  destruct entry; by apply truediv_root.
Qed.

(** A string that does not start with two slashes is appended, component
    by component. *)
Lemma concat_entry_string (base : Path) (s : string) :
  startswith s "//" = false ->
  concat_entry base (Str s) = {| root := root base; parts := parts base ++ components s |}.
Proof.
  intros Hs. unfold concat_entry. simpl.
  destruct (startswith s "/") eqn:Hslash.
  - apply startswith_slash in Hslash as [s' ->]. simpl.
    assert (Hs' : startswith s' "/" = false).
    { destruct (startswith s' "/") eqn:H'; [|done].
      apply startswith_slash in H' as [s'' ->]. exfalso.
      revert Hs. unfold startswith. cbn -[ascii_dec].
      destruct (ascii_dec "/" "/"); [|done].
      destruct (ascii_dec "/" "/"); [|done]. by destruct s''. }
    rewrite truediv_relative by (by apply splitroot_relative). done.
  - rewrite truediv_relative by (by apply splitroot_relative). done.
Qed.

(** X18.  The path [concat_path] returns is absolute, whatever its
    entries. *)
Theorem concat_path_is_absolute (entries : list path_like) :
  root (concat_path entries) <> Relative.
Proof.
  unfold concat_path.
  assert (H : forall base, root base <> Relative ->
                root (foldl concat_entry base entries) <> Relative).
  { induction entries as [|entry entries IH]; intros base Hbase; simpl; [done|].
    apply IH. by apply concat_entry_root. }
  apply H. done.
Qed.

(** X19.  For strings that do not start with two slashes, [concat_path]
    returns the path under [/] whose components are the components of the
    strings, in order: a leading slash of an entry does not discard the
    entries before it. *)
Theorem concat_path_keeps_every_entry (entries : list string) :
  Forall (fun s => startswith s "//" = false) entries ->
  concat_path (Str <$> entries)
    = {| root := Root; parts := concat (components <$> entries) |}.
Proof.
  intros Hall. unfold concat_path.
  assert (H : forall base,
            foldl concat_entry base (Str <$> entries)
            = {| root := root base; parts := parts base ++ concat (components <$> entries) |}).
  { induction Hall as [|s entries Hs Hall IH]; intros base; simpl.
    - rewrite app_nil_r. by destruct base.
    - rewrite IH, concat_entry_string by done. simpl. by rewrite <- app_assoc. }
  by rewrite H.
Qed.

(** X20.  An entry that starts with two slashes discards the entries
    before it: [concat_path] returns the path of that entry without its first
    slash. *)
Theorem concat_path_double_slash_restarts (entries : list path_like) (s : string) :
  concat_path (entries ++ [Str ("//" ++ s)]) = parse ("/" ++ s).
Proof.
  change ("//" ++ s)%string with (String "/" (String "/" s)).
  change ("/" ++ s)%string with (String "/" s).
  unfold concat_path. rewrite foldl_app. cbn [foldl].
  unfold concat_entry at 1. cbn [str_of].
  assert (Hstart : startswith (String "/" (String "/" s)) "/" = true)
    by (apply startswith_slash; eauto).
  rewrite Hstart. cbn [drop_first]. apply truediv_rooted. apply splitroot_not_relative.
Qed.


(** *** The item prefix *)

Lemma split_no_leading_slash (s x : string) : x ∈ split s -> startswith x "/" = false.
Proof.
  revert x. induction s as [|c s IH]; intros x; simpl.
  - intros ->%list_elem_of_singleton. done.
  - destruct (Ascii.eqb c "/") eqn:Hc.
    + intros [->|Hx]%elem_of_cons; [done|by apply IH].
    + assert (Hhead : forall y, startswith (String c y) "/" = false).
      { intros y. destruct (startswith (String c y) "/") eqn:Hy; [|done].
        apply startswith_slash in Hy as [y' Hy]. injection Hy as -> _.
        by rewrite Ascii.eqb_refl in Hc. }
      destruct (split s) as [|y l]; intros [->|Hx]%elem_of_cons; try done.
      * by apply elem_of_nil in Hx.
      * apply IH. by apply list_elem_of_further.
Qed.

Lemma components_component (s : string) : Forall component (components s).
Proof.
  apply Forall_forall. intros x Hx. unfold components in Hx.
  apply list_elem_of_filter in Hx as [Hkeep Hx]. split.
  - intros ->. done.
  - by apply split_no_leading_slash with s.
Qed.

Lemma startswith_head (c : ascii) (x y : string) :
  startswith (String c x) "/" = startswith (String c y) "/".
Proof.
  unfold startswith. cbn -[ascii_dec]. destruct (ascii_dec "/" c); [|done].
  by destruct x, y.
Qed.

Lemma str_relative (p : Path) :
  root p = Relative -> Forall component (parts p) -> startswith (str p) "/" = false.
Proof.
  unfold str. intros -> Hparts. destruct (parts p) as [|x l]; [done|].
  inversion Hparts as [|? ? [Hne Hx] _]; subst.
  destruct x as [|c x]; [done|].
  assert (Hshape : exists y,
            (anchor_str Relative ++ String.concat "/" (String c x :: l))%string = String c y).
  { destruct l; simpl; eauto. }
  destruct Hshape as [y ->]. by rewrite (startswith_head c y x).
Qed.

Lemma concat_entry_relative (base p : Path) :
  root p = Relative -> Forall component (parts p) ->
  concat_entry base (PathObj p) = {| root := root base; parts := parts base ++ parts p |}.
Proof.
  intros Hroot Hparts. unfold concat_entry. simpl.
  rewrite (str_relative p Hroot Hparts). by apply truediv_relative.
Qed.

Lemma join_one (s : string) : join [s] = parse s.
Proof.
  unfold join. simpl. unfold truediv. simpl.
  by destruct (splitroot s) eqn:Hs; unfold parse; rewrite ?Hs.
Qed.

Lemma relative_to_one (p : Path) (s : string) (rel : Path) :
  relative_to p [s] = Ok rel ->
  rel = {| root := Relative; parts := drop (length (components s)) (parts p) |}.
Proof.
  unfold relative_to. rewrite join_one. simpl.
  destruct (_ && _); [|discriminate]. by intros [= <-].
Qed.

Lemma relative_to_one_error (p : Path) (s : string) (e : error) :
  relative_to p [s] = Err e -> e = ValueError.
Proof.
  unfold relative_to. destruct (_ && _); [discriminate|]. by intros [= <-].
Qed.

Section ItemPrefix.

Variables WORK_DIR DATA_DIR ITEM_PREFIX : string.

Lemma item_prefix_of_relative (s : string) (n : nat) :
  startswith ITEM_PREFIX "//" = false ->
  concat_path [Str ITEM_PREFIX;
               PathObj {| root := Relative; parts := drop n (components s) |}]
  = {| root := Root; parts := components ITEM_PREFIX ++ drop n (components s) |}.
Proof.
  intros Hprefix. unfold concat_path. simpl.
  rewrite concat_entry_string by done. simpl.
  rewrite concat_entry_relative; [done|done|]. simpl.
  apply Forall_drop, components_component.
Qed.

(** X21.  The item prefix of a path under the work directory, or else
    under the data directory, is the path whose components are those of
    [ITEM_PREFIX] followed by those of the path beyond that directory; the
    work directory is tried first. *)
Theorem item_prefix_replaces_directory (s : string) (data_dir : option string) (rel : Path) :
  startswith ITEM_PREFIX "//" = false ->
  (relative_to (parse s) [WORK_DIR] = Ok rel ->
   _item_prefix WORK_DIR DATA_DIR ITEM_PREFIX (parse s) data_dir
     = Ok {| root := Root;
             parts := components ITEM_PREFIX
                      ++ drop (length (components WORK_DIR)) (components s) |}) /\
  (relative_to (parse s) [WORK_DIR] = Err ValueError ->
   relative_to (parse s) [data_dir_or_default DATA_DIR data_dir] = Ok rel ->
   _item_prefix WORK_DIR DATA_DIR ITEM_PREFIX (parse s) data_dir
     = Ok {| root := Root;
             parts := components ITEM_PREFIX
                      ++ drop (length (components (data_dir_or_default DATA_DIR data_dir)))
                           (components s) |}).
Proof.
  intros Hprefix. split.
  - intros Hwork. unfold _item_prefix, is_relative_to. rewrite Hwork. cbn [rbind].
    rewrite Hwork. cbn [rbind]. rewrite (relative_to_one _ _ _ Hwork).
    change (parts (parse s)) with (components s).
    by rewrite item_prefix_of_relative.
  - intros Hwork Hdata. unfold _item_prefix, is_relative_to. rewrite Hwork. cbn [rbind].
    rewrite Hdata. cbn [rbind]. rewrite Hdata. cbn [rbind].
    rewrite (relative_to_one _ _ _ Hdata).
    change (parts (parse s)) with (components s).
    by rewrite item_prefix_of_relative.
Qed.

(** X22.  [_item_prefix] raises [ValueError] exactly when the path lies
    neither under the work directory nor under the data directory, and it
    raises nothing else. *)
Theorem item_prefix_outside_directories (absolute_path : Path) (data_dir : option string) :
  (_item_prefix WORK_DIR DATA_DIR ITEM_PREFIX absolute_path data_dir = Err ValueError <->
   relative_to absolute_path [WORK_DIR] = Err ValueError /\
   relative_to absolute_path [data_dir_or_default DATA_DIR data_dir] = Err ValueError) /\
  (forall e, _item_prefix WORK_DIR DATA_DIR ITEM_PREFIX absolute_path data_dir = Err e ->
             e = ValueError).
Proof.
  unfold _item_prefix, is_relative_to.
  destruct (relative_to absolute_path [WORK_DIR]) as [rel|e] eqn:Hwork; cbn [rbind].
  - rewrite Hwork. cbn [rbind]. split; [|discriminate]. split; [discriminate|]. by intros [? _].
  - pose proof (relative_to_one_error _ _ _ Hwork) as ->. cbn [rbind].
    destruct (relative_to absolute_path [data_dir_or_default DATA_DIR data_dir])
      as [rel|e] eqn:Hdata; cbn [rbind].
    + rewrite Hdata. cbn [rbind]. split; [|discriminate]. split; [discriminate|].
      by intros [_ ?].
    + pose proof (relative_to_one_error _ _ _ Hdata) as ->. cbn [rbind].
      split; [done|]. by intros e [= <-].
Qed.

End ItemPrefix.

End PathFacts.

(** ** cleanup *)

Section CleanupFacts.
Import pathlib.

Lemma from_last_dot_app (stem ext : string) :
  from_last_dot ext = Some ext -> from_last_dot (stem ++ ext) = Some ext.
Proof.
  intros Hext. induction stem as [|c stem IH]; simpl; [done|]. by rewrite IH.
Qed.

Lemma from_last_dot_split (name ext : string) :
  from_last_dot name = Some ext -> exists stem, name = (stem ++ ext)%string.
Proof.
  revert ext. induction name as [|c name IH]; intros ext; simpl; [discriminate|].
  destruct (from_last_dot name) as [ext'|] eqn:Hname.
  - intros [= <-]. destruct (IH ext' eq_refl) as [stem ->]. by exists (String c stem).
  - destruct (Ascii.eqb c "."); [|discriminate]. intros [= <-]. by exists EmptyString.
Qed.

Lemma length_app_string (a b : string) :
  String.length (a ++ b) = (String.length a + String.length b)%nat.
Proof. induction a as [|c a IH]; simpl; [done|]. by rewrite IH. Qed.

Lemma lower_length (s : string) : String.length (lower s) = String.length s.
Proof. induction s as [|c s IH]; simpl; [done|]. by rewrite IH. Qed.

Lemma lower_ascii_dot (c : ascii) : lower_ascii c = "."%char <-> c = "."%char.
Proof.
  split; [|by intros ->].
  unfold lower_ascii. destruct (_ && _)%nat eqn:Hc; [|done].
  intros H. exfalso. apply andb_true_iff in Hc as [Hlo Hhi].
  apply Nat.leb_le in Hlo, Hhi.
  apply (f_equal nat_of_ascii) in H. rewrite nat_ascii_embedding in H by lia.
  change (nat_of_ascii ".") with 46%nat in H. lia.
Qed.

(** An extension that reads [.tif] in lower case is the name from its last
    dot on. *)
Lemma tif_from_last_dot (ext : string) :
  lower ext = ".tif"%string -> from_last_dot ext = Some ext /\ String.length ext = 4%nat.
Proof.
  intros H. pose proof (lower_length ext) as Hlen. rewrite H in Hlen. simpl in Hlen.
  split; [|done].
  destruct ext as [|c0 [|c1 [|c2 [|c3 [|c4 ext]]]]]; try discriminate.
  simpl in H. injection H as H0 H1 H2 H3.
  apply lower_ascii_dot in H0 as ->.
  assert (Hnot : forall c x, lower_ascii c = x -> x <> "."%char -> Ascii.eqb c "." = false).
  { intros c x Hc Hx. apply Ascii.eqb_neq. intros ->. by apply Hx. }
  simpl. by rewrite (Hnot c3 _ H3), (Hnot c2 _ H2), (Hnot c1 _ H1).
Qed.

Lemma startswith_app (p s : string) : startswith (p ++ s) p = true.
Proof.
  unfold startswith. induction p as [|c p IH].
  - by destruct s.
  - change (String.prefix (String c p) (String c (p ++ s)) = true).
    cbn -[ascii_dec]. by destruct (ascii_dec c c).
Qed.

Lemma startswith_split (s p : string) :
  startswith s p = true -> exists rest, s = (p ++ rest)%string.
Proof.
  unfold startswith. revert s. induction p as [|c p IH]; intros s.
  - intros _. by exists s.
  - destruct s as [|c' s]; cbn -[ascii_dec]; [discriminate|].
    destruct (ascii_dec c c') as [<-|]; [|discriminate].
    intros [rest ->]%IH. by exists rest.
Qed.

Lemma from_last_dot_tmp (rest : string) :
  from_last_dot ("tmp" ++ rest) = from_last_dot rest.
Proof.
  change ("tmp" ++ rest)%string with (String "t" (String "m" (String "p" rest))).
  cbn [from_last_dot]. by destruct (from_last_dot rest).
Qed.

(** The names of the entries [cleanup] unlinks: [tmp], anything, and an
    extension that reads [.tif] in lower case. *)
Lemma is_temporary_name (entry : dir_entry) :
  is_temporary entry = true <->
  entry_is_file entry = true /\
  exists stem ext, entry_name entry = ("tmp" ++ stem ++ ext)%string /\
                   lower ext = ".tif"%string.
Proof.
  unfold is_temporary. rewrite !andb_true_iff, String.eqb_eq. split.
  - intros [[Hfile Htmp] Hsuffix]. split; [done|].
    apply startswith_split in Htmp as [rest Hname].
    unfold suffix in Hsuffix. rewrite Hname in Hsuffix.
    rewrite from_last_dot_tmp in Hsuffix.
    destruct (from_last_dot rest) as [ext|] eqn:Hrest; [|discriminate].
    destruct (_ && _)%nat; [|discriminate].
    apply from_last_dot_split in Hrest as [stem ->].
    exists stem, ext. by rewrite Hname.
  - intros [Hfile (stem & ext & Hname & Hext)]. rewrite Hname.
    split; [split; [done|apply startswith_app]|].
    destruct (tif_from_last_dot ext Hext) as [Hlast Hlen].
    unfold suffix.
    rewrite from_last_dot_tmp.
    rewrite (from_last_dot_app stem ext Hlast).
    change (String.length ("tmp" ++ stem ++ ext))
      with (S (S (S (String.length (stem ++ ext))))).
    rewrite length_app_string, Hlen.
    destruct (_ && _)%nat eqn:Hi; [done|].
    exfalso. apply andb_false_iff in Hi as [Hi|Hi].
    + apply Nat.ltb_ge in Hi. lia.
    + apply Nat.ltb_ge in Hi. lia.
Qed.

(** X23.  [cleanup] removes the directory exactly when each of its
    entries is a temporary raster; otherwise the entries left are, in their
    order, those that are not a file whose name starts with [tmp] and ends
    with an extension that reads [.tif] in lower case. *)
Theorem cleanup_removes_temporary_rasters_only (directory : list dir_entry) :
  (cleanup directory = None <-> Forall (fun entry => is_temporary entry = true) directory) /\
  (forall remaining, cleanup directory = Some remaining ->
     remaining = filter (fun entry => is_temporary entry = false) directory /\
     forall entry, entry ∈ remaining <->
       entry ∈ directory /\
       ~ (entry_is_file entry = true /\
          exists stem ext, entry_name entry = ("tmp" ++ stem ++ ext)%string /\
                           lower ext = ".tif"%string)).
Proof.
  unfold cleanup. split.
  - destruct (filter _ directory) as [|entry remaining] eqn:Hleft.
    + split; [intros _|done]. apply Forall_forall. intros entry Hentry.
      destruct (is_temporary entry) eqn:Htemp; [done|]. exfalso.
      assert (Hin : entry ∈ filter (fun entry => is_temporary entry = false) directory)
        by (by apply list_elem_of_filter).
      rewrite Hleft in Hin. by apply elem_of_nil in Hin.
    + split; [discriminate|]. intros Hall. exfalso.
      assert (Hin : entry ∈ filter (fun entry => is_temporary entry = false) directory)
        by (rewrite Hleft; apply list_elem_of_here).
      apply list_elem_of_filter in Hin as [Hnot Hin].
      rewrite Forall_forall in Hall. specialize (Hall entry Hin). congruence.
  - intros remaining Hleft.
    assert (Heq : remaining = filter (fun entry => is_temporary entry = false) directory).
    { destruct (filter _ directory); [discriminate|]. by injection Hleft as <-. }
    split; [done|]. intros entry. rewrite Heq, list_elem_of_filter, <- is_temporary_name.
    split.
    + intros [Hnot Hin]. split; [done|]. congruence.
    + intros [Hin Hnot]. split; [|done]. by destruct (is_temporary entry).
Qed.

End CleanupFacts.

(** ** The further properties at concrete inputs *)

(** The parsed Fmask specification parses to itself. *)
Lemma parse_mask_idempotent_witness : parse_mask fmask_parsed = Ok fmask_parsed.
Proof.
  apply (parse_mask_idempotent fmask fmask_parsed). reflexivity.
Defined.

(** No statistics for a raster without pixels. *)
Lemma qa_statistics_empty_raster_witness :
  _qa_statistics example_get_qa_mask [] fmask true None = Err ZeroDivisionError.
Proof.
  apply (proj1 (qa_statistics_empty_raster example_get_qa_mask fmask fmask_parsed None
                  (raster_file [] 255) eq_refl)).
Defined.

(** The quality raster of the documentation of [blend] for 10/1. *)
Lemma qa_statistics_categorical_range_witness :
  _qa_statistics example_get_qa_mask [0; 0; 2; 4; 0; 1; 1; 4; 0; 2; 2; 4] fmask true None
    = Ok (Finite 50, Finite 50) /\
  exists e c,
    Finite 50 = Finite e /\ Finite 50 = Finite c /\
    (0 <= e)%Q /\ (e <= 100)%Q /\ (0 <= c)%Q /\ (c <= 100)%Q.
Proof.
  split; [vm_compute; reflexivity|].
  apply (qa_statistics_categorical_range example_get_qa_mask
           [0; 0; 2; 4; 0; 1; 1; 4; 0; 2; 2; 4] fmask fmask_parsed true None).
  - reflexivity.
  - reflexivity.
  - vm_compute. reflexivity.
  - vm_compute. reflexivity.
Defined.

(** A merge of the quality band without assets. *)
Lemma merge_without_assets_witness :
  merge example_get_qa_mask example_platform_is_oli 255 fmask [] "quality" 255
    (Some "quality") ["LC8"] [] false false true 2 = Err TypeError.
Proof.
  apply merge_without_assets. intros _. vm_compute. eauto.
Defined.

(** One data set: the second asset replaces the value of the first at
    pixel 0. *)
Lemma merge_plain_last_asset_wins_witness :
  exists buf,
    merge_assets example_platform_is_oli (-9999) ["LC8"] [] false false
      {| raster_merge := [-9999; -9999]; raster_provenance := [255; 255];
         index_landsat_oli := []; platforms_used := [] |} example_assets = Ok buf /\
    raster_merge buf !! 0%nat = Some 6.
Proof.
  eexists. split; [vm_compute; reflexivity|].
  refine (merge_plain_last_asset_wins example_platform_is_oli (-9999) ["LC8"] [] false false
            [{| asset_dataset := "LC8"; asset_platform := EmptyString;
                asset_raster := [5; -9999] |}] []
            {| asset_dataset := "S2"; asset_platform := EmptyString; asset_raster := [6; 9] |}
            {| raster_merge := [-9999; -9999]; raster_provenance := [255; 255];
               index_landsat_oli := []; platforms_used := [] |}
            _ 0%nat 6 _ _ _ _ _ _).
  - reflexivity.
  - vm_compute. reflexivity.
  - vm_compute. eauto.
  - reflexivity.
  - discriminate.
  - intros b x Hb. inversion Hb.
Defined.

(** A band merged from two assets has the two pixels of the grid, and its
    pixel 1 holds the value of the second asset. *)
Lemma merge_pixels_come_from_assets_witness :
  exists r,
    merge example_get_qa_mask example_platform_is_oli 255 fmask example_assets "nir" (-9999)
      (Some "quality") ["LC8"] [] false false false 2 = Ok r /\
    length (merge_raster r) = 2%nat /\
    exists a, a ∈ example_assets /\ asset_raster a !! 1%nat = Some 9.
Proof.
  destruct (merge example_get_qa_mask example_platform_is_oli 255 fmask example_assets "nir"
              (-9999) (Some "quality") ["LC8"] [] false false false 2) as [r|e] eqn:Hrun;
    [|vm_compute in Hrun; discriminate].
  destruct (merge_pixels_come_from_assets example_get_qa_mask example_platform_is_oli 255
              fmask example_assets "nir" (-9999) (Some "quality") ["LC8"] [] false false false
              2 r Hrun) as (Hlen & Hsource & _).
  exists r. split; [reflexivity|]. split; [exact Hlen|].
  apply Hsource.
  - vm_compute in Hrun. injection Hrun as <-. reflexivity.
  - vm_compute in Hrun. injection Hrun as <-. discriminate.
Defined.

(** Two data sets with provenance: pixel 0 holds the value of the first
    asset and the platform position of the second one. *)
Lemma merge_provenance_names_last_asset_witness :
  exists buf,
    merge_assets example_platform_is_oli (-9999) ["LC8"; "S2"] ["LANDSAT-8"; "SENTINEL-2"]
      false true
      {| raster_merge := [-9999; -9999]; raster_provenance := [255; 255];
         index_landsat_oli := []; platforms_used := [] |} platform_assets = Ok buf /\
    raster_merge buf !! 0%nat = Some 5 /\
    exists k, index ["LANDSAT-8"; "SENTINEL-2"] "SENTINEL-2" = Ok k /\
              raster_provenance buf !! 0%nat = Some k.
Proof.
  eexists. split; [vm_compute; reflexivity|]. split; [reflexivity|].
  refine (merge_provenance_names_last_asset example_platform_is_oli (-9999) ["LC8"; "S2"]
            ["LANDSAT-8"; "SENTINEL-2"] false true
            [{| asset_dataset := "LC8"; asset_platform := "LANDSAT-8";
                asset_raster := [5; -9999] |}] []
            {| asset_dataset := "S2"; asset_platform := "SENTINEL-2"; asset_raster := [6; 9] |}
            {| raster_merge := [-9999; -9999]; raster_provenance := [255; 255];
               index_landsat_oli := []; platforms_used := [] |}
            _ 0%nat 6 _ _ _ _ _ _).
  - reflexivity.
  - vm_compute. reflexivity.
  - simpl. lia.
  - reflexivity.
  - discriminate.
  - intros b x Hb. inversion Hb.
Defined.

(** Assets without a platform cannot be merged with provenance. *)
Lemma merge_provenance_requires_known_platform_witness :
  exists e,
    merge example_get_qa_mask example_platform_is_oli 255 fmask example_assets "quality" 255
      (Some "quality") ["LC8"; "S2"] ["LANDSAT-8"] false true true 2 = Err e.
Proof.
  apply (merge_provenance_requires_known_platform example_get_qa_mask example_platform_is_oli
           255 fmask example_assets "quality" 255 (Some "quality") ["LC8"; "S2"] ["LANDSAT-8"]
           false true 2
           {| asset_dataset := "LC8"; asset_platform := EmptyString;
              asset_raster := [5; -9999] |}).
  - apply list_elem_of_here.
  - intros Hin. apply list_elem_of_singleton in Hin. discriminate.
Defined.

(** Two dates: pixel 1 holds the value and the day of the first date. *)
Lemma composite_value_and_day_from_one_date_witness :
  exists out,
    blend_block example_get_qa_mask example_day_of_year 255
      (example_context (-9999) [date_15; date_10] false) 2 0 4 = Ok out /\
    ((stack_raster (block_final out) !! 1%nat = Some (-9999) /\
      provenance_array (block_final out) !! 1%nat = Some (-1)) \/
     exists d r, d ∈ [date_15_read; date_10_read] /\ d_raster d !! 1%nat = Some r /\
       (r <> -9999 \/ d_bmask d !! 1%nat = Some false) /\
       stack_raster (block_final out) !! 1%nat = Some r /\
       provenance_array (block_final out) !! 1%nat = Some (d_day d)).
Proof.
  destruct (blend_block example_get_qa_mask example_day_of_year 255
              (example_context (-9999) [date_15; date_10] false) 2 0 4) as [out|e] eqn:Hrun;
    [|vm_compute in Hrun; discriminate].
  exists out. split; [reflexivity|].
  apply (composite_value_and_day_from_one_date example_get_qa_mask example_day_of_year 255
           (example_context (-9999) [date_15; date_10] false) 2 0 4 out
           [date_15_read; date_10_read] 1%nat Hrun).
  - vm_compute. reflexivity.
  - lia.
  - repeat constructor; vm_compute; eauto.
Defined.

(** Two dates: pixel 1 is observed on both and clear on one. *)
Lemma observation_counts_of_a_window_witness :
  exists out,
    blend_block example_get_qa_mask example_day_of_year 255
      (example_context (-9999) [date_15; date_10] true) 2 0 4 = Ok out /\
    stack_total_observation (block_final out) !! 1%nat = Some 2 /\
    block_count_raster out = Some [2; 1; 2; 0].
Proof.
  destruct (blend_block example_get_qa_mask example_day_of_year 255
              (example_context (-9999) [date_15; date_10] true) 2 0 4) as [out|e] eqn:Hrun;
    [|vm_compute in Hrun; discriminate].
  exists out. split; [reflexivity|].
  destruct (observation_counts_of_a_window example_get_qa_mask example_day_of_year 255
              (example_context (-9999) [date_15; date_10] true) 2 0 4 out
              [date_15_read; date_10_read] 1%nat Hrun) as (Htotal & _).
  - vm_compute. reflexivity.
  - reflexivity.
  - lia.
  - repeat constructor; vm_compute; eauto.
  - split; [exact Htotal|]. vm_compute in Hrun. injection Hrun as <-. reflexivity.
Defined.

(** Two dates: the median of pixel 0, clear on both, lies between its two
    values. *)
Lemma median_between_clear_values_witness :
  exists out m,
    blend_block example_get_qa_mask example_day_of_year 255
      (example_context (-9999) [date_15; date_10] true) 2 0 4 = Ok out /\
    block_median out = Some [778; 756; -9999; -9999] /\
    [778; 756; -9999; -9999] !! 0%nat = Some m /\
    exists rlo rhi, astype_int16 rlo <= m <= astype_int16 rhi.
Proof.
  destruct (blend_block example_get_qa_mask example_day_of_year 255
              (example_context (-9999) [date_15; date_10] true) 2 0 4) as [out|e] eqn:Hrun;
    [|vm_compute in Hrun; discriminate].
  assert (Hmedian : block_median out = Some [778; 756; -9999; -9999]).
  { vm_compute in Hrun. injection Hrun as <-. reflexivity. }
  destruct (median_between_clear_values example_get_qa_mask example_day_of_year 255
              (example_context (-9999) [date_15; date_10] true) 2 0 4 out
              [date_15_read; date_10_read] 0%nat [778; 756; -9999; -9999] Hrun)
    as (m & dlo & rlo & dhi & rhi & Hm & _ & _ & _ & _ & _ & _ & Hbetween).
  - vm_compute. reflexivity.
  - reflexivity.
  - lia.
  - repeat constructor; vm_compute; eauto.
  - exact Hmedian.
  - vm_compute. lia.
  - exists out, m. split; [reflexivity|]. split; [exact Hmedian|]. split; [exact Hm|].
    exists rlo, rhi. exact Hbetween.
Defined.

(** Two dates: pixel 3, masked on both, has no median and no clear
    observation. *)
Lemma never_clear_pixel_has_no_median_witness :
  exists out median count_raster,
    blend_block example_get_qa_mask example_day_of_year 255
      (example_context (-9999) [date_15; date_10] true) 2 0 4 = Ok out /\
    block_median out = Some median /\ median !! 3%nat = Some (-9999) /\
    block_count_raster out = Some count_raster /\ count_raster !! 3%nat = Some 0.
Proof.
  destruct (blend_block example_get_qa_mask example_day_of_year 255
              (example_context (-9999) [date_15; date_10] true) 2 0 4) as [out|e] eqn:Hrun;
    [|vm_compute in Hrun; discriminate].
  assert (Hmedian : block_median out = Some [778; 756; -9999; -9999]).
  { vm_compute in Hrun. injection Hrun as <-. reflexivity. }
  assert (Hcount : block_count_raster out = Some [2; 1; 2; 0]).
  { vm_compute in Hrun. injection Hrun as <-. reflexivity. }
  destruct (never_clear_pixel_has_no_median example_get_qa_mask example_day_of_year 255
              (example_context (-9999) [date_15; date_10] true) 2 0 4 out
              [date_15_read; date_10_read] 3%nat Hrun) as [Hmed Hc].
  - vm_compute. reflexivity.
  - reflexivity.
  - lia.
  - repeat constructor; vm_compute; eauto.
  - repeat constructor.
  - exists out, [778; 756; -9999; -9999], [2; 1; 2; 0].
    split; [reflexivity|]. split; [exact Hmedian|]. split; [by apply Hmed|].
    split; [exact Hcount|by apply Hc].
Defined.

(** Two dates of a pixel that is cloud on both: the stack holds the value
    and the day of the second date, the first one having no value. *)
Lemma cloudy_pixel_takes_first_data_witness :
  exists out,
    blend_block example_get_qa_mask example_day_of_year 255
      (example_context (-9999) cloudy_dates false) 2 0 1 = Ok out /\
    stack_raster (block_final out) !! 0%nat = Some 7000 /\
    provenance_array (block_final out) !! 0%nat = Some 10.
Proof.
  destruct (blend_block example_get_qa_mask example_day_of_year 255
              (example_context (-9999) cloudy_dates false) 2 0 1) as [out|e] eqn:Hrun;
    [|vm_compute in Hrun; discriminate].
  exists out. split; [reflexivity|].
  refine (cloudy_pixel_takes_first_data example_get_qa_mask example_day_of_year 255
            (example_context (-9999) cloudy_dates false) 2 0 1 out
            [cloudy_15_read] [] cloudy_10_read 0%nat 7000 Hrun _ _ _ _ _ _ _).
  - vm_compute. reflexivity.
  - lia.
  - repeat constructor; vm_compute; eauto.
  - repeat constructor.
  - repeat constructor.
  - reflexivity.
  - discriminate.
Defined.

(** An activity without scenes. *)
Lemma blend_without_scenes_witness :
  blend example_get_qa_mask example_day_of_year example_platform_is_oli "DATASOURCE" 255 id
    ∅ (activity_of [] "STK") (-9999) 0 10000 "quality" true false false = Err IndexError.
Proof.
  apply blend_without_scenes; [reflexivity|]. intros Hband. discriminate Hband.
Defined.

(** The example of the documentation of [concat_path]. *)
Lemma concat_path_keeps_every_entry_witness :
  concat_path [Str "/path"; Str "/any/path/"]
    = {| pathlib.root := pathlib.Root; pathlib.parts := ["path"; "any"; "path"]%string |}.
Proof.
  apply (concat_path_keeps_every_entry ["/path"; "/any/path/"]%string).
  repeat constructor.
Defined.

(** A file of the work directory. *)
Lemma item_prefix_replaces_directory_witness :
  _item_prefix "/work" "/data" "/cubes" (pathlib.parse "/work/identity/x.tif") None
    = Ok {| pathlib.root := pathlib.Root;
            pathlib.parts := ["cubes"; "identity"; "x.tif"]%string |}.
Proof.
  refine (proj1 (item_prefix_replaces_directory "/work" "/data" "/cubes" "/work/identity/x.tif"
                   None _ _) _).
  - reflexivity.
  - vm_compute. reflexivity.
Defined.

(** A file outside the work and the data directory. *)
Lemma item_prefix_outside_directories_witness :
  _item_prefix "/work" "/data" "/cubes" (pathlib.parse "/other/x.tif") None = Err ValueError.
Proof.
  apply (proj1 (item_prefix_outside_directories "/work" "/data" "/cubes"
                  (pathlib.parse "/other/x.tif") None)).
  split; vm_compute; reflexivity.
Defined.

(** A directory that holds temporary rasters only is removed. *)
Lemma cleanup_removes_temporary_rasters_only_witness :
  cleanup [{| entry_name := "tmpk3x9.TIF"; entry_is_file := true |};
           {| entry_name := "tmp_w.tif"; entry_is_file := true |}] = None.
Proof.
  apply (proj1 (cleanup_removes_temporary_rasters_only
                  [{| entry_name := "tmpk3x9.TIF"; entry_is_file := true |};
                   {| entry_name := "tmp_w.tif"; entry_is_file := true |}])).
  repeat constructor.
Defined.

(** Two dates of the band [nir]: no value of the stack composite is a clear
    value of the mask, so the efficacy is 0 and the cloud ratio 100. *)
Lemma blend_statistics_of_the_stack_witness :
  exists r parsed,
    blend example_get_qa_mask example_day_of_year example_platform_is_oli "DATASOURCE" 255 id
      (stored_files tied_dates) (activity_of tied_dates "STK") (-9999) 0 10000 "quality"
      true false false = Ok r /\
    parse_mask fmask = Ok parsed /\
    _qa_statistics example_get_qa_mask (concat (blend_stack_raster r)) parsed false None
      = Ok (blend_efficacy r, blend_cloudratio r) /\
    blend_stack_raster r = [[854; -9999]] /\
    blend_efficacy r = Finite 0 /\ blend_cloudratio r = Finite 100.
Proof.
  destruct (blend example_get_qa_mask example_day_of_year example_platform_is_oli "DATASOURCE"
              255 id (stored_files tied_dates) (activity_of tied_dates "STK") (-9999) 0 10000
              "quality" true false false) as [r|e] eqn:Hrun;
    [|vm_compute in Hrun; discriminate].
  destruct (blend_statistics_of_the_stack _ _ _ _ _ _ _ _ _ _ _ _ _ _ _ _ Hrun)
    as (parsed & Hparsed & Hstats).
  exists r, parsed. split; [reflexivity|]. split; [exact Hparsed|]. split; [exact Hstats|].
  vm_compute in Hrun. injection Hrun as <-. repeat split.
Defined.

(** Pixel 2 of the first of the two dates: its quality value is a clear
    value, so it is clear though its band value is nodata. *)
Lemma categorical_classification_of_a_pixel_witness :
  classify example_get_qa_mask (example_context (-9999) [date_15; date_10] false)
    [854; 756; -9999; -9999] [0; 0; 0; 255] [false; false; false; true] None !! 2%nat
  = Some false.
Proof.
  apply (categorical_classification_of_a_pixel example_get_qa_mask
           (example_context (-9999) [date_15; date_10] false)
           [854; 756; -9999; -9999] [0; 0; 0; 255] [false; false; false; true] None
           2%nat 0 (-9999) false); reflexivity.
Defined.

(** The first of the two dates: pixel 0, clear, takes its value and its day,
    and counts as done. *)
Lemma blend_date_pixel_witness :
  exists st',
    blend_date example_get_qa_mask example_day_of_year
      (example_context (-9999) [date_15; date_10] false) 0
      (initial_buffers 255 (example_context (-9999) [date_15; date_10] false) 2 4) 0 date_15
      = Ok st' /\
    stack_raster st' !! 0%nat = Some 854 /\
    provenance_array st' !! 0%nat = Some 15 /\
    notdonemask st' !! 0%nat = Some false.
Proof.
  eexists. split; [vm_compute; reflexivity|].
  refine (blend_date_pixel example_get_qa_mask example_day_of_year
            (example_context (-9999) [date_15; date_10] false) 0 0
            (initial_buffers 255 (example_context (-9999) [date_15; date_10] false) 2 4)
            _ date_15 date_15_read 0%nat (-9999) (-1) 854 true false _ _ _ _ _ _ _).
  - vm_compute. reflexivity.
  - vm_compute. reflexivity.
  - reflexivity.
  - reflexivity.
  - reflexivity.
  - reflexivity.
  - reflexivity.
Defined.
